(** * Webwright shell: classification, execution and command triage

    A shallow embedding of the decision logic of the Webwright shell
    (lib/shell/parser.py, lib/shell/executor.py, lib/shell/input_buffer.py,
    lib/shell/translator.py and the pending-command handlers of
    webwright/main.py), with the properties the specification states
    about it.

    Text is modelled as [string]: a sequence of code points below 256.
    The Python string methods the program calls are written out below with
    their behaviour on that range. *)

From Stdlib Require Import Bool List String Ascii ZArith Lia.
From Stdlib Require Import DecimalString DecimalNat.
Import ListNotations.
Open Scope string_scope.

(** ** Python string methods *)

Module Py.

(** [str.isspace] on one character: the separators that [str.strip] and
    [str.split] without argument, and the regular-expression class [\s],
    recognise. *)
Definition isspace (c : ascii) : bool :=
  let n := nat_of_ascii c in
  (((9 <=? n) && (n <=? 13)) || ((28 <=? n) && (n <=? 32))
   || (n =? 133) || (n =? 160))%nat.

(** [str.lower] on one character. *)
Definition lower_char (c : ascii) : ascii :=
  let n := nat_of_ascii c in
  if (((65 <=? n) && (n <=? 90))
      || ((192 <=? n) && (n <=? 222) && negb (n =? 215)))%nat
  then ascii_of_nat (n + 32) else c.

Fixpoint lower (s : string) : string :=
  match s with
  | EmptyString => EmptyString
  | String c s' => String (lower_char c) (lower s')
  end.

Definition startswith (s p : string) : bool := prefix p s.

Fixpoint lstrip (s : string) : string :=
  match s with
  | EmptyString => EmptyString
  | String c s' => if isspace c then lstrip s' else s
  end.

Fixpoint rstrip (s : string) : string :=
  match s with
  | EmptyString => EmptyString
  | String c s' =>
      match rstrip s' with
      | EmptyString => if isspace c then EmptyString else String c EmptyString
      | r => String c r
      end
  end.

Definition strip (s : string) : string := rstrip (lstrip s).

(** [needle in s]. *)
Fixpoint contains (s needle : string) : bool :=
  prefix needle s
  || match s with
     | EmptyString => false
     | String _ s' => contains s' needle
     end.

(** [s.endswith(p)]. *)
Fixpoint endswith (s p : string) : bool :=
  String.eqb s p
  || match s with
     | EmptyString => false
     | String _ s' => endswith s' p
     end.

(** [s.split()]: the maximal runs of non-space characters.  [cur] is the run
    being read, if any. *)
Fixpoint split_ws_from (s : string) (cur : option string) : list string :=
  match s with
  | EmptyString => match cur with Some w => [w] | None => [] end
  | String c s' =>
      if isspace c
      then match cur with
           | Some w => w :: split_ws_from s' None
           | None => split_ws_from s' None
           end
      else split_ws_from s'
             (Some (match cur with Some w => w | None => EmptyString end
                    ++ String c EmptyString))
  end.

Definition split_ws (s : string) : list string := split_ws_from s None.

(** [s.split(sep)] for a non-empty separator.  [skip] counts the characters of
    a separator just matched that are still to be passed over; [cur] is the
    part being read. *)
Fixpoint split_on_from (sep s : string) (skip : nat) (cur : string)
  : list string :=
  match s with
  | EmptyString => [cur]
  | String c s' =>
      match skip with
      | S k => split_on_from sep s' k cur
      | O =>
          if prefix sep s
          then cur :: split_on_from sep s' (String.length sep - 1) EmptyString
          else split_on_from sep s' 0 (cur ++ String c EmptyString)
      end
  end.

Definition split_on (s sep : string) : list string :=
  split_on_from sep s 0 EmptyString.

(** [s.split(sep, 1)]. *)
Fixpoint split_once_from (sep s : string) (cur : string) : list string :=
  match s with
  | EmptyString => [cur]
  | String c s' =>
      if prefix sep s
      then [cur; substring (String.length sep) (String.length s) s]
      else split_once_from sep s' (cur ++ String c EmptyString)
  end.

(** [s.replace(old, new)] for a non-empty [old]: the occurrences are taken
    from left to right and do not overlap. *)
Fixpoint replace_from (old new s : string) (skip : nat) : string :=
  match s with
  | EmptyString => EmptyString
  | String c s' =>
      match skip with
      | S k => replace_from old new s' k
      | O =>
          if prefix old s
          then new ++ replace_from old new s' (String.length old - 1)
          else String c (replace_from old new s' 0)
      end
  end.

Definition replace (s old new : string) : string :=
  replace_from old new s 0.

(** [sep.join(parts)]. *)
Fixpoint join (sep : string) (parts : list string) : string :=
  match parts with
  | [] => EmptyString
  | [p] => p
  | p :: ps => p ++ sep ++ join sep ps
  end.

(** [x in l] for a list, tuple or set of strings. *)
Definition mem (x : string) (l : list string) : bool :=
  existsb (String.eqb x) l.

(** Truth value of a string: non-empty. *)
Definition truthy (s : string) : bool :=
  match s with EmptyString => false | _ => true end.

End Py.

(** Characters that cannot be written inside a string literal. *)
Definition newline : string := String "010"%char EmptyString.
Definition dquote : ascii := "034"%char.
Definition squote : ascii := "039"%char.
Definition backslash : ascii := "092"%char.

(** ** lib/shell/parser.py *)

Inductive InputType : Type :=
| SHELL_COMMAND
| NATURAL_LANGUAGE
| AI_REQUEST
| COMMENT
| EMPTY.

Module InputParser.

(** [SHELL_COMMANDS]; [nt] is [os.name == 'nt'], which adds the Windows
    built-ins. *)
Definition SHELL_COMMANDS (nt : bool) : list string :=
  ["ls"; "cd"; "pwd"; "cat"; "echo"; "grep"; "find"; "git";
   "python"; "node"; "npm"; "pip"; "docker"; "kubectl";
   "mkdir"; "rm"; "cp"; "mv"; "touch"; "chmod"; "chown";
   "ps"; "kill"; "top"; "df"; "du"; "tar"; "gzip"; "curl"; "wget";
   "export"; "mode"]
  ++ (if nt then ["dir"; "type"; "cls"; "copy"; "del"] else []).

Definition AI_PREFIX : string := "ai:".

Definition shell_operators : list string :=
  ["|"; ">"; "<"; "&&"; "||"; ";"; ">>"].

(** [text.split()[0] if text.split() else ''] *)
Definition first_word (text : string) : string :=
  match Py.split_ws text with
  | w :: _ => w
  | [] => EmptyString
  end.

Definition _is_shell_command (nt : bool) (text : string) : bool :=
  let first_word := first_word text in
  if Py.mem first_word (SHELL_COMMANDS nt) then true
  else if existsb (Py.contains text) shell_operators then true
  else if Py.startswith first_word "./" || Py.startswith first_word "/" then true
  else if Py.contains first_word "=" && negb (Py.contains first_word " ") then true
  else false.

Definition classify (nt : bool) (user_input : string) : InputType :=
  let stripped := Py.strip user_input in
  if negb (Py.truthy stripped) then EMPTY
  else if Py.startswith stripped "#" then COMMENT
  else if Py.startswith (Py.lower stripped) AI_PREFIX then AI_REQUEST
  else if _is_shell_command nt stripped then SHELL_COMMAND
  else NATURAL_LANGUAGE.

(** [user_input.strip()[len(AI_PREFIX):].strip()] *)
Definition extract_ai_request (user_input : string) : string :=
  if Py.startswith (Py.lower (Py.strip user_input)) AI_PREFIX
  then let s := Py.strip user_input in
       Py.strip (substring (String.length AI_PREFIX) (String.length s) s)
  else user_input.

End InputParser.

(** ** Python's shlex.split

    [shlex.split(s)] runs the standard lexer in POSIX mode with
    [whitespace_split] set and no comment characters.  The lexer is the state
    machine of [shlex.read_token]; reading all tokens is one pass over the
    text. *)

Module Shlex.

Inductive LexState : Type :=
| InSpace                 (* state ' ' *)
| InWord                  (* state 'a' *)
| InQuote (q : ascii)     (* state is the open quote character *)
| InEscape.               (* state is the escape character *)

Inductive Lexed : Type :=
| Tokens (parts : list string)
| LexError (msg : string).

Definition whitespace (c : ascii) : bool :=
  let n := nat_of_ascii c in
  ((n =? 32) || (n =? 9) || (n =? 13) || (n =? 10))%nat.

Definition quotes (c : ascii) : bool :=
  Ascii.eqb c squote || Ascii.eqb c dquote.

Definition escape (c : ascii) : bool := Ascii.eqb c backslash.

Definition escapedquotes (c : ascii) : bool := Ascii.eqb c dquote.

Definition emit (token : string) (rest : Lexed) : Lexed :=
  match rest with
  | Tokens parts => Tokens (token :: parts)
  | LexError msg => LexError msg
  end.

Definition add (token : string) (c : ascii) : string :=
  token ++ String c EmptyString.

Fixpoint read (s : string) (state escapedstate : LexState)
         (token : string) (quoted : bool) : Lexed :=
  match s with
  | EmptyString =>
      match state with
      | InQuote _ => LexError "No closing quotation"
      | InEscape => LexError "No escaped character"
      | InSpace | InWord =>
          Tokens (if Py.truthy token || quoted then [token] else [])
      end
  | String c s' =>
      match state with
      | InSpace =>
          if whitespace c then
            if Py.truthy token || quoted
            then emit token (read s' InSpace InSpace EmptyString false)
            else read s' InSpace escapedstate token quoted
          else if escape c then read s' InEscape InWord token quoted
          else if quotes c then read s' (InQuote c) escapedstate token quoted
          else read s' InWord escapedstate (String c EmptyString) quoted
      | InQuote q =>
          if Ascii.eqb c q then read s' InWord escapedstate token true
          else if escape c && escapedquotes q
               then read s' InEscape (InQuote q) token true
          else read s' (InQuote q) escapedstate (add token c) true
      | InEscape =>
          let token :=
            match escapedstate with
            | InQuote q =>
                if negb (escape c) && negb (Ascii.eqb c q)
                then add token backslash else token
            | _ => token
            end in
          read s' escapedstate escapedstate (add token c) quoted
      | InWord =>
          if whitespace c then
            if Py.truthy token || quoted
            then emit token (read s' InSpace InSpace EmptyString false)
            else read s' InSpace escapedstate token quoted
          else if quotes c then read s' (InQuote c) escapedstate token quoted
          else if escape c then read s' InEscape InWord token quoted
          else read s' InWord escapedstate (add token c) quoted
      end
  end.

Definition split (s : string) : Lexed :=
  read s InSpace InSpace EmptyString false.

End Shlex.

(** ** Results, exceptions and the collaborators of the shell *)

(** The exceptions that cross a function boundary in the modelled code.
    [SystemExit] is not an [Exception]: an [except Exception] clause lets it
    through. *)
Inductive exn : Type :=
| SystemExit (code : Z)
| ValueError (msg : string)
| OSError (msg : string)
| LibraryError (msg : string).

(** lib/shell/executor.py, [CommandResult]. *)
Record CommandResult : Type := mkResult {
  returncode : Z;
  stdout : string;
  stderr : string;
  command : string
}.

(** A dict from strings to strings, in insertion order. *)
Definition Env : Type := list (string * string).

Fixpoint dict_set (k v : string) (d : Env) : Env :=
  match d with
  | [] => [(k, v)]
  | (k', v') :: d' =>
      if String.eqb k' k then (k, v) :: d' else (k', v') :: dict_set k v d'
  end.

(** One call of the process primitive [subprocess.run(command, shell=True,
    cwd=..., env=..., capture_output=True, text=True, timeout=...)]. *)
Record SpawnCall : Type := mkSpawn {
  spawn_command : string;
  spawn_cwd : string;
  spawn_env : Env;
  spawn_timeout : Z
}.

Inductive RunOutcome : Type :=
| Completed (rc : Z) (out err : string)
| TimeoutExpired
| RunFailed (msg : string).   (* any other Exception, with its str() *)

(** What [import pyperclip; pyperclip.paste()] does. *)
Inductive Pyperclip : Type :=
| NotInstalled                (* the import raises ImportError *)
| Pasted (text : string)
| PasteFailed (msg : string). (* paste() raises, e.g. no copy/paste mechanism *)

(** The operating system and the libraries, as the program consumes them.
    [World] is whatever they depend on and change: the file system, the
    process environment, standard input, the clipboard. *)
Record Platform : Type := {
  World : Type;
  os_name_nt : bool;
  sys_platform : string;
  expanduser : World -> string -> string;
  isabs : string -> bool;
  path_join : string -> string -> string;
  normpath : string -> string;
  relpath : World -> string -> string -> string + string;
  isdir : World -> string -> bool;
  isfile : World -> string -> bool;
  chdir : World -> string -> option exn * World;
  environ_set : World -> string -> string -> option exn * World;
  subprocess_run : World -> SpawnCall -> RunOutcome * World;
  stdin_isatty : World -> bool;
  stdin_read : World -> option string * World;
  glob : World -> string -> list string;
  read_text : World -> string -> string + string;
  pyperclip_paste : World -> Pyperclip;
  check_output : World -> list string -> option string;
  win32_clipboard : World -> option string
}.

(** lib/shell/state.py, [ShellState]. *)
Record ShellState : Type := mkState {
  cwd : string;
  env : Env;
  mode : string;
  last_exit_code : Z;
  history : list string;
  aliases : Env;
  last_command : string;
  last_stdout : string;
  last_stderr : string;
  last_returncode : Z;
  pending_commands : list string;
  prompt_prefill : string
}.

Definition set_cwd (v : string) (st : ShellState) : ShellState :=
  mkState v (env st) (mode st) (last_exit_code st) (history st) (aliases st)
          (last_command st) (last_stdout st) (last_stderr st)
          (last_returncode st) (pending_commands st) (prompt_prefill st).

Definition set_env (v : Env) (st : ShellState) : ShellState :=
  mkState (cwd st) v (mode st) (last_exit_code st) (history st) (aliases st)
          (last_command st) (last_stdout st) (last_stderr st)
          (last_returncode st) (pending_commands st) (prompt_prefill st).

Definition set_mode (v : string) (st : ShellState) : ShellState :=
  mkState (cwd st) (env st) v (last_exit_code st) (history st) (aliases st)
          (last_command st) (last_stdout st) (last_stderr st)
          (last_returncode st) (pending_commands st) (prompt_prefill st).

Definition set_last_exit_code (v : Z) (st : ShellState) : ShellState :=
  mkState (cwd st) (env st) (mode st) v (history st) (aliases st)
          (last_command st) (last_stdout st) (last_stderr st)
          (last_returncode st) (pending_commands st) (prompt_prefill st).

Definition set_last (r : CommandResult) (st : ShellState) : ShellState :=
  mkState (cwd st) (env st) (mode st) (last_exit_code st) (history st)
          (aliases st) (command r) (stdout r) (stderr r) (returncode r)
          (pending_commands st) (prompt_prefill st).

Definition set_pending_commands (v : list string) (st : ShellState)
  : ShellState :=
  mkState (cwd st) (env st) (mode st) (last_exit_code st) (history st)
          (aliases st) (last_command st) (last_stdout st) (last_stderr st)
          (last_returncode st) v (prompt_prefill st).

Definition set_prompt_prefill (v : string) (st : ShellState) : ShellState :=
  mkState (cwd st) (env st) (mode st) (last_exit_code st) (history st)
          (aliases st) (last_command st) (last_stdout st) (last_stderr st)
          (last_returncode st) (pending_commands st) v.

(** What the shell writes to the terminal, without the styling. *)
Inductive Event : Type :=
| AgentCommand (staged : bool) (text : string)
| ShowStdout (text : string)
| ShowStderr (text : string)
| Notice (text : string).

(** ** The session: shell state, world, and what has been observed *)

Section Session.

Variable P : Platform.

(** [spawned] lists the calls of the process primitive and [executed] the
    command texts handed to [ShellExecutor.execute], both in call order;
    [display] is the terminal output. *)
Record Sys : Type := mkSys {
  shell : ShellState;
  world : World P;
  spawned : list SpawnCall;
  executed : list string;
  display : list Event
}.

Definition with_shell (f : ShellState -> ShellState) (s : Sys) : Sys :=
  mkSys (f (shell s)) (world s) (spawned s) (executed s) (display s).

Definition with_world (w : World P) (s : Sys) : Sys :=
  mkSys (shell s) w (spawned s) (executed s) (display s).

Definition log_spawn (c : SpawnCall) (s : Sys) : Sys :=
  mkSys (shell s) (world s) (spawned s ++ [c]) (executed s) (display s).

Definition log_execute (c : string) (s : Sys) : Sys :=
  mkSys (shell s) (world s) (spawned s) (executed s ++ [c]) (display s).

Definition show (e : Event) (s : Sys) : Sys :=
  mkSys (shell s) (world s) (spawned s) (executed s) (display s ++ [e]).

(** A call either returns a value or raises, and in both cases leaves a
    state behind. *)
Inductive Outcome (A : Type) : Type :=
| Ok (a : A) (s : Sys)
| Raise (e : exn) (s : Sys).

Arguments Ok {A} a s.
Arguments Raise {A} e s.

Definition M (A : Type) : Type := Sys -> Outcome A.

Definition ret {A : Type} (a : A) : M A := fun s => Ok a s.

Definition raise {A : Type} (e : exn) : M A := fun s => Raise e s.

Definition bind {A B : Type} (m : M A) (k : A -> M B) : M B :=
  fun s => match m s with
           | Ok a s' => k a s'
           | Raise e s' => Raise e s'
           end.

Definition gets {A : Type} (f : Sys -> A) : M A := fun s => Ok (f s) s.

Definition modify (f : Sys -> Sys) : M unit := fun s => Ok tt (f s).

Definition final {A : Type} (o : Outcome A) : Sys :=
  match o with Ok _ s => s | Raise _ s => s end.

End Session.

Arguments shell {P} s.
Arguments world {P} s.
Arguments spawned {P} s.
Arguments executed {P} s.
Arguments display {P} s.
Arguments with_shell {P} f s.
Arguments with_world {P} w s.
Arguments log_spawn {P} c s.
Arguments log_execute {P} c s.
Arguments show {P} e s.
Arguments Ok {P A} a s.
Arguments Raise {P A} e s.
Arguments bind {P A B} m k.
Arguments final {P A} o.
Arguments ret {P A} a.
Arguments raise {P A} e.
Arguments gets {P A} f.
Arguments modify {P} f.

Notation "x <- m ;; k" := (bind m (fun x => k))
  (at level 61, m at next level, right associativity).
Notation "m ;; k" := (bind m (fun _ => k))
  (at level 61, right associativity).

(** ** lib/shell/executor.py *)

Module ShellExecutor.

Section Executor.

Variable P : Platform.

Definition shell_interpreters : list string :=
  ["cmd"; "bash"; "sh"; "powershell"; "pwsh"; "zsh"].

(** The keys of [_register_builtins]. *)
Definition builtins : list string := ["cd"; "export"; "pwd"; "exit"; "mode"].

Definition _record_result (result : CommandResult) : M P unit :=
  modify (with_shell (set_last result)).

(** [args[0] if args else "~"], as the result's command text shows it. *)
Definition cd_shown (args : list string) : string :=
  "cd " ++ match args with a :: _ => a | [] => "~" end.

(** The directory [cd args] resolves to. *)
Definition cd_target (args : list string) (s : Sys P) : string :=
  let w := world s in
  let target := match args with a :: _ => a | [] => expanduser P w "~" end in
  let target := expanduser P w target in
  let target := if negb (isabs P target)
                then path_join P (cwd (shell s)) target else target in
  normpath P target.

Definition _builtin_cd (args : list string) : M P CommandResult :=
  fun s =>
    let target := cd_target args s in
    if isdir P (world s) target then
      let s := with_shell (set_cwd target) s in
      match chdir P (world s) target with
      | (Some e, w) => Raise e (with_world w s)
      | (None, w) =>
          Ok (mkResult 0 EmptyString EmptyString (cd_shown args))
             (with_world w s)
      end
    else
      Ok (mkResult 1 EmptyString
                   ("cd: " ++ target ++ ": No such directory" ++ newline)
                   (cd_shown args)) s.

Definition _builtin_pwd (args : list string) : M P CommandResult :=
  st <- gets shell ;;
  ret (mkResult 0 (cwd st ++ newline) EmptyString "pwd").

(** [key, value = arg.split('=', 1)] for an [arg] that contains [=]. *)
Definition split_assignment (arg : string) : string * string :=
  match Py.split_once_from "=" arg EmptyString with
  | [k; v] => (k, v)
  | _ => (arg, EmptyString)
  end.

Fixpoint export_each (args : list string) : M P unit :=
  match args with
  | [] => ret tt
  | arg :: rest =>
      (if Py.contains arg "=" then
         let (key, value) := split_assignment arg in
         modify (with_shell (fun st => set_env (dict_set key value (env st)) st)) ;;
         (fun s => match environ_set P (world s) key value with
                   | (Some e, w) => Raise e (with_world w s)
                   | (None, w) => Ok tt (with_world w s)
                   end)
       else ret tt) ;;
      export_each rest
  end.

Definition _builtin_export (args : list string) : M P CommandResult :=
  match args with
  | [] =>
      st <- gets shell ;;
      let output :=
        Py.join newline (map (fun kv => fst kv ++ "=" ++ snd kv) (env st)) in
      ret (mkResult 0 (output ++ newline) EmptyString "export")
  | _ =>
      export_each args ;;
      ret (mkResult 0 EmptyString EmptyString ("export " ++ Py.join " " args))
  end.

(** [str.isdigit] and [int] on one character: the superscript digits are
    digits to the first and not to the second. *)
Definition isdigit_char (c : ascii) : bool :=
  let n := nat_of_ascii c in
  (((48 <=? n) && (n <=? 57)) || (n =? 178) || (n =? 179) || (n =? 185))%nat.

Fixpoint isdigit_all (s : string) : bool :=
  match s with
  | EmptyString => true
  | String c s' => isdigit_char c && isdigit_all s'
  end.

Definition isdigit (s : string) : bool := Py.truthy s && isdigit_all s.

Fixpoint int_from (s : string) (acc : Z) : option Z :=
  match s with
  | EmptyString => Some acc
  | String c s' =>
      let n := nat_of_ascii c in
      if ((48 <=? n) && (n <=? 57))%nat
      then int_from s' (10 * acc + Z.of_nat (n - 48))
      else None
  end.

(** The decimal digits that lead [s]: what [int] counts against its limit. *)
Fixpoint leading_digits (s : string) : nat :=
  match s with
  | EmptyString => 0
  | String c s' =>
      let n := nat_of_ascii c in
      if ((48 <=? n) && (n <=? 57))%nat then S (leading_digits s') else 0
  end.

(** [sys.get_int_max_str_digits()], as CPython sets it (3.11, and 3.7 to
    3.10 as patched). *)
Definition int_max_str_digits : nat := 4300.

(** [int(s)] for a text that [isdigit] accepts: the number, or the message
    of the ValueError.  The digits are counted against the limit before the
    rest of the text is looked at; the other message shows the text as
    [%.200R] does, which for such a text is the text between single quotes,
    cut to 200 characters. *)
Definition int (s : string) : Z + string :=
  if (int_max_str_digits <? leading_digits s)%nat then
    inr ("Exceeds the limit (4300 digits) for integer string conversion: value has "
         ++ NilZero.string_of_uint (Nat.to_uint (leading_digits s))
         ++ " digits; use sys.set_int_max_str_digits() to increase the limit")
  else
    match int_from s 0 with
    | Some n => inl n
    | None =>
        inr ("invalid literal for int() with base 10: "
             ++ substring 0 200 ("'" ++ s ++ "'"))
    end.

Definition _builtin_exit (args : list string) : M P CommandResult :=
  match args with
  | a :: _ =>
      if isdigit a then
        match int a with
        | inl code => raise (SystemExit code)
        | inr msg => raise (ValueError msg)
        end
      else raise (SystemExit 0)
  | [] => raise (SystemExit 0)
  end.

Definition _builtin_mode (args : list string) : M P CommandResult :=
  match args with
  | [] =>
      st <- gets shell ;;
      ret (mkResult 0
             ("Current mode: " ++ mode st ++ newline
              ++ "Available: shell, nl, ai" ++ newline)
             EmptyString "mode")
  | a :: _ =>
      let mode := Py.lower a in
      if Py.mem mode ["shell"; "nl"; "ai"] then
        modify (with_shell (set_mode mode)) ;;
        ret (mkResult 0 ("Switched to " ++ mode ++ " mode" ++ newline)
                      EmptyString ("mode " ++ mode))
      else
        ret (mkResult 1 EmptyString
               ("Invalid mode: " ++ mode ++ ". Use: shell, nl, or ai" ++ newline)
               ("mode " ++ mode))
  end.

(** [self.builtins[name](args)] for a [name] among the keys. *)
Definition call_builtin (name : string) (args : list string)
  : M P CommandResult :=
  if String.eqb name "cd" then _builtin_cd args
  else if String.eqb name "export" then _builtin_export args
  else if String.eqb name "pwd" then _builtin_pwd args
  else if String.eqb name "exit" then _builtin_exit args
  else _builtin_mode args.

(** The [try] block of [execute]: the process primitive, with every way it
    can end turned into a result. *)
Definition run_external (command : string) : M P CommandResult :=
  fun s =>
    let call := mkSpawn command (cwd (shell s)) (env (shell s)) 300 in
    let (outcome, w) := subprocess_run P (world s) call in
    let s := log_spawn call (with_world w s) in   (* the call, for the log *)
    let result :=
      match outcome with
      | Completed rc out err => mkResult rc out err command
      | TimeoutExpired =>
          mkResult 124 EmptyString "Command timed out after 5 minutes" command
      | RunFailed msg =>
          mkResult 1 EmptyString ("Execution error: " ++ msg) command
      end in
    (_record_result result ;; ret result) s.

Definition execute (command : string) : M P CommandResult :=
  modify (log_execute command) ;;                 (* the call, for the log *)
  let command := Py.strip command in
  if negb (Py.truthy command) || Py.startswith command "#" then
    ret (mkResult 0 EmptyString EmptyString command)
  else if Py.mem (Py.lower command) shell_interpreters then
    ret (mkResult 0 EmptyString EmptyString command)
  else
    match Shlex.split command with
    | Shlex.LexError msg => raise (ValueError msg)
    | Shlex.Tokens cmd_parts =>
        match cmd_parts with
        | name :: args =>
            if Py.mem name builtins then
              result <- call_builtin name args ;;
              _record_result result ;;
              ret result
            else run_external command
        | [] => run_external command
        end
    end.

End Executor.

End ShellExecutor.

(** ** lib/shell/input_buffer.py *)

Module InputBuffer.

(** The dict [process_input] returns. *)
Record Processed : Type := mkProcessed {
  command : string;
  context : list string;
  files : list string
}.

(** [re.findall(r'@([^\s]+)', text)]: each [@] that a non-space character
    follows opens a reference, which runs to the next space.  [cur] is the
    reference being read, if any. *)
Fixpoint findall_refs_from (s : string) (cur : option string) : list string :=
  match s with
  | EmptyString => match cur with Some r => [r] | None => [] end
  | String c s' =>
      match cur with
      | Some r =>
          if Py.isspace c then r :: findall_refs_from s' None
          else findall_refs_from s' (Some (r ++ String c EmptyString))
      | None =>
          if Ascii.eqb c "@"%char then
            match s' with
            | String d _ =>
                if Py.isspace d then findall_refs_from s' None
                else findall_refs_from s' (Some EmptyString)
            | EmptyString => []
            end
          else findall_refs_from s' None
      end
  end.

Definition findall_refs (text : string) : list string :=
  findall_refs_from text None.

Section Buffer.

Variable P : Platform.

Definition _read_file (path : string) (s : Sys P) : string :=
  let path := if negb (isabs P path)
              then path_join P (cwd (shell s)) path else path in
  if negb (isfile P (world s) path) then
    "# Error: File not found: " ++ path ++ newline
  else
    match read_text P (world s) path with
    | inr e => "# Error reading " ++ path ++ ": " ++ e ++ newline
    | inl content =>
        match relpath P (world s) path (cwd (shell s)) with
        | inr e => "# Error reading " ++ path ++ ": " ++ e ++ newline
        | inl rel_path =>
            "# File: " ++ rel_path ++ newline ++ content ++ newline
        end
    end.

Definition _get_clipboard : M P string :=
  fun s =>
    match pyperclip_paste P (world s) with
    | Pasted text => Ok text s
    | PasteFailed msg => Raise (LibraryError msg) s
    | NotInstalled =>
        let fallback :=
          if String.eqb (sys_platform P) "darwin" then
            check_output P (world s) ["pbpaste"]
          else if String.eqb (sys_platform P) "linux" then
            check_output P (world s) ["xclip"; "-selection"; "clipboard"; "-o"]
          else if String.eqb (sys_platform P) "win32" then
            win32_clipboard P (world s)
          else None in
        match fallback with
        | Some data => Ok data s
        | None => Ok EmptyString s
        end
    end.

(** Step 1: standard input, when it is not a terminal. *)
Definition read_stdin : M P (list string) :=
  fun s =>
    if negb (stdin_isatty P (world s)) then
      match stdin_read P (world s) with
      | (Some stdin_content, w) =>
          Ok (if Py.truthy stdin_content
              then ["# Stdin:" ++ newline ++ stdin_content] else [])
             (with_world w s)
      | (None, w) => Ok [] (with_world w s)
      end
    else Ok [] s.

(** Step 2, for one reference: the blobs and the file names it adds. *)
Definition read_ref (ref : string) (s : Sys P) : list string * list string :=
  if Py.contains ref "*" then
    let matched_files := glob P (world s) ref in
    let read := filter (fun f => Py.truthy (_read_file f s)) matched_files in
    (map (fun f => _read_file f s) read, read)
  else
    let content := _read_file ref s in
    if Py.truthy content then ([content], [ref]) else ([], []).

Definition read_refs (file_refs : list string) (s : Sys P)
  : list string * list string :=
  fold_left (fun acc ref =>
               let (c, f) := read_ref ref s in
               ((fst acc ++ c)%list, (snd acc ++ f)%list))
            file_refs ([], []).

(** Step 4: the text without the references and the clipboard markers. *)
Definition clean (text : string) (file_refs : list string) : string :=
  let clean_command :=
    fold_left (fun acc ref => Py.replace acc ("@" ++ ref) EmptyString)
              file_refs text in
  Py.strip (Py.replace (Py.replace clean_command "{clipboard}" EmptyString)
                       "{clip}" EmptyString).

Definition process_input (text : string) : M P Processed :=
  stdin_blobs <- read_stdin ;;
  let file_refs := findall_refs text in
  file_blobs <- gets (read_refs file_refs) ;;
  clip_blobs <-
    (if Py.contains text "{clipboard}" || Py.contains text "{clip}" then
       clipboard_content <- _get_clipboard ;;
       ret (if Py.truthy clipboard_content
            then ["# Clipboard:" ++ newline ++ clipboard_content] else [])
     else ret []) ;;
  ret (mkProcessed (clean text file_refs)
                   (stdin_blobs ++ fst file_blobs ++ clip_blobs)%list
                   (snd file_blobs)).

End Buffer.

End InputBuffer.

(** ** lib/shell/translator.py *)

Module NLTranslator.

(** The [for ... else] of [_clean_output]: the first part that, stripped,
    starts with [bash] or [sh]. *)
Fixpoint first_tagged (parts : list string) : option string :=
  match parts with
  | [] => None
  | part :: rest =>
      if Py.startswith (Py.strip part) "bash"
         || Py.startswith (Py.strip part) "sh"
      then Some part
      else first_tagged rest
  end.

Definition _clean_output (text : string) : string :=
  let text :=
    if Py.contains text "```" then
      let parts := Py.split_on text "```" in
      match first_tagged parts with
      | Some part =>
          Py.strip (Py.replace (Py.replace part "bash" EmptyString)
                               "sh" EmptyString)
      | None =>
          match parts with
          | _ :: second :: _ => second
          | _ => text
          end
      end
    else text in
  Py.strip text.

End NLTranslator.

(** ** webwright/main.py: the pending-command handlers *)

Module WebrightShell.

Definition safe_prefixes : list string :=
  ["ls"; "pwd"; "cd"; "whoami"; "date"; "cat"; "echo";
   "git status"; "git diff"; "head"; "tail"; "dir"].

Definition risky_keywords : list string :=
  ["rm"; "mv"; "chmod"; "chown"; "docker"; "kubectl";
   "git push"; "git commit"; "pip install"; "npm install";
   "apt"; "brew"; "systemctl"; "shutdown"; "reboot"].

Definition rerun_phrases : list string :=
  ["run it"; "run that"; "execute it"; "do it"; "go ahead";
   "please run it"; "run the command"; "run those"].

(** The lines of a translation that become [pending_commands]. *)
Definition actionable (translated : string) : list string :=
  map Py.strip
      (filter (fun line => Py.truthy (Py.strip line)
                           && negb (Py.startswith (Py.strip line) "#"))
              (Py.split_on translated newline)).

(** [list.remove(x)]: drops the first element equal to [x]; [None] when
    there is none, where Python raises ValueError. *)
Fixpoint remove_first (x : string) (l : list string) : option (list string) :=
  match l with
  | [] => None
  | y :: l' =>
      if String.eqb y x then Some l'
      else option_map (cons y) (remove_first x l')
  end.

Section Handlers.

Variable P : Platform.

Definition _should_autorun (command : string) (s : Sys P) : bool :=
  let command_lower := Py.lower command in
  if existsb (Py.startswith command_lower) safe_prefixes then true
  else if existsb (Py.contains command_lower) risky_keywords then false
  else if Py.startswith command_lower "python "
          || Py.startswith command_lower "py " then
    let parts := match Shlex.split command with
                 | Shlex.Tokens parts => parts
                 | Shlex.LexError _ => Py.split_ws command
                 end in
    match parts with
    | _ :: script_path :: _ =>
        let script_path :=
          if negb (isabs P script_path)
          then path_join P (cwd (shell s)) script_path else script_path in
        isfile P (world s) script_path && Py.endswith script_path ".py"
    | _ => false
    end
  else false.

Definition _print_agent_command (command : string) (staged : bool) : M P unit :=
  modify (show (AgentCommand staged command)).

Definition _print_result (result : CommandResult) : M P unit :=
  (if Py.truthy (stdout result)
   then modify (show (ShowStdout (stdout result))) else ret tt) ;;
  (if Py.truthy (stderr result)
   then modify (show (ShowStderr (stderr result))) else ret tt).

(** [self.state.pending_commands.remove(command)] *)
Definition remove_pending (command : string) : M P unit :=
  fun s =>
    match remove_first command (pending_commands (shell s)) with
    | Some l => Ok tt (with_shell (set_pending_commands l) s)
    | None => Raise (ValueError "list.remove(x): x not in list") s
    end.

(** One command run on behalf of the user: shown, executed, its result
    shown and recorded, and the command taken off the queue. *)
Definition run_one (command : string) : M P unit :=
  _print_agent_command command false ;;
  result <- ShellExecutor.execute P command ;;
  _print_result result ;;
  modify (with_shell (set_last_exit_code (returncode result))) ;;
  remove_pending command.

(** The loop of [_execute_translated_commands] over the copy [snapshot] of
    the queue. *)
Fixpoint triage (snapshot : list string) : M P unit :=
  match snapshot with
  | [] => ret tt
  | command :: rest =>
      autorun <- gets (_should_autorun command) ;;
      if autorun then
        run_one command ;;
        triage rest
      else
        prefill <- gets (fun s => prompt_prefill (shell s)) ;;
        if negb (Py.truthy prefill) then
          modify (with_shell (set_prompt_prefill command)) ;;
          _print_agent_command command true ;;
          modify (show (Notice "Press Enter to run or edit the prepared command."))
        else ret tt
  end.

Definition _execute_translated_commands : M P unit :=
  snapshot <- gets (fun s => pending_commands (shell s)) ;;
  triage snapshot.

(** The loop of [_run_pending_commands] over the copy of the queue. *)
Fixpoint run_all (snapshot : list string) : M P unit :=
  match snapshot with
  | [] => ret tt
  | command :: rest => run_one command ;; run_all rest
  end.

Definition _run_pending_commands : M P unit :=
  snapshot <- gets (fun s => pending_commands (shell s)) ;;
  match snapshot with
  | [] => modify (show (Notice "Nothing queued to run."))
  | _ =>
      modify (with_shell (set_prompt_prefill EmptyString)) ;;
      run_all snapshot
  end.

Definition _handle_shortcut (nl_request : string) : M P bool :=
  let request := Py.lower (Py.strip nl_request) in
  if Py.mem request rerun_phrases then
    _run_pending_commands ;;
    ret true
  else ret false.

End Handlers.

End WebrightShell.

(** ** A concrete platform

    A POSIX machine without a display: [pyperclip] is installed and finds no
    copy/paste mechanism, the file system holds a few directories and one
    script, and every command the process primitive is given completes at
    once, except [sleep 400], which outlives the timeout.  Of the operating
    system the world keeps what the session changes: the environment and
    the working directory of the process, which the path functions read. *)

Module Headless.

Definition home : string := "/home/user".

(** posixpath.isabs *)
Definition posix_isabs (s : string) : bool := Py.startswith s "/".

(** posixpath.join, for two components *)
Definition posix_join (a b : string) : string :=
  if Py.startswith b "/" then b
  else if negb (Py.truthy a) || Py.endswith a "/" then a ++ b
  else a ++ "/" ++ b.

(** The loop of posixpath.normpath over the components. *)
Definition norm_step (rooted : bool) (new_comps : list string) (comp : string)
  : list string :=
  if String.eqb comp EmptyString || String.eqb comp "." then new_comps
  else if negb (String.eqb comp "..")
          || (negb rooted && match new_comps with [] => true | _ => false end)
          || String.eqb (last new_comps EmptyString) ".."
       then (new_comps ++ [comp])%list
  else removelast new_comps.

(** posixpath.normpath *)
Definition posix_normpath (path : string) : string :=
  if negb (Py.truthy path) then "."
  else
    let initial_slashes :=
      if Py.startswith path "/" then
        if Py.startswith path "//" && negb (Py.startswith path "///")
        then "//" else "/"
      else EmptyString in
    let comps := Py.split_on path "/" in
    let new_comps := fold_left (norm_step (Py.truthy initial_slashes)) comps [] in
    let path := initial_slashes ++ Py.join "/" new_comps in
    if Py.truthy path then path else ".".

(** What the session changes of the operating system: [os.environ] and the
    working directory of the process. *)
Record Os : Type := mkOs {
  environ : Env;
  getcwd : string
}.

Fixpoint lookup (k : string) (d : Env) : option string :=
  match d with
  | [] => None
  | (k', v) :: d' => if String.eqb k' k then Some v else lookup k d'
  end.

(** [userhome.rstrip('/')] *)
Fixpoint rstrip_slash (s : string) : string :=
  match s with
  | EmptyString => EmptyString
  | String c s' =>
      match rstrip_slash s' with
      | EmptyString =>
          if Ascii.eqb c "/" then EmptyString else String c EmptyString
      | r => String c r
      end
  end.

(** posixpath.expanduser where the password database knows the current
    user alone, and that user by number only: HOME of the environment, or
    [home] when HOME is not set. *)
Definition posix_expanduser (w : Os) (path : string) : string :=
  match path with
  | String "~" rest =>
      let userhome :=
        rstrip_slash (match lookup "HOME" (environ w) with
                      | Some h => h
                      | None => home
                      end) in
      match Py.split_once_from "/" rest EmptyString with
      | [EmptyString] => if Py.truthy userhome then userhome else "/"
      | [EmptyString; tail] => userhome ++ "/" ++ tail
      | _ => path
      end
  | _ => path
  end.

(** posixpath.abspath *)
Definition posix_abspath (w : Os) (path : string) : string :=
  posix_normpath (if posix_isabs path then path
                  else posix_join (getcwd w) path).

(** The components that posixpath.relpath compares. *)
Definition components (path : string) : list string :=
  filter Py.truthy (Py.split_on path "/").

(** [len(commonprefix([a, b]))] for two lists of components. *)
Fixpoint common (a b : list string) : nat :=
  match a, b with
  | x :: a', y :: b' => if String.eqb x y then S (common a' b') else 0
  | _, _ => 0
  end.

(** posixpath.relpath; the error is the text of its ValueError. *)
Definition posix_relpath (w : Os) (path start : string) : string + string :=
  if negb (Py.truthy path) then inr "no path specified"
  else
    let start_list := components (posix_abspath w start) in
    let path_list := components (posix_abspath w path) in
    let i := common start_list path_list in
    let rel_list :=
      (repeat ".." (List.length start_list - i) ++ skipn i path_list)%list in
    match rel_list with
    | [] => inl "."
    | _ => inl (Py.join "/" rel_list)
    end.

Definition directories : list string := ["/"; "/tmp"; "/home"; "/home/user"].

Definition scripts : list string := ["/home/user/build.py"].

Definition run (c : SpawnCall) : RunOutcome :=
  if String.eqb (spawn_command c) "sleep 400" then TimeoutExpired
  else Completed 0 EmptyString EmptyString.

Definition platform : Platform := {|
  World := Os;
  os_name_nt := false;
  sys_platform := "linux";
  expanduser := posix_expanduser;
  isabs := posix_isabs;
  path_join := posix_join;
  normpath := posix_normpath;
  relpath := posix_relpath;
  isdir := fun _ p => Py.mem p directories;
  isfile := fun _ p => Py.mem p scripts;
  chdir := fun w p => (None, mkOs (environ w) p);
  environ_set := fun w key value =>
    if Py.truthy key then (None, mkOs (dict_set key value (environ w)) (getcwd w))
    else (Some (OSError "[Errno 22] Invalid argument"), w);
  subprocess_run := fun w c => (run c, w);
  stdin_isatty := fun _ => true;
  stdin_read := fun w => (Some EmptyString, w);
  glob := fun _ _ => [];
  read_text := fun _ _ => inl EmptyString;
  pyperclip_paste := fun _ =>
    PasteFailed "Pyperclip could not find a copy/paste mechanism for your system.";
  check_output := fun _ _ => None;
  win32_clipboard := fun _ => None
|}.

(** The operating system as a session finds it. *)
Definition os : Os := mkOs [("HOME", home)] home.

(** A session on it with the queue [pending] and nothing staged. *)
Definition session (pending : list string) : Sys platform :=
  mkSys platform
    (mkState home [("HOME", home)] "nl" 0 [] [] EmptyString EmptyString
             EmptyString 0 pending EmptyString)
    os [] [] [].

End Headless.

(** ** Vocabulary of the properties *)

(** A command with an unbalanced double quote: echo, a space, a double quote
    and hi. *)
Definition unbalanced : string := "echo " ++ String dquote "hi".

(** A reply of the language model with one fenced block tagged bash that
    holds the command git push. *)
Definition tagged_reply : string :=
  "```bash" ++ newline ++ "git push" ++ newline ++ "```".

(** The guards a command text passes on its way to the process primitive in
    [execute]: not empty, not a comment, not a bare interpreter name, and
    split by shlex into words of which the first is not a built-in. *)
Definition external (command : string) : bool :=
  let command := Py.strip command in
  Py.truthy command
  && negb (Py.startswith command "#")
  && negb (Py.mem (Py.lower command) ShellExecutor.shell_interpreters)
  && match Shlex.split command with
     | Shlex.Tokens (name :: _) => negb (Py.mem name ShellExecutor.builtins)
     | Shlex.Tokens [] => true
     | Shlex.LexError _ => false
     end.

(** The call of the process primitive that [execute] makes for [command] in
    the state [s]. *)
Definition spawn_of {P : Platform} (command : string) (s : Sys P) : SpawnCall :=
  mkSpawn (Py.strip command) (cwd (shell s)) (env (shell s)) 300.

(** What a built-in leaves alone: the queue, the staged text, the terminal
    and the two call logs. *)
Definition kept {P : Platform} (s s' : Sys P) : Prop :=
  pending_commands (shell s') = pending_commands (shell s)
  /\ prompt_prefill (shell s') = prompt_prefill (shell s)
  /\ display s' = display s
  /\ executed s' = executed s
  /\ spawned s' = spawned s.

(** [every f s]: all characters of [s] satisfy [f]. *)
Fixpoint every (f : ascii -> bool) (s : string) : bool :=
  match s with
  | EmptyString => true
  | String c s' => f c && every f s'
  end.

Definition not_space (c : ascii) : bool := negb (Py.isspace c).

(** A character that shlex reads as part of a word, with no special role. *)
Definition plain (c : ascii) : bool :=
  negb (Shlex.whitespace c) && negb (Shlex.quotes c) && negb (Shlex.escape c).

(** ** More Python: slices, dict lookup, str() of an int *)

Module Py2.

(** [l[-n:]] for a positive [n]: the last [n] elements, or all of them. *)
Definition last_items {A : Type} (n : nat) (l : list A) : list A :=
  skipn (List.length l - n) l.

(** [s[-n:]] for a positive [n]: the last [n] characters, or all of them. *)
Definition last_chars (n : nat) (s : string) : string :=
  substring (String.length s - n) n s.

(** [d.get(k)] *)
Fixpoint dict_get (k : string) (d : Env) : option string :=
  match d with
  | [] => None
  | (k', v) :: d' => if String.eqb k' k then Some v else dict_get k d'
  end.

(** [str(n)] for an int. *)
Definition str_int (n : Z) : string := NilZero.string_of_int (Z.to_int n).

(** [str(e)] for the exceptions of the model; for SystemExit, its code. *)
Definition str_exn (e : exn) : string :=
  match e with
  | SystemExit code => str_int code
  | ValueError msg | OSError msg | LibraryError msg => msg
  end.

(** [isinstance(e, Exception)]: what [except Exception] catches. *)
Definition is_exception (e : exn) : bool :=
  match e with SystemExit _ => false | _ => true end.

End Py2.

(** ** lib/shell/state.py: the methods of ShellState *)

Module StateMethods.

Definition set_history (v : list string) (st : ShellState) : ShellState :=
  mkState (cwd st) (env st) (mode st) (last_exit_code st) v (aliases st)
          (last_command st) (last_stdout st) (last_stderr st)
          (last_returncode st) (pending_commands st) (prompt_prefill st).

Definition add_to_history (command : string) (st : ShellState) : ShellState :=
  set_history (history st ++ [command])%list st.

(** The dict lookup of [get_prompt]; [ai_indicator] is the text shown in ai
    mode, whose characters lie outside the modelled range. *)
Definition mode_indicator (ai_indicator : string) (mode : string) : string :=
  if String.eqb mode "shell" then "$"
  else if String.eqb mode "nl" then "$"
  else if String.eqb mode "ai" then ai_indicator
  else "$".

(** [get_prompt]; [home] is [os.path.expanduser('~')]. *)
Definition get_prompt (ai_indicator home : string) (st : ShellState)
           (username api model : string) : string :=
  let display_cwd := Py.replace (cwd st) home "~" in
  username ++ "@" ++ api ++ "/" ++ model ++ " " ++ display_cwd ++ " "
  ++ mode_indicator ai_indicator (mode st) ++ " ".

End StateMethods.

(** ** lib/shell/translator.py: the prompt and the call of the model *)

Module Translation.

(** [TRANSLATION_PROMPT], line by line; [quote] stands for the double quote. *)
Definition TRANSLATION_PROMPT : string :=
  let quote := String dquote EmptyString in
  Py.join newline
    ["You are a shell command translator. Convert natural language requests into shell commands.";
     EmptyString;
     "Rules:";
     "1. Output ONLY shell commands and comments (valid shell syntax)";
     "2. Use comments (starting with #) to explain what you're doing";
     "3. Generate actual executable commands that will run deterministically";
     "4. Use the user's operating system conventions (PowerShell/Windows syntax when on Windows, POSIX shell otherwise)";
     "5. Be concise - prefer single commands over complex scripts";
     "6. If the request is ambiguous, make reasonable assumptions and note them in comments";
     "7. For destructive operations, add a comment warning and, when appropriate, suggest user confirmation";
     "8. If prior command output indicates an error, address it or adjust the strategy before suggesting new commands";
     "9. NEVER output shell interpreter commands (cmd, bash, sh, powershell) - just output the actual commands to run";
     EmptyString;
     "Examples:";
     EmptyString;
     "Input: " ++ quote ++ "show me all python files" ++ quote;
     "Output:";
     "# Listing all Python files in current directory";
     "ls *.py";
     EmptyString;
     "Input: " ++ quote ++ "what's the git status" ++ quote;
     "Output:";
     "# Checking git repository status";
     "git status";
     EmptyString;
     "Input: " ++ quote ++ "find large files over 100MB" ++ quote;
     "Output:";
     "# Finding files larger than 100MB in current directory";
     "find . -type f -size +100M";
     EmptyString;
     "Input: " ++ quote ++ "commit these changes with message fix bug" ++ quote;
     "Output:";
     "# Staging all changes and committing";
     "git add -A";
     "git commit -m " ++ quote ++ "fix bug" ++ quote;
     EmptyString;
     "Windows Example:";
     "Input: " ++ quote ++ "show me all python files" ++ quote ++ " (on Windows)";
     "Output:";
     "# Listing all Python files in current directory";
     "dir *.py";
     EmptyString;
     "WRONG (don't do this):";
     "cmd";
     "dir *.py";
     EmptyString;
     "Now translate this request:"].
(** The context dict that [translate] reads.  A missing shell is [None]. *)
Record Context : Type := mkContext {
  ctx_cwd : string;
  recent_commands : list string;
  files_content : list string;
  ctx_last_command : string;
  ctx_last_stdout : string;
  ctx_last_stderr : string;
  ctx_last_returncode : Z;
  os_name : string;
  platform_system : string;
  shell_name : option string
}.

(** [x or default] for a string. *)
Definition or_else (x default : string) : string :=
  if Py.truthy x then x else default.

Definition environment_block (c : Context) : string :=
  if Py.truthy (platform_system c) || Py.truthy (os_name c) then
    let shell_descriptor :=
      or_else (match shell_name c with Some n => n | None => EmptyString end)
              "unknown shell" in
    newline ++ newline ++ "Environment:" ++ newline
    ++ "- Platform: " ++ or_else (platform_system c) "unknown" ++ newline
    ++ "- os.name: " ++ or_else (os_name c) "unknown" ++ newline
    ++ "- Shell: " ++ shell_descriptor ++ newline
  else EmptyString.

Definition previous_block (c : Context) : string :=
  if Py.truthy (ctx_last_command c) then
    newline ++ newline ++ "Previous command: " ++ ctx_last_command c
    ++ newline ++ "Exit code: " ++ Py2.str_int (ctx_last_returncode c)
    ++ (if Py.truthy (ctx_last_stdout c)
        then newline ++ "Stdout:" ++ newline ++ ctx_last_stdout c
        else EmptyString)
    ++ (if Py.truthy (ctx_last_stderr c)
        then newline ++ "Stderr:" ++ newline ++ ctx_last_stderr c
        else EmptyString)
  else EmptyString.

Definition files_block (c : Context) : string :=
  match files_content c with
  | [] => EmptyString
  | files =>
      newline ++ newline ++ "File contents referenced:" ++ newline
      ++ fold_left (fun acc file_content =>
                      acc ++ newline ++ file_content ++ newline)
                   files EmptyString
  end.

(** What [translate] appends to the fixed prompt for a non-empty context. *)
Definition context_block (c : Context) : string :=
  (if Py.truthy (ctx_cwd c)
   then newline ++ newline ++ "Current directory: " ++ ctx_cwd c
   else EmptyString)
  ++ (match recent_commands c with
      | [] => EmptyString
      | recent =>
          newline ++ newline ++ "Recent commands:" ++ newline
          ++ Py.join newline (Py2.last_items 3 recent)
      end)
  ++ environment_block c
  ++ previous_block c
  ++ files_block c.

(** The prompt that [translate] sends; [None] is a missing or empty
    context. *)
Definition build_prompt (nl_request : string) (context : option Context)
  : string :=
  TRANSLATION_PROMPT
  ++ (match context with Some c => context_block c | None => EmptyString end)
  ++ newline ++ newline ++ "User request: " ++ nl_request.

Definition system_prompt : string :=
  "You are a shell command translator. Output only shell commands and comments.".

(** What [call_llm_api(messages, system_prompt, tools=None)] does: a
    response dict, of which [translate] reads the key content, or an
    exception. *)
Inductive LlmOutcome : Type :=
| Responded (content : option string)   (* [None]: the key is missing *)
| LlmFailed (msg : string).

(** What the shell consumes besides the platform: the language-model
    transport, and the names the context reports. *)
Record Host (P : Platform) : Type := {
  call_llm_api : World P -> string -> string -> LlmOutcome * World P;
  platform_system_name : World P -> string;
  getenv : World P -> string -> option string
}.

Arguments call_llm_api {P} h w prompt system.
Arguments platform_system_name {P} h w.
Arguments getenv {P} h w name.

Section Translate.

Variable P : Platform.
Variable H : Host P.

Definition translate (nl_request : string) (context : option Context)
  : M P string :=
  fun s =>
    let prompt := build_prompt nl_request context in
    match call_llm_api H (world s) prompt system_prompt with
    | (LlmFailed msg, w) => Raise (LibraryError msg) (with_world w s)
    | (Responded content, w) =>
        let command :=
          Py.strip (match content with Some c => c | None => EmptyString end) in
        Ok (NLTranslator._clean_output command) (with_world w s)
    end.

End Translate.

End Translation.

(** ** webwright/main.py: translation, the assistant stub and the loop *)

Module Loop.

Import WebrightShell.

(** What one prompt ends in: a submitted line, or KeyboardInterrupt or
    EOFError. *)
Inductive PromptOutcome : Type :=
| Submitted (user_input : string)
| Interrupted.

Inductive Control : Type :=
| Continue
| Break.

Section Run.

Variable P : Platform.
Variable H : Translation.Host P.

(** [os.getenv('SHELL') or os.getenv('ComSpec')] *)
Definition shell_of (w : World P) : option string :=
  match Translation.getenv H w "SHELL" with
  | Some v => if Py.truthy v then Some v else Translation.getenv H w "ComSpec"
  | None => Translation.getenv H w "ComSpec"
  end.

(** The context dict of [_handle_nl_translation]. *)
Definition nl_context (file_context : list string) (s : Sys P)
  : Translation.Context :=
  let st := shell s in
  Translation.mkContext
    (cwd st)
    (Py2.last_items 5 (history st))
    file_context
    (last_command st)
    (Py2.last_chars 2000 (last_stdout st))
    (Py2.last_chars 2000 (last_stderr st))
    (last_returncode st)
    (if os_name_nt P then "nt" else "posix")
    (Translation.platform_system_name H (world s))
    (shell_of (world s)).

(** [_display_translation]: the comment lines of the translation. *)
Definition _display_translation (translated : string) : M P unit :=
  modify (fun s =>
    fold_left (fun acc line =>
                 if Py.truthy (Py.strip line)
                    && Py.startswith (Py.strip line) "#"
                 then show (Notice (line ++ newline)) acc else acc)
              (Py.split_on translated newline) s).

(** [try: m  except Exception as e: handler(e)] *)
Definition try_except {A : Type} (m : M P A) (handler : exn -> M P A) : M P A :=
  fun s =>
    match m s with
    | Ok a s' => Ok a s'
    | Raise e s' => if Py2.is_exception e then handler e s' else Raise e s'
    end.

(** [_handle_nl_translation]; the translation indicator, a write to the
    terminal that is erased again, is left out. *)
Definition _handle_nl_translation (nl_request : string)
           (file_context : list string) : M P unit :=
  context <- gets (nl_context file_context) ;;
  try_except
    (translated <- Translation.translate P H nl_request (Some context) ;;
     _display_translation translated ;;
     modify (with_shell (set_pending_commands (actionable translated))) ;;
     _execute_translated_commands P)
    (fun e =>
       modify (show (ShowStderr ("Translation error: " ++ Py2.str_exn e
                                 ++ newline)))).

Definition _handle_ai_mode (request : string) (file_context : list string)
  : M P unit :=
  modify (show (Notice ("AI mode not yet implemented - will support complex multi-step tasks"
                        ++ newline ++ "Request: " ++ request ++ newline))).

(** The SHELL_COMMAND branch of [run]. *)
Definition handle_shell_command (processed_input : string) : M P unit :=
  result <- ShellExecutor.execute P processed_input ;;
  _print_result P result ;;
  modify (with_shell (set_last_exit_code (returncode result))) ;;
  pending <- gets (fun s => pending_commands (shell s)) ;;
  match pending with
  | front :: rest =>
      if String.eqb processed_input front then
        modify (with_shell (set_pending_commands rest)) ;;
        match rest with
        | [] => ret tt
        | _ => _execute_translated_commands P
        end
      else ret tt
  | [] => ret tt
  end.

(** The body of the loop of [run] from the point where the prompt has
    returned [user_input]; what precedes it (the configuration, the prompt
    text) is outside the model. *)
Definition body (user_input : string) : M P unit :=
  modify (with_shell (set_prompt_prefill EmptyString)) ;;
  if negb (Py.truthy (Py.strip user_input)) then ret tt
  else
    buffer_result <- InputBuffer.process_input P user_input ;;
    let processed_input := InputBuffer.command buffer_result in
    let file_context := InputBuffer.context buffer_result in
    match InputParser.classify (os_name_nt P) processed_input with
    | EMPTY | COMMENT => ret tt
    | SHELL_COMMAND =>
        handle_shell_command processed_input ;;
        modify (with_shell (StateMethods.add_to_history user_input))
    | NATURAL_LANGUAGE =>
        handled <- _handle_shortcut P processed_input ;;
        if handled then ret tt
        else
          _handle_nl_translation processed_input file_context ;;
          modify (with_shell (StateMethods.add_to_history user_input))
    | AI_REQUEST =>
        _handle_ai_mode (InputParser.extract_ai_request processed_input)
                        file_context ;;
        modify (with_shell (StateMethods.add_to_history user_input))
    end.

(** The farewell of the [SystemExit] handler; its ghost sign lies outside
    the code points of the text model and is left out. *)
Definition farewell : string := newline ++ "Goodbye!" ++ newline.

(** One turn of the loop of [run]: the [try] around the body and its three
    handlers. *)
Definition iteration (p : PromptOutcome) (s : Sys P) : Control * Sys P :=
  match p with
  | Interrupted => (Continue, show (Notice (newline ++ "Use 'exit' to quit")) s)
  | Submitted user_input =>
      match body user_input s with
      | Ok _ s' => (Continue, s')
      | Raise e s' =>
          if Py2.is_exception e
          then (Continue,
                show (ShowStderr ("Error: " ++ Py2.str_exn e ++ newline)) s')
          else (Break, show (Notice farewell) s')
      end
  end.

(** The loop of [run] over the outcomes of the successive prompts. *)
Fixpoint run (prompts : list PromptOutcome) (s : Sys P) : Control * Sys P :=
  match prompts with
  | [] => (Continue, s)
  | p :: rest =>
      match iteration p s with
      | (Break, s') => (Break, s')
      | (Continue, s') => run rest s'
      end
  end.

End Run.

End Loop.

(** ** The concrete platform's transport

    The model answers the request list files with a comment and ls -la, the
    request clean up with ls -la and rm -rf /tmp/x, and fails on any other
    request. *)

Module HeadlessHost.

Definition reply (prompt : string) : Translation.LlmOutcome :=
  if Py.endswith prompt "User request: list files" then
    Translation.Responded
      (Some ("```bash" ++ newline ++ "# List the files" ++ newline
             ++ "ls -la" ++ newline ++ "```"))
  else if Py.endswith prompt "User request: clean up" then
    Translation.Responded
      (Some ("ls -la" ++ newline ++ "rm -rf /tmp/x" ++ newline))
  else Translation.LlmFailed "connection refused".

Definition host : Translation.Host Headless.platform := {|
  Translation.call_llm_api := fun w prompt _ => (reply prompt, w);
  Translation.platform_system_name := fun _ => "Linux";
  Translation.getenv := fun (w : World Headless.platform) name =>
    Headless.lookup name (Headless.environ w)
|}.

End HeadlessHost.

(** ** A second concrete platform

    A Linux desktop: the directory /root exists and cannot be entered,
    pyperclip is not installed and xclip holds the clipboard, and standard
    input is a pipe that holds one line. *)

Module Desktop.

Definition platform : Platform := {|
  World := Headless.Os;
  os_name_nt := false;
  sys_platform := "linux";
  expanduser := Headless.posix_expanduser;
  isabs := Headless.posix_isabs;
  path_join := Headless.posix_join;
  normpath := Headless.posix_normpath;
  relpath := Headless.posix_relpath;
  isdir := fun _ p => Py.mem p ("/root" :: Headless.directories);
  isfile := fun _ p => Py.mem p Headless.scripts;
  chdir := fun w p =>
    if String.eqb p "/root"
    then (Some (OSError "[Errno 13] Permission denied: '/root'"), w)
    else (None, Headless.mkOs (Headless.environ w) p);
  environ_set := fun w key value =>
    (None, Headless.mkOs (dict_set key value (Headless.environ w))
                         (Headless.getcwd w));
  subprocess_run := fun w c =>
    (if String.eqb (spawn_command c) "make"
     then RunFailed "[Errno 12] Cannot allocate memory"
     else Completed 2 "out" "err", w);
  stdin_isatty := fun _ => false;
  stdin_read := fun w => (Some ("piped line" ++ newline), w);
  glob := fun _ _ => [];
  read_text := fun _ _ => inl "print(1)";
  pyperclip_paste := fun _ => NotInstalled;
  check_output := fun _ argv =>
    match argv with
    | "xclip" :: _ => Some "copied text"
    | _ => None
    end;
  win32_clipboard := fun _ => None
|}.

Definition session (pending : list string) : Sys platform :=
  mkSys platform
    (mkState Headless.home [("HOME", Headless.home)] "nl" 0 [] []
             EmptyString EmptyString EmptyString 0 pending EmptyString)
    Headless.os [] [] [].

End Desktop.

(** ** Vocabulary of the further properties *)

(** The guards of [execute] that end it at once: empty text, a comment, a
    bare interpreter name. *)
Definition noop (text : string) : bool :=
  negb (Py.truthy (Py.strip text))
  || Py.startswith (Py.strip text) "#"
  || Py.mem (Py.lower (Py.strip text)) ShellExecutor.shell_interpreters.

Definition valid_modes : list string := ["shell"; "nl"; "ai"].

(** The line of the listing of [export] for one entry. *)
Definition export_line (kv : string * string) : string :=
  fst kv ++ "=" ++ snd kv.

(** What the executor leaves alone besides the queue: the history, the
    aliases and [last_exit_code], which the orchestrator sets. *)
Definition orchestrator_fields_kept {P : Platform} (s s' : Sys P) : Prop :=
  history (shell s') = history (shell s)
  /\ aliases (shell s') = aliases (shell s)
  /\ last_exit_code (shell s') = last_exit_code (shell s)
  /\ pending_commands (shell s') = pending_commands (shell s)
  /\ prompt_prefill (shell s') = prompt_prefill (shell s).

(** The staging invariant: nothing is staged, or the staged text is the
    front of the queue. *)
Definition staged_front {P : Platform} (s : Sys P) : Prop :=
  prompt_prefill (shell s) = EmptyString
  \/ exists rest,
       pending_commands (shell s) = prompt_prefill (shell s) :: rest.

(** A decimal digit of ASCII. *)
Definition ascii_digit (c : ascii) : bool :=
  let n := nat_of_ascii c in ((48 <=? n) && (n <=? 57))%nat.

(** [str(n)] for a natural number. *)
Definition decimal (n : nat) : string := NilZero.string_of_uint (Nat.to_uint n).

(** An exception that some call of [execute] raised. *)
Definition raised_by_execute (P : Platform) (e : exn) : Prop :=
  exists c sc sc', ShellExecutor.execute P c sc = Raise e sc'.

(** The blob that step 3 of [process_input] adds for the text [text], read
    in the state [s]: the clipboard under its header when the text holds a
    marker and the clipboard is not empty. *)
Definition clipboard_blobs (P : Platform) (text : string) (s : Sys P)
  : list string :=
  if Py.contains text "{clipboard}" || Py.contains text "{clip}" then
    match InputBuffer._get_clipboard P s with
    | Ok clipboard_content _ =>
        if Py.truthy clipboard_content
        then ["# Clipboard:" ++ newline ++ clipboard_content] else []
    | Raise _ _ => []
    end
  else [].

(** [steps check done s s']: from the state [s] the commands [done] were
    run one after the other by [run_one], each accepted by [check] in the
    state in which its turn came and each execution returning, and the last
    of them left the state [s']. *)
Fixpoint steps {P : Platform} (check : string -> Sys P -> bool)
         (done : list string) (s s' : Sys P) : Prop :=
  match done with
  | [] => s' = s
  | c :: rest =>
      check c s = true
      /\ exists s1,
           WebrightShell.run_one P c s = Ok tt s1 /\ steps check rest s1 s'
  end.

(** The commands [done] were run in order from [s], whatever the autorun
    predicate says of them, and left [s']. *)
Definition ran_in_order {P : Platform} (done : list string) (s s' : Sys P)
  : Prop :=
  steps (fun _ _ => true) done s s'.

(** The commands [done] were run in order from [s], each accepted by the
    autorun predicate in the state in which it was asked, and left [s']. *)
Definition autoran {P : Platform} (done : list string) (s s' : Sys P) : Prop :=
  steps (WebrightShell._should_autorun P) done s s'.

(** Whether an outcome is an error: an exception that [except Exception]
    catches, which SystemExit is not. *)
Definition raises_error {P : Platform} {A : Type} (o : Outcome P A) : bool :=
  match o with
  | Raise e _ => Py2.is_exception e
  | Ok _ _ => false
  end.

(** An exception that a call of [execute] raised, with the state that the
    call left. *)
Definition raised_in_execute (P : Platform) (e : exn) (s' : Sys P) : Prop :=
  exists c sc, ShellExecutor.execute P c sc = Raise e s'.

(** The text that [process_input] hands on as the command. *)
Definition processed (user_input : string) : string :=
  InputBuffer.clean user_input (InputBuffer.findall_refs user_input).

(** Whether the loop of [run] reaches [add_to_history] for a line that it
    handles without an exception: not for a blank line, a line that is empty
    or a comment once processed, or a rerun phrase. *)
Definition recorded (nt : bool) (user_input : string) : bool :=
  Py.truthy (Py.strip user_input)
  && match InputParser.classify nt (processed user_input) with
     | EMPTY | COMMENT => false
     | NATURAL_LANGUAGE =>
         negb (Py.mem (Py.lower (Py.strip (processed user_input)))
                      WebrightShell.rerun_phrases)
     | SHELL_COMMAND | AI_REQUEST => true
     end.

(** The translation that [translate] returns for a reply of the model. *)
Definition translation_of (content : option string) : string :=
  NLTranslator._clean_output
    (Py.strip (match content with Some c => c | None => EmptyString end)).

(** * Properties *)

Import WebrightShell.

(** ** Text *)

Section Text.

Lemma append_empty_r (s : string) : s ++ EmptyString = s.
Proof. induction s as [|c s IH]; cbn; [reflexivity | now rewrite IH]. Qed.

Lemma append_assoc (a b c : string) : (a ++ b) ++ c = a ++ (b ++ c).
Proof. induction a as [|x a IH]; cbn; [reflexivity | now rewrite IH]. Qed.

Lemma truthy_append (a b : string) :
  Py.truthy a = true -> Py.truthy (a ++ b) = true.
Proof. destruct a; [discriminate | reflexivity]. Qed.

Lemma truthy_nonempty (s : string) : Py.truthy s = true <-> s <> EmptyString.
Proof. destruct s; cbn; split; congruence. Qed.

Lemma prefix_empty (s : string) : prefix EmptyString s = true.
Proof. destruct s; reflexivity. Qed.

Lemma prefix_cons (a b : ascii) (p s : string) :
  prefix (String a p) (String b s) = Ascii.eqb a b && prefix p s.
Proof.
  cbn. destruct (ascii_dec a b) as [->|Hne].
  - now rewrite Ascii.eqb_refl.
  - apply Ascii.eqb_neq in Hne. now rewrite Hne.
Qed.

Lemma prefix_inv (a : ascii) (p s : string) :
  prefix (String a p) s = true ->
  exists s', s = String a s' /\ prefix p s' = true.
Proof.
  destruct s as [|b s]; [discriminate|].
  rewrite prefix_cons. intros H. apply andb_prop in H. destruct H as [Hab Hp].
  apply Ascii.eqb_eq in Hab. subst b. now exists s.
Qed.

Lemma prefix_append (p x : string) : prefix p (p ++ x) = true.
Proof.
  induction p as [|a p IH]; cbn [append].
  - apply prefix_empty.
  - rewrite prefix_cons, Ascii.eqb_refl. exact IH.
Qed.

Lemma contains_unfold (s n : string) :
  Py.contains s n
  = prefix n s
    || match s with
       | EmptyString => false
       | String _ s' => Py.contains s' n
       end.
Proof. destruct s; reflexivity. Qed.

Lemma contains_prefix (s n : string) :
  prefix n s = true -> Py.contains s n = true.
Proof. intros H. rewrite contains_unfold, H. reflexivity. Qed.

Lemma contains_append_r (a b n : string) :
  Py.contains b n = true -> Py.contains (a ++ b) n = true.
Proof.
  intros H. induction a as [|x a IH]; cbn [append]; [exact H|].
  rewrite contains_unfold, IH. apply orb_true_r.
Qed.

Lemma contains_truthy (s n : string) :
  Py.truthy n = true -> Py.contains s n = true -> Py.truthy s = true.
Proof.
  destruct s; [|reflexivity]. destruct n; [discriminate|]. cbn. discriminate.
Qed.

Lemma mem_forallb (f : string -> bool) (x : string) (l : list string) :
  Py.mem x l = true -> forallb f l = true -> f x = true.
Proof.
  unfold Py.mem. induction l as [|y l IH]; cbn; [discriminate|].
  intros Hm Hf. apply andb_prop in Hf. destruct Hf as [Hy Hl].
  apply orb_prop in Hm. destruct Hm as [Hm|Hm].
  - apply String.eqb_eq in Hm. now subst.
  - now apply IH.
Qed.

(** *** Stripping keeps what holds no space *)

Lemma prefix_space_head (c : ascii) (s n : string) :
  Py.isspace c = true -> every not_space n = true -> Py.truthy n = true ->
  prefix n (String c s) = false.
Proof.
  intros Hc Hn Ht. destruct n as [|a n]; [discriminate|].
  rewrite prefix_cons. cbn in Hn. apply andb_prop in Hn. destruct Hn as [Ha _].
  destruct (Ascii.eqb a c) eqn:Hac; [|reflexivity].
  apply Ascii.eqb_eq in Hac. subst a. unfold not_space in Ha.
  rewrite Hc in Ha. discriminate.
Qed.

Lemma contains_lstrip (s n : string) :
  every not_space n = true -> Py.truthy n = true ->
  Py.contains s n = true -> Py.contains (Py.lstrip s) n = true.
Proof.
  intros Hn Ht. induction s as [|c s IH]; [trivial|].
  cbn [Py.lstrip]. destruct (Py.isspace c) eqn:Hc; [|trivial].
  rewrite contains_unfold, (prefix_space_head c s n Hc Hn Ht). exact IH.
Qed.

Lemma prefix_rstrip (p s : string) :
  every not_space p = true ->
  prefix p s = true -> prefix p (Py.rstrip s) = true.
Proof.
  revert s. induction p as [|a p IH]; intros s Hp H.
  - apply prefix_empty.
  - apply prefix_inv in H. destruct H as (s' & -> & H).
    cbn in Hp. apply andb_prop in Hp. destruct Hp as [Ha Hp].
    specialize (IH s' Hp H). cbn [Py.rstrip].
    destruct (Py.rstrip s') as [|b r] eqn:Hr.
    + unfold not_space in Ha. apply negb_true_iff in Ha. rewrite Ha.
      rewrite prefix_cons, Ascii.eqb_refl.
      destruct p; [reflexivity | discriminate].
    + rewrite prefix_cons, Ascii.eqb_refl. exact IH.
Qed.

Lemma contains_rstrip (s n : string) :
  every not_space n = true -> Py.truthy n = true ->
  Py.contains s n = true -> Py.contains (Py.rstrip s) n = true.
Proof.
  intros Hn Ht. induction s as [|c s IH]; [trivial|].
  rewrite contains_unfold. intros H. apply orb_prop in H.
  destruct H as [H|H].
  - apply contains_prefix. now apply prefix_rstrip.
  - specialize (IH H). pose proof (contains_truthy _ _ Ht IH) as Hr.
    cbn [Py.rstrip]. destruct (Py.rstrip s) as [|b r]; [discriminate|].
    rewrite contains_unfold, IH. apply orb_true_r.
Qed.

Lemma contains_strip (s n : string) :
  every not_space n = true -> Py.truthy n = true ->
  Py.contains s n = true -> Py.contains (Py.strip s) n = true.
Proof.
  intros Hn Ht H. unfold Py.strip.
  apply contains_rstrip; trivial. now apply contains_lstrip.
Qed.

(** *** The first word *)

Lemma split_ws_lstrip (s : string) :
  Py.split_ws_from (Py.lstrip s) None = Py.split_ws_from s None.
Proof.
  induction s as [|c s IH]; [reflexivity|].
  cbn [Py.lstrip]. destruct (Py.isspace c) eqn:Hc; [|reflexivity].
  cbn [Py.split_ws_from]. rewrite Hc. exact IH.
Qed.

Lemma split_ws_from_cons (c : ascii) (s : string) (cur : option string) :
  Py.split_ws_from (String c s) cur
  = if Py.isspace c
    then match cur with
         | Some w => w :: Py.split_ws_from s None
         | None => Py.split_ws_from s None
         end
    else Py.split_ws_from s
           (Some (match cur with Some w => w | None => EmptyString end
                  ++ String c EmptyString)).
Proof. reflexivity. Qed.

Lemma split_ws_rstrip (s : string) (cur : option string) :
  Py.split_ws_from (Py.rstrip s) cur = Py.split_ws_from s cur.
Proof.
  revert cur. induction s as [|c s IH]; intros cur; [reflexivity|].
  cbn [Py.rstrip]. destruct (Py.rstrip s) as [|b r] eqn:Hr.
  - rewrite (split_ws_from_cons c s). destruct (Py.isspace c) eqn:Hc.
    + rewrite <- !IH. now destruct cur.
    + rewrite split_ws_from_cons, Hc, <- IH. reflexivity.
  - rewrite !(split_ws_from_cons c). now rewrite !IH.
Qed.

Lemma first_word_strip (s : string) :
  InputParser.first_word (Py.strip s) = InputParser.first_word s.
Proof.
  unfold InputParser.first_word, Py.split_ws, Py.strip.
  now rewrite split_ws_rstrip, split_ws_lstrip.
Qed.

Lemma split_ws_run (s cur : string) :
  exists t rest, Py.split_ws_from s (Some cur) = (cur ++ t) :: rest.
Proof.
  revert cur. induction s as [|c s IH]; intros cur.
  - exists EmptyString, []. cbn. now rewrite append_empty_r.
  - cbn [Py.split_ws_from]. destruct (Py.isspace c).
    + eexists EmptyString, _. now rewrite append_empty_r.
    + destruct (IH (cur ++ String c EmptyString)) as (t & rest & H).
      exists (String c t), rest. rewrite H, append_assoc. reflexivity.
Qed.

Lemma split_ws_run_prefix (p s cur : string) :
  every not_space p = true -> prefix p s = true ->
  exists t rest, Py.split_ws_from s (Some cur) = (cur ++ p ++ t) :: rest.
Proof.
  revert s cur. induction p as [|a p IH]; intros s cur Hp H.
  - apply split_ws_run.
  - apply prefix_inv in H. destruct H as (s' & -> & H).
    cbn in Hp. apply andb_prop in Hp. destruct Hp as [Ha Hp].
    unfold not_space in Ha. apply negb_true_iff in Ha.
    cbn [Py.split_ws_from]. rewrite Ha.
    destruct (IH s' (cur ++ String a EmptyString) Hp H) as (t & rest & E).
    exists t, rest. rewrite E, append_assoc. reflexivity.
Qed.

(** A text that starts with characters other than spaces has a first word
    that starts with them. *)
Lemma prefix_first_word (p s : string) :
  every not_space p = true -> Py.truthy p = true ->
  prefix p s = true -> prefix p (InputParser.first_word s) = true.
Proof.
  intros Hp Ht H. destruct p as [|a p]; [discriminate|].
  apply prefix_inv in H. destruct H as (s' & -> & H).
  cbn in Hp. apply andb_prop in Hp. destruct Hp as [Ha Hp].
  unfold not_space in Ha. apply negb_true_iff in Ha.
  unfold InputParser.first_word, Py.split_ws. cbn [Py.split_ws_from].
  rewrite Ha.
  destruct (split_ws_run_prefix p s' (EmptyString ++ String a EmptyString) Hp H)
    as (t & rest & E).
  rewrite E. cbn [append]. rewrite prefix_cons, Ascii.eqb_refl.
  apply prefix_append.
Qed.

(** *** Lower case *)

Lemma isspace_lower_char (c : ascii) :
  Py.isspace (Py.lower_char c) = Py.isspace c.
Proof.
  destruct c as [b0 b1 b2 b3 b4 b5 b6 b7].
  destruct b0, b1, b2, b3, b4, b5, b6, b7; reflexivity.
Qed.

Lemma prefix_lower_inv (p s : string) :
  prefix p (Py.lower s) = true ->
  exists q, prefix q s = true /\ Py.lower q = p
            /\ every not_space q = every not_space p.
Proof.
  revert s. induction p as [|a p IH]; intros s H.
  - exists EmptyString. repeat split. apply prefix_empty.
  - destruct s as [|c s]; [discriminate|].
    cbn [Py.lower] in H. rewrite prefix_cons in H.
    apply andb_prop in H. destruct H as [Hac H].
    apply Ascii.eqb_eq in Hac. subst a.
    destruct (IH s H) as (q & Hq & Hl & Hs).
    exists (String c q). rewrite prefix_cons, Ascii.eqb_refl.
    cbn [Py.lower every]. unfold not_space at 1 3.
    rewrite isspace_lower_char, Hl, Hs. repeat split. exact Hq.
Qed.

Lemma prefix_lower (q w : string) :
  prefix q w = true -> prefix (Py.lower q) (Py.lower w) = true.
Proof.
  revert w. induction q as [|a q IH]; intros w H.
  - apply prefix_empty.
  - apply prefix_inv in H. destruct H as (w' & -> & H).
    cbn [Py.lower]. rewrite prefix_cons, Ascii.eqb_refl. now apply IH.
Qed.

End Text.

(** ** The classifier *)

Section ClassifierProperties.

Variable nt : bool.

Lemma known_command_checks :
  forallb (fun w => Py.truthy w
                    && negb (prefix "#" w)
                    && negb (prefix "ai:" (Py.lower w)))
          (InputParser.SHELL_COMMANDS nt) = true.
Proof. destruct nt; reflexivity. Qed.

Lemma operator_checks :
  forallb (fun op => every not_space op && Py.truthy op)
          InputParser.shell_operators = true.
Proof. reflexivity. Qed.

(** A text whose first word is a known command is not empty, not a comment
    and not an ai: request. *)
Lemma known_command_passes (text : string) :
  Py.mem (InputParser.first_word text) (InputParser.SHELL_COMMANDS nt) = true ->
  Py.truthy (Py.strip text) = true
  /\ Py.startswith (Py.strip text) "#" = false
  /\ Py.startswith (Py.lower (Py.strip text)) "ai:" = false.
Proof.
  intros Hmem.
  pose proof (mem_forallb _ _ _ Hmem known_command_checks) as Hw.
  cbv beta in Hw.
  apply andb_prop in Hw. destruct Hw as [Hw Hai].
  apply andb_prop in Hw. destruct Hw as [Hne Hhash].
  apply negb_true_iff in Hhash. apply negb_true_iff in Hai.
  rewrite <- (first_word_strip text) in Hne, Hhash, Hai.
  split; [|split].
  - destruct (Py.strip text); [discriminate | reflexivity].
  - unfold Py.startswith.
    destruct (prefix "#" (Py.strip text)) eqn:H; [|reflexivity].
    apply prefix_first_word in H; [congruence | reflexivity | reflexivity].
  - unfold Py.startswith.
    destruct (prefix "ai:" (Py.lower (Py.strip text))) eqn:H; [|reflexivity].
    apply prefix_lower_inv in H. destruct H as (q & Hq & Hl & Hs).
    assert (Hqt : Py.truthy q = true) by (destruct q; [discriminate | reflexivity]).
    apply prefix_first_word in Hq; [|exact Hs | exact Hqt].
    apply prefix_lower in Hq. rewrite Hl in Hq. congruence.
Qed.

Lemma operator_survives_strip (text : string) :
  existsb (Py.contains text) InputParser.shell_operators = true ->
  existsb (Py.contains (Py.strip text)) InputParser.shell_operators = true
  /\ Py.truthy (Py.strip text) = true.
Proof.
  intros H. apply existsb_exists in H. destruct H as (op & Hin & Hc).
  pose proof operator_checks as Hall. rewrite forallb_forall in Hall.
  specialize (Hall op Hin). apply andb_prop in Hall. destruct Hall as [Hs Ht].
  pose proof (contains_strip text op Hs Ht Hc) as Hc'.
  split.
  - apply existsb_exists. now exists op.
  - exact (contains_truthy _ _ Ht Hc').
Qed.

End ClassifierProperties.

(** C6, as amended: a text whose first word is a known command is classified
    ShellCommand; so is a text that contains one of the operators, unless,
    stripped, it starts with # (a comment) or, in any case, with ai: (a
    request to the assistant), which are recognised first.  The case of the
    characters after the first word plays no part. *)
Theorem classify_shell_command (nt : bool) (text : string) :
  Py.mem (InputParser.first_word text) (InputParser.SHELL_COMMANDS nt) = true
  \/ (existsb (Py.contains text) InputParser.shell_operators = true
      /\ Py.startswith (Py.strip text) "#" = false
      /\ Py.startswith (Py.lower (Py.strip text)) InputParser.AI_PREFIX = false) ->
  InputParser.classify nt text = SHELL_COMMAND.
Proof.
  unfold InputParser.classify, InputParser.AI_PREFIX. cbv zeta.
  intros [Hword | (Hop & Hhash & Hai)].
  - destruct (known_command_passes nt text Hword) as (Hne & Hhash & Hai).
    rewrite Hne, Hhash, Hai. cbn [negb].
    unfold InputParser._is_shell_command. cbv zeta.
    rewrite first_word_strip, Hword. reflexivity.
  - destruct (operator_survives_strip text Hop) as (Hop' & Hne).
    rewrite Hne, Hhash, Hai. cbn [negb].
    unfold InputParser._is_shell_command. cbv zeta.
    rewrite Hop'.
    destruct (Py.mem _ (InputParser.SHELL_COMMANDS nt)); reflexivity.
Qed.

(** C6, as amended, at a text with a redirection and upper-case letters. *)
Lemma classify_shell_command_witness :
  (Py.mem (InputParser.first_word "show me > Out.TXT")
          (InputParser.SHELL_COMMANDS false) = true
   \/ (existsb (Py.contains "show me > Out.TXT") InputParser.shell_operators
       = true
       /\ Py.startswith (Py.strip "show me > Out.TXT") "#" = false
       /\ Py.startswith (Py.lower (Py.strip "show me > Out.TXT"))
                        InputParser.AI_PREFIX = false))
  /\ InputParser.classify false "show me > Out.TXT" = SHELL_COMMAND.
Proof.
  assert (H : Py.mem (InputParser.first_word "show me > Out.TXT")
                     (InputParser.SHELL_COMMANDS false) = true
              \/ (existsb (Py.contains "show me > Out.TXT")
                          InputParser.shell_operators = true
                  /\ Py.startswith (Py.strip "show me > Out.TXT") "#" = false
                  /\ Py.startswith (Py.lower (Py.strip "show me > Out.TXT"))
                                   InputParser.AI_PREFIX = false)).
  { right. repeat split; reflexivity. }
  split; [exact H | exact (classify_shell_command false _ H)].
Defined.

Example classify_known_command_any_case :
  InputParser.classify false "  git COMMIT -M Fix  " = SHELL_COMMAND.
Proof. reflexivity. Qed.

(** C6, counterexample: a comment that contains an operator is a Comment. *)
Lemma classify_comment_with_operator :
  existsb (Py.contains "# a | b") InputParser.shell_operators = true
  /\ InputParser.classify false "# a | b" = COMMENT
  /\ InputParser.classify false "# a | b" <> SHELL_COMMAND.
Proof. repeat split; try reflexivity. discriminate. Qed.

Example classify_ai_request_with_operator :
  existsb (Py.contains "AI: list files | sort") InputParser.shell_operators = true
  /\ InputParser.classify false "AI: list files | sort" = AI_REQUEST.
Proof. split; reflexivity. Qed.

(** ** The autorun predicate *)

(** C10: a command whose lowercase text starts with a safe prefix auto-runs,
    whatever else it contains: the safe-prefix test comes first, and it is a
    test on characters, not on words. *)
Theorem safe_prefix_autoruns (P : Platform) (command : string) (s : Sys P) :
  existsb (Py.startswith (Py.lower command)) safe_prefixes = true ->
  _should_autorun P command s = true.
Proof.
  intros Hsafe. unfold _should_autorun. cbv zeta.
  rewrite Hsafe. reflexivity.
Qed.

(** C10 at cd /tmp && rm -rf x, which also holds the risky keyword rm. *)
Lemma safe_prefix_autoruns_witness :
  existsb (Py.startswith (Py.lower "cd /tmp && rm -rf x")) safe_prefixes = true
  /\ existsb (Py.contains (Py.lower "cd /tmp && rm -rf x")) risky_keywords = true
  /\ _should_autorun Headless.platform "cd /tmp && rm -rf x"
                     (Headless.session []) = true.
Proof.
  split; [reflexivity|].
  split; [reflexivity|].
  apply safe_prefix_autoruns. reflexivity.
Defined.

Example catastrophe_autoruns (P : Platform) (s : Sys P) :
  _should_autorun P "catastrophe --now" s = true.
Proof. reflexivity. Qed.

Example rm_is_staged (P : Platform) (s : Sys P) :
  _should_autorun P "rm -rf /tmp/x" s = false.
Proof. reflexivity. Qed.

(** ** The translator's post-processing *)

(** C8: on a reply whose only fenced block is tagged bash and holds
    git push, [_clean_output] returns git pu: removing the tag removes every
    occurrence of bash and of sh in the block. *)
Theorem clean_output_alters_tagged_block :
  NLTranslator._clean_output tagged_reply = "git pu".
Proof. reflexivity. Qed.

Lemma clean_output_without_fence (text : string) :
  Py.contains text "```" = false ->
  NLTranslator._clean_output text = Py.strip text.
Proof.
  intros H. unfold NLTranslator._clean_output. now rewrite H.
Qed.

Example clean_output_untagged_block :
  NLTranslator._clean_output
    ("Here:" ++ newline ++ "```" ++ newline ++ "ls -la" ++ newline ++ "```")
  = "ls -la".
Proof. reflexivity. Qed.

Example clean_output_takes_text_outside_fences :
  NLTranslator._clean_output
    ("shall I?" ++ newline ++ "```" ++ newline ++ "ls" ++ newline ++ "```")
  = "all I?".
Proof. reflexivity. Qed.


(** ** The shell lexer *)

Section ShlexProperties.

Lemma emit_tokens (token : string) (rest : Shlex.Lexed) (parts : list string) :
  Shlex.emit token rest = Shlex.Tokens parts ->
  exists parts', rest = Shlex.Tokens parts' /\ parts = token :: parts'.
Proof.
  destruct rest as [parts'|msg]; cbn; [|discriminate].
  intros H. injection H as <-. now exists parts'.
Qed.

(** While a word is being read, what has been read of it starts the next
    token. *)
Lemma read_word_prefix (s : string) :
  forall state esc token quoted parts,
    Py.truthy token = true ->
    state <> Shlex.InSpace ->
    (state = Shlex.InEscape -> esc <> Shlex.InSpace /\ esc <> Shlex.InEscape) ->
    Shlex.read s state esc token quoted = Shlex.Tokens parts ->
    exists t rest, parts = (token ++ t) :: rest.
Proof.
  induction s as [|c s IH]; intros state esc token quoted parts Ht Hst Hesc H.
  - destruct state; try congruence; cbn in H; try discriminate.
    rewrite Ht in H. cbn in H. injection H as <-.
    exists EmptyString, []. now rewrite append_empty_r.
  - assert (Hadd : forall token' x parts',
               (exists t rest, parts' = (Shlex.add token' x ++ t) :: rest) ->
               exists t rest, parts' = (token' ++ t) :: rest).
    { intros token' x parts' (t & rest & ->). unfold Shlex.add.
      exists (String x t), rest. now rewrite append_assoc. }
    assert (Htadd : forall x, Py.truthy (Shlex.add token x) = true)
      by (intros x; now apply truthy_append).
    assert (Htadd2 : forall x y,
               Py.truthy (Shlex.add (Shlex.add token x) y) = true)
      by (intros x y; apply truthy_append, Htadd).
    assert (Hnext : forall state' esc' token' quoted',
               Shlex.read s state' esc' token' quoted' = Shlex.Tokens parts ->
               Py.truthy token' = true ->
               state' <> Shlex.InSpace ->
               (state' = Shlex.InEscape ->
                esc' <> Shlex.InSpace /\ esc' <> Shlex.InEscape) ->
               exists t rest, parts = (token' ++ t) :: rest)
      by (intros; eapply IH; eassumption).
    destruct state as [| |q|]; [congruence| | |]; cbn [Shlex.read] in H.
    + destruct (Shlex.whitespace c).
      * rewrite Ht in H. cbn [orb] in H.
        apply emit_tokens in H. destruct H as (parts' & _ & ->).
        exists EmptyString, parts'. now rewrite append_empty_r.
      * destruct (Shlex.quotes c);
          [apply (Hnext _ _ _ _ H Ht); discriminate|].
        destruct (Shlex.escape c).
        -- apply (Hnext _ _ _ _ H Ht); [discriminate|].
           intros _. split; discriminate.
        -- apply (Hadd token c). apply (Hnext _ _ _ _ H (Htadd c)); discriminate.
    + destruct (Ascii.eqb c q);
        [apply (Hnext _ _ _ _ H Ht); discriminate|].
      destruct (Shlex.escape c && Shlex.escapedquotes q).
      * apply (Hnext _ _ _ _ H Ht); [discriminate|].
        intros _. split; discriminate.
      * apply (Hadd token c). apply (Hnext _ _ _ _ H (Htadd c)); discriminate.
    + destruct (Hesc eq_refl) as (Hesc1 & Hesc2).
      destruct esc as [| |q|]; try congruence.
      * apply (Hadd token c). apply (Hnext _ _ _ _ H (Htadd c)); discriminate.
      * destruct (negb (Shlex.escape c) && negb (Ascii.eqb c q)).
        -- apply (Hadd token backslash). apply (Hadd _ c).
           apply (Hnext _ _ _ _ H (Htadd2 backslash c)); discriminate.
        -- apply (Hadd token c).
           apply (Hnext _ _ _ _ H (Htadd c)); discriminate.
Qed.

(** A text that starts with # has a first word that starts with #. *)
Lemma split_comment_head (t : string) (parts : list string) :
  Shlex.split (String "#" t) = Shlex.Tokens parts ->
  exists t' rest, parts = String "#" t' :: rest.
Proof.
  intros H.
  change (Shlex.split (String "#" t))
    with (Shlex.read t Shlex.InWord Shlex.InSpace "#" false) in H.
  apply read_word_prefix in H; try discriminate; [exact H | reflexivity].
Qed.

Lemma plain_inv (c : ascii) :
  plain c = true ->
  Shlex.whitespace c = false /\ Shlex.quotes c = false /\ Shlex.escape c = false.
Proof.
  unfold plain. intros H.
  apply andb_prop in H. destruct H as [H He].
  apply andb_prop in H. destruct H as [Hw Hq].
  now rewrite negb_true_iff in Hw, Hq, He.
Qed.

Lemma read_plain (s : string) :
  forall esc token quoted,
    every plain s = true ->
    Shlex.read s Shlex.InWord esc token quoted
    = Shlex.Tokens (if Py.truthy (token ++ s) || quoted
                    then [token ++ s] else []).
Proof.
  induction s as [|c s IH]; intros esc token quoted Hs.
  - cbn. now rewrite append_empty_r.
  - cbn in Hs. apply andb_prop in Hs. destruct Hs as [Hc Hs].
    destruct (plain_inv c Hc) as (Hw & Hq & He).
    cbn [Shlex.read]. rewrite Hw, Hq, He, (IH _ _ _ Hs).
    unfold Shlex.add. now rewrite append_assoc.
Qed.

(** A word without spaces, quotes and escapes is its own only token. *)
Lemma split_plain (s : string) :
  Py.truthy s = true -> every plain s = true ->
  Shlex.split s = Shlex.Tokens [s].
Proof.
  destruct s as [|c s]; [discriminate|]. intros _ Hs.
  cbn in Hs. apply andb_prop in Hs. destruct Hs as [Hc Hs].
  destruct (plain_inv c Hc) as (Hw & Hq & He).
  unfold Shlex.split. cbn [Shlex.read]. rewrite Hw, Hq, He.
  now rewrite (read_plain s _ _ _ Hs).
Qed.

Lemma plain_lower_char (c : ascii) :
  plain (Py.lower_char c) = true -> plain c = true.
Proof.
  destruct c as [b0 b1 b2 b3 b4 b5 b6 b7].
  destruct b0, b1, b2, b3, b4, b5, b6, b7; intros H; exact H || reflexivity.
Qed.

Lemma every_plain_lower (s : string) :
  every plain (Py.lower s) = true -> every plain s = true.
Proof.
  induction s as [|c s IH]; [trivial|]. cbn [Py.lower every].
  intros H. apply andb_prop in H. destruct H as [Hc Hs].
  now rewrite (plain_lower_char c Hc), IH.
Qed.

(** A bare interpreter name, in any case, is one plain word. *)
Lemma interpreter_is_one_word (text : string) :
  Py.mem (Py.lower text) ShellExecutor.shell_interpreters = true ->
  Shlex.split text = Shlex.Tokens [text].
Proof.
  intros H.
  assert (Hall : forallb (fun x => every plain x && Py.truthy x)
                         ShellExecutor.shell_interpreters = true)
    by reflexivity.
  pose proof (mem_forallb _ _ _ H Hall) as Hx. cbv beta in Hx.
  apply andb_prop in Hx. destruct Hx as [Hp Ht].
  apply split_plain.
  - destruct text; [discriminate | reflexivity].
  - now apply every_plain_lower.
Qed.

(** A text that shlex splits into words led by a built-in's name passes the
    guards that [execute] applies before it looks for built-ins. *)
Lemma builtin_passes_guards (text name : string) (args : list string) :
  Shlex.split text = Shlex.Tokens (name :: args) ->
  Py.mem name ShellExecutor.builtins = true ->
  Py.truthy text = true
  /\ Py.startswith text "#" = false
  /\ Py.mem (Py.lower text) ShellExecutor.shell_interpreters = false.
Proof.
  intros Hsplit Hname.
  assert (Hall : forallb (fun x => negb (prefix "#" x)
                                   && negb (Py.mem (Py.lower x)
                                              ShellExecutor.shell_interpreters))
                         ShellExecutor.builtins = true)
    by reflexivity.
  pose proof (mem_forallb _ _ _ Hname Hall) as Hx. cbv beta in Hx.
  apply andb_prop in Hx. destruct Hx as [Hhash Hinterp].
  apply negb_true_iff in Hhash. apply negb_true_iff in Hinterp.
  split; [|split].
  - destruct text; [discriminate | reflexivity].
  - unfold Py.startswith.
    destruct (prefix "#" text) eqn:H; [|reflexivity].
    apply prefix_inv in H. destruct H as (t & -> & _).
    apply split_comment_head in Hsplit. destruct Hsplit as (t' & rest & E).
    injection E as -> _. rewrite prefix_cons in Hhash. discriminate.
  - destruct (Py.mem (Py.lower text) _) eqn:H; [|reflexivity].
    rewrite (interpreter_is_one_word text H) in Hsplit.
    injection Hsplit as -> _. congruence.
Qed.

End ShlexProperties.

(** ** The executor *)

Section ExecutorProperties.

Variable P : Platform.

Lemma kept_refl (s : Sys P) : kept s s.
Proof. repeat split. Qed.

Lemma kept_trans (s1 s2 s3 : Sys P) : kept s1 s2 -> kept s2 s3 -> kept s1 s3.
Proof.
  unfold kept. intros (A1 & A2 & A3 & A4 & A5) (B1 & B2 & B3 & B4 & B5).
  repeat split; congruence.
Qed.

Lemma kept_with_world (w : World P) (s : Sys P) : kept s (with_world w s).
Proof. repeat split. Qed.

Lemma kept_with_shell (f : ShellState -> ShellState) (s : Sys P) :
  pending_commands (f (shell s)) = pending_commands (shell s) ->
  prompt_prefill (f (shell s)) = prompt_prefill (shell s) ->
  kept s (with_shell f s).
Proof. intros Hq Hp. repeat split; assumption. Qed.

Lemma export_each_kept (args : list string) (s : Sys P) :
  kept s (final (ShellExecutor.export_each P args s)).
Proof.
  revert s. induction args as [|arg rest IH]; intros s.
  - apply kept_refl.
  - cbn [ShellExecutor.export_each]. unfold bind at 1.
    destruct (Py.contains arg "=").
    + destruct (ShellExecutor.split_assignment arg) as [key value].
      unfold bind, modify.
      set (s1 := with_shell _ s).
      assert (K1 : kept s s1) by (apply kept_with_shell; reflexivity).
      destruct (environ_set P (world s1) key value) as [[e|] w]; cbn [final].
      * eapply kept_trans; [exact K1 | apply kept_with_world].
      * eapply kept_trans; [|apply IH].
        eapply kept_trans; [exact K1 | apply kept_with_world].
    + unfold ret. apply IH.
Qed.

Lemma call_builtin_kept (name : string) (args : list string) (s : Sys P) :
  kept s (final (ShellExecutor.call_builtin P name args s)).
Proof.
  unfold ShellExecutor.call_builtin.
  destruct (String.eqb name "cd").
  { unfold ShellExecutor._builtin_cd.
    destruct (isdir P (world s) _); [|apply kept_refl].
    set (s1 := with_shell _ s).
    assert (K1 : kept s s1) by (apply kept_with_shell; reflexivity).
    destruct (chdir P (world s1) _) as [[e|] w]; cbn [final];
      (eapply kept_trans; [exact K1 | apply kept_with_world]). }
  destruct (String.eqb name "export").
  { unfold ShellExecutor._builtin_export. destruct args as [|a args'].
    - apply kept_refl.
    - unfold bind.
      pose proof (export_each_kept (a :: args') s) as K.
      destruct (ShellExecutor.export_each P (a :: args') s); exact K. }
  destruct (String.eqb name "pwd"); [apply kept_refl|].
  destruct (String.eqb name "exit").
  { unfold ShellExecutor._builtin_exit. destruct args as [|a args'].
    - apply kept_refl.
    - destruct (ShellExecutor.isdigit a); [|apply kept_refl].
      destruct (ShellExecutor.int a); apply kept_refl. }
  unfold ShellExecutor._builtin_mode. destruct args as [|a args'].
  - apply kept_refl.
  - destruct (Py.mem (Py.lower a) _); [|apply kept_refl].
    apply kept_with_shell; reflexivity.
Qed.

(** A command that passes the guards is handed to the process primitive. *)
Lemma execute_external (command : string) (s : Sys P) :
  external command = true ->
  ShellExecutor.execute P command s
  = ShellExecutor.run_external P (Py.strip command) (log_execute command s).
Proof.
  unfold external, ShellExecutor.execute. cbv zeta.
  unfold bind at 1. unfold modify.
  intros H.
  apply andb_prop in H. destruct H as [H Hsplit].
  apply andb_prop in H. destruct H as [H Hinterp].
  apply andb_prop in H. destruct H as [Hne Hcomment].
  rewrite Hne. apply negb_true_iff in Hcomment. rewrite Hcomment.
  apply negb_true_iff in Hinterp. rewrite Hinterp. cbn [negb orb].
  destruct (Shlex.split (Py.strip command)) as [[|name args]|msg];
    try discriminate; [reflexivity|].
  apply negb_true_iff in Hsplit. rewrite Hsplit. reflexivity.
Qed.

(** The process primitive's outcome always becomes a result. *)
Lemma run_external_returns (text : string) (s : Sys P) :
  exists r s',
    ShellExecutor.run_external P text s = Ok r s'
    /\ command r = text
    /\ pending_commands (shell s') = pending_commands (shell s)
    /\ prompt_prefill (shell s') = prompt_prefill (shell s)
    /\ display s' = display s
    /\ executed s' = executed s
    /\ spawned s'
       = (spawned s ++ [mkSpawn text (cwd (shell s)) (env (shell s)) 300])%list.
Proof.
  unfold ShellExecutor.run_external.
  destruct (subprocess_run P (world s) _) as [outcome w].
  eexists. eexists. split; [reflexivity|].
  destruct outcome; repeat split.
Qed.

(** What [execute] does to the queue and to the logs, however it ends. *)
Lemma execute_effect (command : string) (s : Sys P) :
  let s' := final (ShellExecutor.execute P command s) in
  pending_commands (shell s') = pending_commands (shell s)
  /\ prompt_prefill (shell s') = prompt_prefill (shell s)
  /\ display s' = display s
  /\ executed s' = (executed s ++ [command])%list
  /\ spawned s'
     = (spawned s ++ if external command then [spawn_of command s] else [])%list.
Proof.
  destruct (external command) eqn:Hext.
  - rewrite (execute_external _ s Hext).
    destruct (run_external_returns (Py.strip command) (log_execute command s))
      as (r & s1 & Hrun & _ & Hq & Hp & Hd & He & Hs).
    rewrite Hrun. cbn [final]. repeat split; assumption.
  - assert (K : kept (log_execute command s)
                     (final (ShellExecutor.execute P command s))).
    { revert Hext. unfold external, ShellExecutor.execute. cbv zeta.
      unfold bind at 1. unfold modify.
      destruct (Py.truthy (Py.strip command)); cbn [negb orb andb];
        [|intros _; apply kept_refl].
      destruct (Py.startswith (Py.strip command) "#"); cbn [negb orb andb];
        [intros _; apply kept_refl|].
      destruct (Py.mem (Py.lower (Py.strip command)) _); cbn [negb orb andb];
        [intros _; apply kept_refl|].
      destruct (Shlex.split (Py.strip command)) as [[|name args]|msg];
        try discriminate; [|intros _; apply kept_refl].
      destruct (Py.mem name ShellExecutor.builtins); [|discriminate].
      intros _. unfold bind.
      pose proof (call_builtin_kept name args (log_execute command s)) as K.
      destruct (ShellExecutor.call_builtin P name args _) as [r s1|e s1];
        cbn [final] in *; [|exact K].
      unfold ShellExecutor._record_result, modify, ret. cbn [final].
      eapply kept_trans; [exact K|]. apply kept_with_shell; reflexivity. }
    destruct K as (Hq & Hp & Hd & He & Hs). cbv zeta.
    rewrite Hq, Hp, Hd, He, Hs. cbn. rewrite app_nil_r. repeat split.
Qed.

Lemma external_never_raises (command : string) (s s' : Sys P) (e : exn) :
  external command = true ->
  ShellExecutor.execute P command s <> Raise e s'.
Proof.
  intros Hext. rewrite (execute_external _ s Hext).
  destruct (run_external_returns (Py.strip command) (log_execute command s))
    as (r & s1 & Hrun & _).
  rewrite Hrun. discriminate.
Qed.

(** The exit built-in ends the session with code 0 when it has no
    argument. *)
Lemma execute_exit (s : Sys P) :
  ShellExecutor.execute P "exit" s = Raise (SystemExit 0) (log_execute "exit" s).
Proof. reflexivity. Qed.

End ExecutorProperties.

(** A text that shlex splits into words led by a built-in's name is
    dispatched to that built-in, and its result is recorded. *)
Lemma execute_builtin (P : Platform) (text name : string) (args : list string)
      (s : Sys P) :
  Shlex.split (Py.strip text) = Shlex.Tokens (name :: args) ->
  Py.mem name ShellExecutor.builtins = true ->
  ShellExecutor.execute P text s
  = (result <- ShellExecutor.call_builtin P name args ;;
     ShellExecutor._record_result P result ;;
     ret result) (log_execute text s).
Proof.
  intros Hsplit Hname.
  destruct (builtin_passes_guards _ _ _ Hsplit Hname) as (Hne & Hhash & Hint).
  unfold ShellExecutor.execute. cbv zeta. unfold bind at 1. unfold modify.
  rewrite Hne, Hhash, Hint, Hsplit, Hname. reflexivity.
Qed.

(** C5: a command that is the cd built-in with a path that does not resolve
    to an existing directory returns the result with return code 1 and the
    No such directory message in stderr; the working directory stays, and
    the process primitive is not called. *)
Theorem cd_to_missing_directory_fails
        (P : Platform) (text : string) (args : list string) (s : Sys P) :
  Shlex.split (Py.strip text) = Shlex.Tokens ("cd" :: args) ->
  isdir P (world s) (ShellExecutor.cd_target P args s) = false ->
  exists r s',
    ShellExecutor.execute P text s = Ok r s'
    /\ returncode r = 1%Z
    /\ stderr r = "cd: " ++ ShellExecutor.cd_target P args s
                  ++ ": No such directory" ++ newline
    /\ Py.contains (stderr r) "No such directory" = true
    /\ cwd (shell s') = cwd (shell s)
    /\ world s' = world s
    /\ spawned s' = spawned s.
Proof.
  intros Hsplit Hmissing.
  rewrite (execute_builtin P text "cd" args s Hsplit eq_refl).
  unfold bind at 1.
  change (ShellExecutor.call_builtin P "cd" args)
    with (ShellExecutor._builtin_cd P args).
  unfold ShellExecutor._builtin_cd.
  change (ShellExecutor.cd_target P args (log_execute text s))
    with (ShellExecutor.cd_target P args s).
  change (world (log_execute text s)) with (world s).
  rewrite Hmissing.
  eexists. eexists. split; [reflexivity|].
  cbn [returncode stderr].
  split; [reflexivity|]. split; [reflexivity|].
  split; [|repeat split].
  apply (contains_append_r "cd: "), contains_append_r. reflexivity.
Qed.

(** C5 at cd /nonexistent-path-xyz on the concrete platform. *)
Lemma cd_to_missing_directory_fails_witness :
  Shlex.split (Py.strip "cd /nonexistent-path-xyz")
  = Shlex.Tokens ["cd"; "/nonexistent-path-xyz"]
  /\ isdir Headless.platform (world (Headless.session []))
       (ShellExecutor.cd_target Headless.platform ["/nonexistent-path-xyz"]
                                (Headless.session [])) = false
  /\ exists r s',
       ShellExecutor.execute Headless.platform "cd /nonexistent-path-xyz"
                             (Headless.session []) = Ok r s'
       /\ returncode r = 1%Z
       /\ stderr r
          = "cd: " ++ ShellExecutor.cd_target Headless.platform
                        ["/nonexistent-path-xyz"] (Headless.session [])
            ++ ": No such directory" ++ newline
       /\ Py.contains (stderr r) "No such directory" = true
       /\ cwd (shell s') = cwd (shell (Headless.session []))
       /\ world s' = world (Headless.session [])
       /\ spawned s' = spawned (Headless.session []).
Proof.
  split; [reflexivity|].
  split; [reflexivity|].
  apply cd_to_missing_directory_fails; reflexivity.
Defined.

Example cd_nonexistent_path :
  exists s',
    ShellExecutor.execute Headless.platform "cd /nonexistent-path-xyz"
                          (Headless.session [])
    = Ok (mkResult 1 EmptyString
            ("cd: /nonexistent-path-xyz: No such directory" ++ newline)
            "cd /nonexistent-path-xyz") s'
    /\ cwd (shell s') = Headless.home
    /\ spawned s' = [].
Proof. eexists. split; [vm_compute; reflexivity|]. split; reflexivity. Qed.

Lemma execute_unbalanced (P : Platform) (s : Sys P) :
  ShellExecutor.execute P unbalanced s
  = Raise (ValueError "No closing quotation") (log_execute unbalanced s).
Proof. reflexivity. Qed.

(** C1: [execute] on echo followed by an unbalanced double quote raises the
    ValueError of shlex.split past its boundary instead of returning a result
    with return code 1: the split is made before the [try] block. *)
Theorem execute_raises_on_unbalanced_quote (P : Platform) (s : Sys P) :
  InputParser.first_word unbalanced = "echo"
  /\ ShellExecutor.execute P unbalanced s
     = Raise (ValueError "No closing quotation") (log_execute unbalanced s).
Proof. split; [reflexivity | apply execute_unbalanced]. Qed.

(** C9: a command that reaches the process primitive and outlives the
    300-second timeout there yields the result with return code 124 and the
    timeout message in stderr. *)
Theorem timeout_becomes_result_124 (P : Platform) (command : string) (s : Sys P) :
  external command = true ->
  fst (subprocess_run P (world s) (spawn_of command s)) = TimeoutExpired ->
  exists s',
    ShellExecutor.execute P command s
    = Ok (mkResult 124 EmptyString "Command timed out after 5 minutes"
                   (Py.strip command)) s'
    /\ spawn_timeout (spawn_of command s) = 300%Z
    /\ spawned s' = (spawned s ++ [spawn_of command s])%list
    /\ last_returncode (shell s') = 124%Z.
Proof.
  intros Hext Htimeout.
  rewrite (execute_external P command s Hext).
  unfold ShellExecutor.run_external. cbv zeta.
  change (mkSpawn (Py.strip command) (cwd (shell (log_execute command s)))
                  (env (shell (log_execute command s))) 300)
    with (spawn_of command s).
  change (world (log_execute command s)) with (world s).
  destruct (subprocess_run P (world s) (spawn_of command s)) as [outcome w].
  cbn [fst] in Htimeout. subst outcome.
  eexists. split; [reflexivity|]. repeat split.
Qed.

(** C9 at sleep 400 on the concrete platform. *)
Lemma timeout_becomes_result_124_witness :
  external "sleep 400" = true
  /\ fst (subprocess_run Headless.platform (world (Headless.session []))
                         (spawn_of "sleep 400" (Headless.session [])))
     = TimeoutExpired
  /\ exists s',
       ShellExecutor.execute Headless.platform "sleep 400" (Headless.session [])
       = Ok (mkResult 124 EmptyString "Command timed out after 5 minutes"
                      (Py.strip "sleep 400")) s'
       /\ spawn_timeout (spawn_of "sleep 400" (Headless.session [])) = 300%Z
       /\ spawned s'
          = (spawned (Headless.session [])
             ++ [spawn_of "sleep 400" (Headless.session [])])%list
       /\ last_returncode (shell s') = 124%Z.
Proof.
  split; [reflexivity|].
  split; [reflexivity|].
  apply timeout_becomes_result_124; reflexivity.
Defined.

(** ** The pending-command handlers *)

Section HandlerProperties.

Variable P : Platform.

Lemma print_result_returns (r : CommandResult) (s : Sys P) :
  exists s',
    _print_result P r s = Ok tt s'
    /\ shell s' = shell s /\ world s' = world s
    /\ executed s' = executed s /\ spawned s' = spawned s.
Proof.
  unfold _print_result, bind, modify, ret.
  destruct (Py.truthy (stdout r)); destruct (Py.truthy (stderr r));
    eexists; (split; [reflexivity|]); repeat split.
Qed.

Lemma remove_first_head (c : string) (q : list string) :
  remove_first c (c :: q) = Some q.
Proof. cbn. rewrite String.eqb_refl. reflexivity. Qed.

(** One command taken from the front of the queue: it is executed; if the
    execution returns, the command leaves the queue, and if it raises, the
    queue stays as it was. *)
Lemma run_one_effect (c : string) (q : list string) (s : Sys P) :
  pending_commands (shell s) = c :: q ->
  match ShellExecutor.execute P c (show (AgentCommand false c) s),
        run_one P c s with
  | Ok r _, Ok _ s' =>
      pending_commands (shell s') = q
      /\ last_exit_code (shell s') = returncode r
  | Raise e _, Raise e' s' =>
      e' = e /\ pending_commands (shell s') = c :: q
  | _, _ => False
  end
  /\ prompt_prefill (shell (final (run_one P c s))) = prompt_prefill (shell s)
  /\ executed (final (run_one P c s)) = (executed s ++ [c])%list
  /\ spawned (final (run_one P c s))
     = (spawned s ++ if external c then [spawn_of c s] else [])%list.
Proof.
  intros Hq.
  unfold run_one, bind, _print_agent_command, modify, remove_pending.
  pose proof (execute_effect P c (show (AgentCommand false c) s))
    as (Eq & Ep & _ & Ee & Es).
  destruct (ShellExecutor.execute P c (show (AgentCommand false c) s))
    as [r s1|e s1]; cbn [final] in *.
  - destruct (print_result_returns r s1) as (s2 & Hprint & Hsh & _ & He & Hs).
    rewrite Hprint.
    cbn [shell with_shell pending_commands set_last_exit_code].
    rewrite Hsh, Eq. cbn [show shell]. rewrite Hq, remove_first_head.
    cbn [final shell with_shell pending_commands prompt_prefill
         set_pending_commands set_last_exit_code last_exit_code
         executed spawned].
    rewrite Hsh, He, Hs, Ep, Ee, Es. repeat split.
  - rewrite Eq, Ep, Ee, Es. cbn [show shell]. repeat split. exact Hq.
Qed.

(** A command that passes the guards of [execute] never raises. *)
Lemma run_one_external (c : string) (q : list string) (s : Sys P) :
  external c = true ->
  pending_commands (shell s) = c :: q ->
  exists s',
    run_one P c s = Ok tt s'
    /\ pending_commands (shell s') = q
    /\ prompt_prefill (shell s') = prompt_prefill (shell s)
    /\ executed s' = (executed s ++ [c])%list
    /\ spawned s' = (spawned s ++ [spawn_of c s])%list.
Proof.
  intros Hext Hq.
  pose proof (run_one_effect c q s Hq) as (Hcase & Hp & He & Hs).
  rewrite Hext in Hs.
  rewrite (execute_external P c _ Hext) in Hcase.
  destruct (run_external_returns P (Py.strip c)
              (log_execute c (show (AgentCommand false c) s)))
    as (r & s1 & Hrun & _).
  rewrite Hrun in Hcase.
  destruct (run_one P c s) as [[] s'|e s']; [|contradiction].
  exists s'. cbn [final] in *. destruct Hcase as (Hq' & _).
  repeat split; assumption.
Qed.

(** The loop of [_run_pending_commands]: the commands are executed from the
    front of the queue, in order, until the queue is empty or an execution
    raises; nothing else ends the loop. *)
Lemma run_all_effect (q : list string) (s : Sys P) :
  pending_commands (shell s) = q ->
  match run_all P q s with
  | Ok _ s' =>
      executed s' = (executed s ++ q)%list
      /\ pending_commands (shell s') = []
  | Raise e s' =>
      exists done c rest,
        q = (done ++ c :: rest)%list
        /\ executed s' = (executed s ++ done ++ [c])%list
        /\ pending_commands (shell s') = c :: rest
        /\ exists sc sc', ShellExecutor.execute P c sc = Raise e sc'
  end.
Proof.
  revert s. induction q as [|c q IH]; intros s Hq.
  - cbn. rewrite app_nil_r. split; [reflexivity | exact Hq].
  - cbn [run_all]. unfold bind.
    pose proof (run_one_effect c q s Hq) as (Hcase & _ & He & _).
    destruct (ShellExecutor.execute P c (show (AgentCommand false c) s))
      as [r s1|e s1] eqn:Hexec;
      destruct (run_one P c s) as [[] s'|e' s']; try contradiction;
      cbn [final] in *.
    + destruct Hcase as (Hq' & _). specialize (IH s' Hq').
      destruct (run_all P q s') as [[] s''|e'' s''].
      * destruct IH as (IHe & IHq). split; [|exact IHq].
        rewrite IHe, He, <- app_assoc. reflexivity.
      * destruct IH as (done & c' & rest & Hsplit & IHe & IHq & Hraise).
        exists (c :: done), c', rest. split; [cbn; congruence|].
        split; [|split; [exact IHq | exact Hraise]].
        rewrite IHe, He, <- app_assoc. reflexivity.
    + destruct Hcase as (-> & Hq').
      exists [], c, q. repeat split; try assumption.
      now exists (show (AgentCommand false c) s), s1.
Qed.

(** A queue of commands that all go to the process primitive is run to its
    end. *)
Lemma run_all_external (q : list string) (s : Sys P) :
  pending_commands (shell s) = q ->
  Forall (fun c => external c = true) q ->
  exists s',
    run_all P q s = Ok tt s'
    /\ executed s' = (executed s ++ q)%list
    /\ pending_commands (shell s') = [].
Proof.
  intros Hq Hall. pose proof (run_all_effect q s Hq) as H.
  destruct (run_all P q s) as [[] s'|e s'].
  - now exists s'.
  - destruct H as (done & c & rest & -> & _ & _ & sc & sc' & Hraise).
    rewrite Forall_forall in Hall.
    assert (Hc : external c = true)
      by (apply Hall, in_or_app; right; now left).
    now destruct (external_never_raises P c sc sc' e Hc).
Qed.

(** When the command is on the queue, [run_one] raises only what its
    execution raised, and in the state that the execution left. *)
Lemma run_one_raise (c : string) (q : list string) (s s' : Sys P) (e : exn) :
  pending_commands (shell s) = c :: q ->
  run_one P c s = Raise e s' ->
  ShellExecutor.execute P c (show (AgentCommand false c) s) = Raise e s'.
Proof.
  intros Hq.
  unfold run_one, bind, _print_agent_command, modify, remove_pending.
  pose proof (execute_effect P c (show (AgentCommand false c) s))
    as (Eq & _).
  destruct (ShellExecutor.execute P c (show (AgentCommand false c) s))
    as [r s1|e1 s1]; cbn [final] in *;
    [|intros E; injection E as <- <-; reflexivity].
  destruct (print_result_returns r s1) as (s2 & Hprint & Hsh & _).
  rewrite Hprint.
  cbn [shell with_shell pending_commands set_last_exit_code].
  rewrite Hsh, Eq. cbn [show shell]. rewrite Hq, remove_first_head.
  discriminate.
Qed.

(** The whole run of a queue, state by state. *)
Lemma run_all_exact (q : list string) (s : Sys P) :
  pending_commands (shell s) = q ->
  match run_all P q s with
  | Ok _ s' =>
      ran_in_order q s s'
      /\ executed s' = (executed s ++ q)%list
      /\ pending_commands (shell s') = []
  | Raise e s' =>
      exists done c rest sc,
        q = (done ++ c :: rest)%list
        /\ ran_in_order done s sc
        /\ ShellExecutor.execute P c (show (AgentCommand false c) sc)
           = Raise e s'
        /\ executed s' = (executed s ++ done ++ [c])%list
        /\ pending_commands (shell s') = c :: rest
  end.
Proof.
  revert s. induction q as [|c q IH]; intros s Hq.
  - cbn. rewrite app_nil_r. repeat split. exact Hq.
  - cbn [run_all]. unfold bind.
    pose proof (run_one_effect c q s Hq) as (Hcase & _ & He & _).
    destruct (ShellExecutor.execute P c (show (AgentCommand false c) s))
      as [r s1|e s1] eqn:Hexec;
      destruct (run_one P c s) as [[] s'|e' s'] eqn:Hone;
      try contradiction; cbn [final] in *.
    + destruct Hcase as (Hq' & _). specialize (IH s' Hq').
      destruct (run_all P q s') as [[] s''|e'' s''].
      * destruct IH as (IHr & IHe & IHq). split; [|split; [|exact IHq]].
        -- split; [reflexivity|]. exists s'. split; [exact Hone | exact IHr].
        -- rewrite IHe, He, <- app_assoc. reflexivity.
      * destruct IH as (done & c' & rest & sc & Hsplit & IHr & Hx & IHe & IHq).
        exists (c :: done), c', rest, sc.
        split; [cbn; congruence|].
        split; [split; [reflexivity|]; exists s'; split;
                [exact Hone | exact IHr]|].
        split; [exact Hx|]. split; [|exact IHq].
        rewrite IHe, He, <- app_assoc. reflexivity.
    + destruct Hcase as (_ & Hq').
      exists [], c, q, s.
      split; [reflexivity|]. split; [reflexivity|].
      split; [exact (run_one_raise c q s s' e' Hq Hone)|].
      split; [exact He | exact Hq'].
Qed.

(** The loop of [_execute_translated_commands], entered with nothing
    staged: when it returns, the queue is empty and nothing is staged, or the
    front of the queue is a command the autorun predicate refuses and
    [prompt_prefill] holds its text; it raises only when an execution
    raises, and then that command is still at the front and nothing is
    staged. *)
Lemma triage_outcome (q : list string) (s : Sys P) :
  pending_commands (shell s) = q ->
  prompt_prefill (shell s) = EmptyString ->
  match triage P q s with
  | Ok _ s' =>
      (pending_commands (shell s') = []
       /\ prompt_prefill (shell s') = EmptyString)
      \/ (exists c rest,
             pending_commands (shell s') = c :: rest
             /\ prompt_prefill (shell s') = c)
  | Raise e s' =>
      prompt_prefill (shell s') = EmptyString
      /\ exists c rest,
           pending_commands (shell s') = c :: rest
           /\ exists sc sc', ShellExecutor.execute P c sc = Raise e sc'
  end.
Proof.
  revert s. induction q as [|c q IH]; intros s Hq Hp.
  - cbn. left. split; assumption.
  - cbn [triage]. unfold bind at 1. unfold gets.
    destruct (_should_autorun P c s).
    + unfold bind.
      pose proof (run_one_effect c q s Hq) as (Hcase & Hp' & _ & _).
      destruct (ShellExecutor.execute P c (show (AgentCommand false c) s))
        as [r s1|e s1] eqn:Hexec;
        destruct (run_one P c s) as [[] s'|e' s']; try contradiction;
        cbn [final] in *.
      * destruct Hcase as (Hq' & _). apply IH; congruence.
      * destruct Hcase as (-> & Hq'). split; [congruence|].
        exists c, q. split; [exact Hq'|].
        now exists (show (AgentCommand false c) s), s1.
    + unfold bind, gets. rewrite Hp. cbn. right.
      exists c, q. split; [exact Hq | reflexivity].
Qed.

End HandlerProperties.

(** C2: with the queue ls -la, rm -rf /tmp/x and nothing staged, the triage
    loop executes ls -la through the process primitive and takes it off the
    queue, then stops with rm -rf /tmp/x as [prompt_prefill] and still at the
    front of the queue, not executed. *)
Theorem triage_runs_ls_and_stages_rm (P : Platform) (s : Sys P) :
  pending_commands (shell s) = ["ls -la"; "rm -rf /tmp/x"] ->
  prompt_prefill (shell s) = EmptyString ->
  exists s',
    _execute_translated_commands P s = Ok tt s'
    /\ executed s' = (executed s ++ ["ls -la"])%list
    /\ spawned s' = (spawned s ++ [spawn_of "ls -la" s])%list
    /\ pending_commands (shell s') = ["rm -rf /tmp/x"]
    /\ prompt_prefill (shell s') = "rm -rf /tmp/x".
Proof.
  intros Hq Hp.
  unfold _execute_translated_commands. unfold bind at 1. unfold gets.
  rewrite Hq. cbn [triage]. unfold bind at 1. unfold gets.
  change (_should_autorun P "ls -la" s) with true. cbv iota.
  unfold bind at 1.
  destruct (run_one_external P "ls -la" _ s eq_refl Hq)
    as (s1 & Hrun & Hq1 & Hp1 & He1 & Hs1).
  rewrite Hrun. unfold bind at 1. unfold gets.
  change (_should_autorun P "rm -rf /tmp/x" s1) with false. cbv iota.
  unfold bind at 1. unfold gets. rewrite Hp1, Hp. cbn [Py.truthy negb].
  unfold bind, modify, _print_agent_command.
  eexists. split; [reflexivity|].
  cbn. repeat split; assumption.
Qed.

(** C2 on the concrete platform. *)
Lemma triage_runs_ls_and_stages_rm_witness :
  pending_commands (shell (Headless.session ["ls -la"; "rm -rf /tmp/x"]))
  = ["ls -la"; "rm -rf /tmp/x"]
  /\ prompt_prefill (shell (Headless.session ["ls -la"; "rm -rf /tmp/x"]))
     = EmptyString
  /\ exists s',
       _execute_translated_commands Headless.platform
         (Headless.session ["ls -la"; "rm -rf /tmp/x"]) = Ok tt s'
       /\ executed s'
          = (executed (Headless.session ["ls -la"; "rm -rf /tmp/x"])
             ++ ["ls -la"])%list
       /\ spawned s'
          = (spawned (Headless.session ["ls -la"; "rm -rf /tmp/x"])
             ++ [spawn_of "ls -la"
                   (Headless.session ["ls -la"; "rm -rf /tmp/x"])])%list
       /\ pending_commands (shell s') = ["rm -rf /tmp/x"]
       /\ prompt_prefill (shell s') = "rm -rf /tmp/x".
Proof.
  split; [reflexivity|].
  split; [reflexivity|].
  apply triage_runs_ls_and_stages_rm; reflexivity.
Defined.

(** C3, as amended: on a rerun phrase and a non-empty queue,
    [_handle_shortcut] executes the queued commands from the front, in order
    and whatever the autorun predicate says of them, each leaving the queue
    once its execution has returned.  It executes the whole queue and leaves
    it empty, unless a queued command raises SystemExit, the signal by which
    the exit built-in ends the session: then the run ends in the state that
    this execution left, the commands before it executed and gone from the
    queue, the command itself and the later ones still queued.  Runs in
    which an execution raises an error are not spoken of. *)
Theorem rerun_shortcut_runs_queue_in_order
        (P : Platform) (input : string) (s : Sys P) :
  Py.mem (Py.lower (Py.strip input)) rerun_phrases = true ->
  pending_commands (shell s) <> [] ->
  raises_error (_handle_shortcut P input s) = false ->
  let s0 := with_shell (set_prompt_prefill EmptyString) s in
  match _handle_shortcut P input s with
  | Ok handled s' =>
      handled = true
      /\ ran_in_order (pending_commands (shell s)) s0 s'
      /\ executed s' = (executed s ++ pending_commands (shell s))%list
      /\ pending_commands (shell s') = []
  | Raise e s' =>
      exists done c rest sc code,
        pending_commands (shell s) = (done ++ c :: rest)%list
        /\ ran_in_order done s0 sc
        /\ e = SystemExit code
        /\ ShellExecutor.execute P c (show (AgentCommand false c) sc)
           = Raise (SystemExit code) s'
        /\ executed s' = (executed s ++ done ++ [c])%list
        /\ pending_commands (shell s') = c :: rest
  end.
Proof.
  intros Hphrase Hne. cbv zeta.
  unfold _handle_shortcut. cbv zeta. rewrite Hphrase.
  unfold bind at 1 2. unfold _run_pending_commands. unfold bind at 1 3.
  unfold gets.
  destruct (pending_commands (shell s)) as [|c q] eqn:Hq; [congruence|].
  unfold bind, modify.
  set (s0 := with_shell (set_prompt_prefill EmptyString) s).
  assert (Hq0 : pending_commands (shell s0) = c :: q) by exact Hq.
  pose proof (run_all_exact P (c :: q) s0 Hq0) as H.
  destruct (run_all P (c :: q) s0) as [[] s'|e s']; cbn [raises_error ret].
  - intros _. destruct H as (Hr & He & Hq').
    split; [reflexivity|]. split; [exact Hr|]. split; [exact He | exact Hq'].
  - intros Herr.
    destruct H as (done & c' & rest & sc & Hsplit & Hr & Hx & He & Hq').
    destruct e as [code| | |]; try discriminate Herr.
    exists done, c', rest, sc, code.
    split; [exact Hsplit|]. split; [exact Hr|]. split; [reflexivity|].
    split; [exact Hx|]. split; [exact He | exact Hq'].
Qed.

(** C3, as amended, at go ahead with git commit -m x and git push queued. *)
Lemma rerun_shortcut_runs_queue_in_order_witness :
  Py.mem (Py.lower (Py.strip "go ahead")) rerun_phrases = true
  /\ pending_commands (shell (Headless.session ["git commit -m x"; "git push"]))
     <> []
  /\ raises_error
       (_handle_shortcut Headless.platform "go ahead"
          (Headless.session ["git commit -m x"; "git push"])) = false
  /\ let s0 := with_shell (set_prompt_prefill EmptyString)
                 (Headless.session ["git commit -m x"; "git push"]) in
     match _handle_shortcut Headless.platform "go ahead"
             (Headless.session ["git commit -m x"; "git push"]) with
     | Ok handled s' =>
         handled = true
         /\ ran_in_order
              (pending_commands
                 (shell (Headless.session ["git commit -m x"; "git push"])))
              s0 s'
         /\ executed s'
            = (executed (Headless.session ["git commit -m x"; "git push"])
               ++ pending_commands
                    (shell (Headless.session ["git commit -m x"; "git push"])))%list
         /\ pending_commands (shell s') = []
     | Raise e s' =>
         exists done c rest sc code,
           pending_commands
             (shell (Headless.session ["git commit -m x"; "git push"]))
           = (done ++ c :: rest)%list
           /\ ran_in_order done s0 sc
           /\ e = SystemExit code
           /\ ShellExecutor.execute Headless.platform c
                (show (AgentCommand false c) sc)
              = Raise (SystemExit code) s'
           /\ executed s'
              = (executed (Headless.session ["git commit -m x"; "git push"])
                 ++ done ++ [c])%list
           /\ pending_commands (shell s') = c :: rest
     end.
Proof.
  split; [reflexivity|].
  split; [discriminate|].
  split; [reflexivity|].
  apply rerun_shortcut_runs_queue_in_order;
    [reflexivity | discriminate | reflexivity].
Defined.

Example rerun_phrases_are_natural_language (nt : bool) :
  forallb (fun phrase =>
             match InputParser.classify nt phrase with
             | NATURAL_LANGUAGE => true
             | _ => false
             end) rerun_phrases = true.
Proof. destruct nt; reflexivity. Qed.

Example go_ahead_runs_commit_then_push :
  exists s',
    _handle_shortcut Headless.platform "go ahead"
      (Headless.session ["git commit -m x"; "git push"]) = Ok true s'
    /\ executed s' = ["git commit -m x"; "git push"]
    /\ map spawn_command (spawned s') = ["git commit -m x"; "git push"]
    /\ pending_commands (shell s') = []
    /\ _should_autorun Headless.platform "git commit -m x" s' = false
    /\ _should_autorun Headless.platform "git push" s' = false.
Proof. eexists. split; [vm_compute; reflexivity|]. repeat split. Qed.

(** C3, counterexample: with exit at the front of the queue, go ahead ends
    the session at exit; git push is not executed and the queue is not
    emptied. *)
Lemma rerun_shortcut_stops_at_exit :
  Py.mem (Py.lower (Py.strip "go ahead")) rerun_phrases = true
  /\ pending_commands (shell (Headless.session ["exit"; "git push"])) <> []
  /\ exists s',
       _handle_shortcut Headless.platform "go ahead"
         (Headless.session ["exit"; "git push"]) = Raise (SystemExit 0) s'
       /\ executed s' = ["exit"]
       /\ pending_commands (shell s') = ["exit"; "git push"]
       /\ pending_commands (shell s') <> [].
Proof.
  split; [reflexivity|].
  split; [discriminate|].
  eexists. split; [vm_compute; reflexivity|].
  repeat split. discriminate.
Qed.

(** The runs that C3, as amended, leaves out: with the unbalanced echo at
    the front of the queue, go ahead ends in the ValueError that [execute]
    lets through. *)
Example rerun_shortcut_unbalanced_is_an_error :
  raises_error (_handle_shortcut Headless.platform "go ahead"
                  (Headless.session [unbalanced; "git push"])) = true.
Proof. reflexivity. Qed.

(** C4: with echo and an unbalanced double quote as the whole queue and
    nothing staged, the triage loop auto-runs the command and is ended by the
    ValueError that [execute] lets through: the queue is not empty and
    nothing is staged. *)
Theorem triage_aborts_on_unbalanced_quote (P : Platform) (s : Sys P) :
  pending_commands (shell s) = [unbalanced] ->
  prompt_prefill (shell s) = EmptyString ->
  _should_autorun P unbalanced s = true
  /\ exists s',
       _execute_translated_commands P s
       = Raise (ValueError "No closing quotation") s'
       /\ pending_commands (shell s') = [unbalanced]
       /\ prompt_prefill (shell s') = EmptyString.
Proof.
  intros Hq Hp. split; [reflexivity|].
  unfold _execute_translated_commands. unfold bind at 1. unfold gets.
  rewrite Hq. cbn [triage]. unfold bind at 1. unfold gets.
  change (_should_autorun P unbalanced s) with true. cbv iota.
  unfold bind at 1.
  pose proof (run_one_effect P unbalanced [] s Hq) as (Hcase & Hp' & _ & _).
  rewrite execute_unbalanced in Hcase.
  destruct (run_one P unbalanced s) as [[] s'|e s']; [contradiction|].
  destruct Hcase as (-> & Hq'). cbn [final] in Hp'.
  exists s'. repeat split; congruence.
Qed.

(** C4 on the concrete platform. *)
Lemma triage_aborts_on_unbalanced_quote_witness :
  pending_commands (shell (Headless.session [unbalanced])) = [unbalanced]
  /\ prompt_prefill (shell (Headless.session [unbalanced])) = EmptyString
  /\ _should_autorun Headless.platform unbalanced
       (Headless.session [unbalanced]) = true
  /\ exists s',
       _execute_translated_commands Headless.platform
         (Headless.session [unbalanced])
       = Raise (ValueError "No closing quotation") s'
       /\ pending_commands (shell s') = [unbalanced]
       /\ prompt_prefill (shell s') = EmptyString.
Proof.
  split; [reflexivity|].
  split; [reflexivity|].
  apply triage_aborts_on_unbalanced_quote; reflexivity.
Defined.

(** ** The context extractor *)

Section BufferProperties.

Variable P : Platform.

Lemma read_stdin_returns (s : Sys P) :
  exists blobs s',
    InputBuffer.read_stdin P s = Ok blobs s' /\ shell s' = shell s.
Proof.
  unfold InputBuffer.read_stdin.
  destruct (stdin_isatty P (world s)); cbn [negb].
  - eexists. eexists. split; reflexivity.
  - destruct (stdin_read P (world s)) as [[content|] w];
      eexists; eexists; split; reflexivity.
Qed.

(** A reference to a file that does not exist becomes an error line in the
    context, and the cleaned command is empty. *)
Lemma missing_file_is_reported (s : Sys P) :
  let path := if negb (isabs P "missing.txt")
              then path_join P (cwd (shell s)) "missing.txt"
              else "missing.txt" in
  isfile P (world (final (InputBuffer.read_stdin P s))) path = false ->
  exists blobs s',
    InputBuffer.process_input P "@missing.txt" s
    = Ok (InputBuffer.mkProcessed
            EmptyString
            (blobs ++ ["# Error: File not found: " ++ path ++ newline])
            ["missing.txt"]) s'.
Proof.
  cbv zeta. intros Hmissing.
  destruct (read_stdin_returns s) as (blobs & s1 & Hread & Hsh).
  rewrite Hread in Hmissing. cbn [final] in Hmissing.
  exists blobs, s1.
  unfold InputBuffer.process_input.
  change (InputBuffer.findall_refs "@missing.txt") with ["missing.txt"].
  change (InputBuffer.clean "@missing.txt" ["missing.txt"]) with EmptyString.
  change (Py.contains "@missing.txt" "{clipboard}"
          || Py.contains "@missing.txt" "{clip}") with false.
  cbv iota zeta. unfold bind, gets, ret. rewrite Hread.
  unfold InputBuffer.read_refs. cbn [fold_left].
  unfold InputBuffer.read_ref.
  change (Py.contains "missing.txt" "*") with false. cbv iota.
  unfold InputBuffer._read_file. rewrite Hsh, Hmissing.
  cbn [negb Py.truthy append fst snd app]. reflexivity.
Qed.

(** [process_input] returns for every text, missing files included, as long
    as pyperclip's paste() does not raise. *)
Lemma process_input_returns (text : string) (s : Sys P) :
  (forall msg,
      pyperclip_paste P (world (final (InputBuffer.read_stdin P s)))
      <> PasteFailed msg) ->
  exists r s', InputBuffer.process_input P text s = Ok r s'.
Proof.
  intros Hpaste.
  destruct (read_stdin_returns s) as (blobs & s1 & Hread & Hsh).
  rewrite Hread in Hpaste. cbn [final] in Hpaste.
  unfold InputBuffer.process_input, bind, gets, ret. rewrite Hread.
  destruct (Py.contains text "{clipboard}" || Py.contains text "{clip}");
    [|eexists; eexists; reflexivity].
  unfold InputBuffer._get_clipboard.
  destruct (pyperclip_paste P (world s1)) as [|pasted|msg] eqn:Hp.
  - destruct (if String.eqb (sys_platform P) "darwin" then _ else _);
      eexists; eexists; reflexivity.
  - eexists; eexists; reflexivity.
  - now destruct (Hpaste msg).
Qed.

End BufferProperties.

(** C7: when the text holds a clipboard marker and pyperclip is installed
    but its paste() raises, [process_input] raises too: [_get_clipboard]
    catches ImportError only. *)
Theorem process_input_raises_when_paste_fails
        (P : Platform) (text msg : string) (s : Sys P) :
  Py.contains text "{clipboard}" || Py.contains text "{clip}" = true ->
  pyperclip_paste P (world (final (InputBuffer.read_stdin P s)))
  = PasteFailed msg ->
  exists s', InputBuffer.process_input P text s = Raise (LibraryError msg) s'.
Proof.
  intros Hmarker Hpaste.
  unfold InputBuffer.process_input. unfold bind at 1.
  destruct (read_stdin_returns P s) as (blobs & s1 & Hread & Hsh).
  rewrite Hread in *. cbn [final] in Hpaste.
  unfold bind at 1. unfold gets. unfold bind at 1.
  rewrite Hmarker. unfold bind at 1.
  unfold InputBuffer._get_clipboard. rewrite Hpaste.
  eexists. reflexivity.
Qed.

(** C7 at summarize {clipboard} on the concrete platform. *)
Lemma process_input_raises_when_paste_fails_witness :
  Py.contains "summarize {clipboard}" "{clipboard}"
  || Py.contains "summarize {clipboard}" "{clip}" = true
  /\ pyperclip_paste Headless.platform
       (world (final (InputBuffer.read_stdin Headless.platform
                                             (Headless.session []))))
     = PasteFailed
         "Pyperclip could not find a copy/paste mechanism for your system."
  /\ exists s',
       InputBuffer.process_input Headless.platform "summarize {clipboard}"
                                 (Headless.session [])
       = Raise (LibraryError
                  "Pyperclip could not find a copy/paste mechanism for your system.")
               s'.
Proof.
  split; [reflexivity|].
  split; [reflexivity|].
  apply process_input_raises_when_paste_fails; reflexivity.
Defined.

Example classify_ls : InputParser.classify false "ls -la" = SHELL_COMMAND.
Proof. reflexivity. Qed.

Example classify_comment_pipe : InputParser.classify false "# a | b" = COMMENT.
Proof. reflexivity. Qed.

Example classify_ai : InputParser.classify false "  AI: foo | bar " = AI_REQUEST.
Proof. reflexivity. Qed.

Example classify_nl : InputParser.classify false "go ahead" = NATURAL_LANGUAGE.
Proof. reflexivity. Qed.

Example extract_ai : InputParser.extract_ai_request " ai:  foo " = "foo".
Proof. reflexivity. Qed.

Example split_ws_ex : Py.split_ws "  git   status  " = ["git"; "status"].
Proof. reflexivity. Qed.

Example split_on_ex : Py.split_on "a```b```c" "```" = ["a"; "b"; "c"].
Proof. reflexivity. Qed.

Example replace_ex : Py.replace "git push" "sh" "" = "git pu".
Proof. reflexivity. Qed.

Example strip_ex : Py.strip "  a b  " = "a b".
Proof. reflexivity. Qed.

(** * Further properties *)

(** ** More on text *)

Section MoreText.

Lemma rstrip_cons_keep (c : ascii) (s : string) :
  Py.isspace c = false -> Py.rstrip (String c s) = String c (Py.rstrip s).
Proof.
  intros Hc. cbn [Py.rstrip]. rewrite Hc. now destruct (Py.rstrip s).
Qed.

Lemma rstrip_idem (s : string) : Py.rstrip (Py.rstrip s) = Py.rstrip s.
Proof.
  induction s as [|c s IH]; [reflexivity|].
  cbn [Py.rstrip]. destruct (Py.rstrip s) as [|b r] eqn:Hr.
  - destruct (Py.isspace c) eqn:Hc; [reflexivity|].
    cbn [Py.rstrip]. now rewrite Hc.
  - change (Py.rstrip (String c (String b r)))
      with (match Py.rstrip (String b r) with
            | EmptyString =>
                if Py.isspace c then EmptyString else String c EmptyString
            | x => String c x
            end).
    now rewrite IH.
Qed.

Lemma lstrip_head (s : string) :
  Py.lstrip s = EmptyString
  \/ exists c r, Py.lstrip s = String c r /\ Py.isspace c = false.
Proof.
  induction s as [|c s IH]; [now left|].
  cbn [Py.lstrip]. destruct (Py.isspace c) eqn:Hc; [exact IH|].
  right. now exists c, s.
Qed.

Lemma lstrip_rstrip (s : string) :
  Py.lstrip (Py.rstrip s) = Py.rstrip (Py.lstrip s).
Proof.
  induction s as [|c s IH]; [reflexivity|].
  destruct (Py.isspace c) eqn:Hc.
  - cbn [Py.rstrip Py.lstrip]. rewrite Hc, <- IH.
    destruct (Py.rstrip s); [reflexivity|]. cbn [Py.lstrip]. now rewrite Hc.
  - rewrite rstrip_cons_keep by exact Hc. cbn [Py.lstrip]. rewrite Hc.
    now rewrite rstrip_cons_keep.
Qed.

Lemma lstrip_idem (s : string) : Py.lstrip (Py.lstrip s) = Py.lstrip s.
Proof.
  destruct (lstrip_head s) as [->|(c & r & -> & Hc)]; [reflexivity|].
  cbn [Py.lstrip]. now rewrite Hc.
Qed.

Lemma strip_idem (s : string) : Py.strip (Py.strip s) = Py.strip s.
Proof.
  unfold Py.strip. now rewrite lstrip_rstrip, rstrip_idem, lstrip_idem.
Qed.

Lemma strip_rstrip (s : string) : Py.strip (Py.rstrip s) = Py.strip s.
Proof. unfold Py.strip. now rewrite lstrip_rstrip, rstrip_idem. Qed.

Lemma lstrip_spaces (ws s : string) :
  every Py.isspace ws = true -> Py.lstrip (ws ++ s) = Py.lstrip s.
Proof.
  induction ws as [|c ws IH]; [reflexivity|]. cbn [every append Py.lstrip].
  intros Hw. apply andb_prop in Hw. destruct Hw as [Hc Hw].
  rewrite Hc. now apply IH.
Qed.

Lemma rstrip_word_append (p s : string) :
  every not_space p = true -> Py.rstrip (p ++ s) = p ++ Py.rstrip s.
Proof.
  induction p as [|c p IH]; [reflexivity|]. cbn [every append].
  intros Hp. apply andb_prop in Hp. destruct Hp as [Hc Hp].
  unfold not_space in Hc. apply negb_true_iff in Hc.
  rewrite rstrip_cons_keep by exact Hc. now rewrite IH.
Qed.

Lemma lstrip_all_space (s : string) :
  Py.lstrip s = EmptyString <-> every Py.isspace s = true.
Proof.
  induction s as [|c s IH]; [easy|]. cbn [Py.lstrip every].
  destruct (Py.isspace c); cbn [andb]; [exact IH|]. easy.
Qed.

Lemma strip_all_space (s : string) :
  Py.strip s = EmptyString <-> every Py.isspace s = true.
Proof.
  rewrite <- lstrip_all_space. unfold Py.strip.
  destruct (lstrip_head s) as [->|(c & r & -> & Hc)]; [easy|].
  rewrite rstrip_cons_keep by exact Hc. easy.
Qed.

Lemma lower_append (a b : string) :
  Py.lower (a ++ b) = Py.lower a ++ Py.lower b.
Proof. induction a as [|c a IH]; cbn; [reflexivity | now rewrite IH]. Qed.

Lemma substring_skip (p s : string) (n : nat) :
  substring (String.length p) (String.length s + n) (p ++ s) = s.
Proof.
  induction p as [|c p IH]; cbn [String.length append substring].
  - induction s as [|c s IHs]; cbn; [now destruct n | now rewrite IHs].
  - exact IH.
Qed.

Lemma length_append (a b : string) :
  String.length (a ++ b) = String.length a + String.length b.
Proof. induction a as [|c a IH]; cbn; [reflexivity | now rewrite IH]. Qed.

(** [replace] leaves a text without an occurrence as it is. *)
Lemma replace_absent (s old new : string) :
  Py.contains s old = false -> Py.replace s old new = s.
Proof.
  unfold Py.replace. induction s as [|c s IH]; [reflexivity|].
  rewrite contains_unfold. intros H. apply orb_false_elim in H.
  destruct H as [Hp Hc]. cbn [Py.replace_from]. rewrite Hp.
  now rewrite (IH Hc).
Qed.

End MoreText.

(** ** More on the classifier *)

(** X1: a text is classified Empty exactly when it consists of white space
    only. *)
Theorem classify_empty_iff_blank (nt : bool) (text : string) :
  InputParser.classify nt text = EMPTY <-> every Py.isspace text = true.
Proof.
  rewrite <- strip_all_space. unfold InputParser.classify. cbv zeta.
  destruct (Py.strip text) as [|c r] eqn:Hs; cbn [Py.truthy negb].
  - easy.
  - split; [|discriminate].
    destruct (Py.startswith _ "#"); [discriminate|].
    destruct (Py.startswith _ InputParser.AI_PREFIX); [discriminate|].
    destruct (InputParser._is_shell_command nt _); discriminate.
Qed.

(** X2: the classification of a text does not depend on the white space
    around it. *)
Theorem classify_ignores_surrounding_space (nt : bool) (text : string) :
  InputParser.classify nt (Py.strip text) = InputParser.classify nt text.
Proof. unfold InputParser.classify. now rewrite strip_idem. Qed.

(** X3: for a request led by ai: in any case, with white space before it or
    not, [extract_ai_request] returns what follows the prefix, stripped. *)
Theorem extract_ai_request_body (ws p body : string) :
  every Py.isspace ws = true ->
  Py.lower p = InputParser.AI_PREFIX ->
  InputParser.extract_ai_request (ws ++ p ++ body) = Py.strip body.
Proof.
  intros Hws Hp.
  assert (Hnp : every not_space p = true).
  { destruct (prefix_lower_inv "ai:" p) as (q & Hq & Hl & Hs).
    - rewrite Hp. reflexivity.
    - assert (p = q) as <-; [|exact Hs].
      clear Hs Hws. unfold InputParser.AI_PREFIX in Hp.
      destruct p as [|a [|b [|c [|d p]]]]; try discriminate.
      destruct q as [|a' [|b' [|c' [|d' q]]]]; try discriminate.
      rewrite !prefix_cons in Hq.
      repeat (apply andb_prop in Hq; destruct Hq as [?H Hq]).
      repeat match goal with
             | E : Ascii.eqb _ _ = true |- _ => apply Ascii.eqb_eq in E
             end.
      congruence. }
  assert (Hlen : String.length p = 3).
  { unfold InputParser.AI_PREFIX in Hp.
    destruct p as [|a [|b [|c [|d p]]]]; try discriminate. reflexivity. }
  assert (Hstrip : Py.strip (ws ++ p ++ body) = p ++ Py.rstrip body).
  { unfold Py.strip. rewrite lstrip_spaces by exact Hws.
    assert (Py.lstrip (p ++ body) = p ++ body) as ->.
    { destruct p as [|a p]; [discriminate|]. cbn [append Py.lstrip].
      cbn in Hnp. apply andb_prop in Hnp. destruct Hnp as [Ha _].
      unfold not_space in Ha. apply negb_true_iff in Ha. now rewrite Ha. }
    now apply rstrip_word_append. }
  unfold InputParser.extract_ai_request. cbv zeta. rewrite Hstrip.
  rewrite lower_append, Hp. unfold Py.startswith. rewrite prefix_append.
  change (String.length InputParser.AI_PREFIX) with 3. rewrite <- Hlen.
  rewrite length_append, Nat.add_comm, substring_skip.
  apply strip_rstrip.
Qed.

Lemma extract_ai_request_body_witness :
  every Py.isspace "  " = true
  /\ Py.lower "Ai:" = InputParser.AI_PREFIX
  /\ InputParser.extract_ai_request ("  " ++ "Ai:" ++ "  explain this  ")
     = Py.strip "  explain this  ".
Proof.
  split; [reflexivity|]. split; [reflexivity|].
  apply extract_ai_request_body; reflexivity.
Defined.

(** X16: A line whose first word is exit, and that holds no shell operator,
    is classified as natural language and not as a shell command, on either
    kind of operating system. *)
Theorem exit_line_is_natural_language (nt : bool) (text : string) :
  InputParser.first_word text = "exit" ->
  existsb (Py.contains (Py.strip text)) InputParser.shell_operators = false ->
  InputParser.classify nt text = NATURAL_LANGUAGE.
Proof.
  intros Hw Hop. rewrite <- first_word_strip in Hw.
  unfold InputParser.classify. cbv zeta.
  set (st := Py.strip text) in *.
  assert (Ht : Py.truthy st = true).
  { destruct st; [vm_compute in Hw; discriminate Hw | reflexivity]. }
  rewrite Ht. cbn [negb].
  assert (Hc : Py.startswith st "#" = false).
  { destruct (Py.startswith st "#") eqn:E; [|reflexivity].
    unfold Py.startswith in E.
    apply (prefix_first_word "#" st) in E; [|reflexivity|reflexivity].
    rewrite Hw in E. vm_compute in E. discriminate E. }
  rewrite Hc.
  assert (Ha : Py.startswith (Py.lower st) InputParser.AI_PREFIX = false).
  { destruct (Py.startswith (Py.lower st) InputParser.AI_PREFIX) eqn:E;
      [|reflexivity].
    unfold Py.startswith in E. apply prefix_lower_inv in E.
    destruct E as (q & Hq & Hl & Hs).
    destruct q as [|a q]; [discriminate Hl|].
    apply prefix_first_word in Hq; [|rewrite Hs; reflexivity|reflexivity].
    rewrite Hw in Hq. apply prefix_inv in Hq.
    destruct Hq as (s' & Hs' & _). injection Hs' as <- _.
    vm_compute in Hl. discriminate Hl. }
  rewrite Ha.
  unfold InputParser._is_shell_command. cbv zeta. rewrite Hw, Hop.
  destruct nt; reflexivity.
Qed.

Lemma exit_line_is_natural_language_witness :
  InputParser.first_word "exit 3" = "exit"
  /\ existsb (Py.contains (Py.strip "exit 3")) InputParser.shell_operators
     = false
  /\ InputParser.classify false "exit 3" = NATURAL_LANGUAGE.
Proof.
  split; [reflexivity|]. split; [reflexivity|].
  apply (exit_line_is_natural_language false "exit 3"); reflexivity.
Defined.


(** ** More on the executor *)

(** X4: an empty text, a comment and a bare interpreter name are answered
    with return code 0 and empty streams; nothing is recorded as the last
    command, the state and the world stay as they are, and the process
    primitive is not called. *)
Theorem noop_changes_nothing (P : Platform) (text : string) (s : Sys P) :
  noop text = true ->
  exists s',
    ShellExecutor.execute P text s
    = Ok (mkResult 0 EmptyString EmptyString (Py.strip text)) s'
    /\ shell s' = shell s
    /\ world s' = world s
    /\ spawned s' = spawned s.
Proof.
  unfold noop, ShellExecutor.execute. cbv zeta.
  unfold bind at 1. unfold modify. intros H.
  destruct (negb (Py.truthy (Py.strip text))
            || Py.startswith (Py.strip text) "#") eqn:Hfirst.
  - eexists. split; [reflexivity|]. repeat split.
  - cbn [orb] in H. rewrite H.
    eexists. split; [reflexivity|]. repeat split.
Qed.

Lemma noop_changes_nothing_witness :
  noop "  # list the files" = true
  /\ exists s',
       ShellExecutor.execute Headless.platform "  # list the files"
                             (Headless.session [])
       = Ok (mkResult 0 EmptyString EmptyString
                      (Py.strip "  # list the files")) s'
       /\ shell s' = shell (Headless.session [])
       /\ world s' = world (Headless.session [])
       /\ spawned s' = spawned (Headless.session []).
Proof.
  split; [reflexivity|].
  apply noop_changes_nothing. reflexivity.
Defined.

(** X5: pwd returns the working directory followed by a newline, changes
    neither the directory nor the environment nor the world, and gives the
    same output when it is run again. *)
Theorem pwd_is_idempotent
        (P : Platform) (text : string) (args : list string) (s : Sys P) :
  Shlex.split (Py.strip text) = Shlex.Tokens ("pwd" :: args) ->
  exists r1 s1 r2 s2,
    ShellExecutor.execute P text s = Ok r1 s1
    /\ ShellExecutor.execute P text s1 = Ok r2 s2
    /\ returncode r1 = 0%Z
    /\ stdout r1 = cwd (shell s) ++ newline
    /\ stdout r2 = stdout r1
    /\ cwd (shell s2) = cwd (shell s)
    /\ env (shell s2) = env (shell s)
    /\ world s2 = world s
    /\ spawned s2 = spawned s.
Proof.
  intros Hsplit.
  do 4 eexists.
  split; [rewrite (execute_builtin P text "pwd" args s Hsplit eq_refl);
          reflexivity|].
  split; [rewrite (execute_builtin P text "pwd" args _ Hsplit eq_refl);
          reflexivity|].
  repeat split.
Qed.

Lemma pwd_is_idempotent_witness :
  Shlex.split (Py.strip "pwd") = Shlex.Tokens ["pwd"]
  /\ exists r1 s1 r2 s2,
       ShellExecutor.execute Headless.platform "pwd" (Headless.session [])
       = Ok r1 s1
       /\ ShellExecutor.execute Headless.platform "pwd" s1 = Ok r2 s2
       /\ returncode r1 = 0%Z
       /\ stdout r1 = cwd (shell (Headless.session [])) ++ newline
       /\ stdout r2 = stdout r1
       /\ cwd (shell s2) = cwd (shell (Headless.session []))
       /\ env (shell s2) = env (shell (Headless.session []))
       /\ world s2 = world (Headless.session [])
       /\ spawned s2 = spawned (Headless.session []).
Proof.
  split; [reflexivity|].
  apply (pwd_is_idempotent Headless.platform "pwd" []). reflexivity.
Defined.

(** What a cd does, by the answers of the file system. *)
Lemma execute_cd (P : Platform) (text : string) (args : list string)
      (s : Sys P) :
  Shlex.split (Py.strip text) = Shlex.Tokens ("cd" :: args) ->
  isdir P (world s) (ShellExecutor.cd_target P args s) = true ->
  ShellExecutor.execute P text s
  = let target := ShellExecutor.cd_target P args s in
    let s1 := with_shell (set_cwd target) (log_execute text s) in
    match chdir P (world s) target with
    | (Some e, w) => Raise e (with_world w s1)
    | (None, w) =>
        let r := mkResult 0 EmptyString EmptyString
                          (ShellExecutor.cd_shown args) in
        Ok r (with_shell (set_last r) (with_world w s1))
    end.
Proof.
  intros Hcd Hdir.
  rewrite (execute_builtin P text "cd" args s Hcd eq_refl).
  unfold bind at 1.
  change (ShellExecutor.call_builtin P "cd" args)
    with (ShellExecutor._builtin_cd P args).
  unfold ShellExecutor._builtin_cd.
  change (ShellExecutor.cd_target P args (log_execute text s))
    with (ShellExecutor.cd_target P args s).
  change (world (log_execute text s)) with (world s).
  rewrite Hdir. cbv zeta.
  change (world (with_shell (set_cwd (ShellExecutor.cd_target P args s))
                            (log_execute text s))) with (world s).
  destruct (chdir P (world s) (ShellExecutor.cd_target P args s))
    as [[e|] w]; reflexivity.
Qed.

(** X6: after a cd to an existing directory that the process can enter, the
    working directory is the resolved path, and a pwd that follows prints
    it; neither calls the process primitive. *)
Theorem cd_then_pwd (P : Platform) (text1 text2 : string)
        (args args2 : list string) (s : Sys P) :
  Shlex.split (Py.strip text1) = Shlex.Tokens ("cd" :: args) ->
  Shlex.split (Py.strip text2) = Shlex.Tokens ("pwd" :: args2) ->
  isdir P (world s) (ShellExecutor.cd_target P args s) = true ->
  fst (chdir P (world s) (ShellExecutor.cd_target P args s)) = None ->
  exists r1 s1 r2 s2,
    ShellExecutor.execute P text1 s = Ok r1 s1
    /\ returncode r1 = 0%Z
    /\ cwd (shell s1) = ShellExecutor.cd_target P args s
    /\ ShellExecutor.execute P text2 s1 = Ok r2 s2
    /\ stdout r2 = ShellExecutor.cd_target P args s ++ newline
    /\ spawned s2 = spawned s.
Proof.
  intros Hcd Hpwd Hdir Hchdir.
  rewrite (execute_cd P text1 args s Hcd Hdir). cbv zeta.
  destruct (chdir P (world s) (ShellExecutor.cd_target P args s)) as [oe w].
  cbn [fst] in Hchdir. subst oe.
  do 4 eexists. split; [reflexivity|].
  split; [reflexivity|]. split; [reflexivity|].
  split; [rewrite (execute_builtin P text2 "pwd" args2 _ Hpwd eq_refl);
          reflexivity|].
  split; reflexivity.
Qed.

Lemma cd_then_pwd_witness :
  Shlex.split (Py.strip "cd ../../tmp") = Shlex.Tokens ["cd"; "../../tmp"]
  /\ Shlex.split (Py.strip "pwd") = Shlex.Tokens ["pwd"]
  /\ isdir Headless.platform (world (Headless.session []))
       (ShellExecutor.cd_target Headless.platform ["../../tmp"]
                                (Headless.session [])) = true
  /\ fst (chdir Headless.platform (world (Headless.session []))
            (ShellExecutor.cd_target Headless.platform ["../../tmp"]
                                     (Headless.session []))) = None
  /\ exists r1 s1 r2 s2,
       ShellExecutor.execute Headless.platform "cd ../../tmp"
                             (Headless.session []) = Ok r1 s1
       /\ returncode r1 = 0%Z
       /\ cwd (shell s1)
          = ShellExecutor.cd_target Headless.platform ["../../tmp"]
                                    (Headless.session [])
       /\ ShellExecutor.execute Headless.platform "pwd" s1 = Ok r2 s2
       /\ stdout r2
          = ShellExecutor.cd_target Headless.platform ["../../tmp"]
                                    (Headless.session []) ++ newline
       /\ spawned s2 = spawned (Headless.session []).
Proof.
  split; [reflexivity|]. split; [reflexivity|].
  split; [reflexivity|]. split; [reflexivity|].
  apply (cd_then_pwd Headless.platform "cd ../../tmp" "pwd" ["../../tmp"] []);
    reflexivity.
Defined.

Example export_home_then_cd :
  match ShellExecutor.execute Headless.platform "export HOME=/tmp"
          (Headless.session []) with
  | Ok _ s1 =>
      match ShellExecutor.execute Headless.platform "cd" s1 with
      | Ok r s2 => returncode r = 0%Z /\ cwd (shell s2) = "/tmp"
                   /\ Headless.getcwd (world s2) = "/tmp"
      | Raise _ _ => False
      end
  | Raise _ _ => False
  end.
Proof. vm_compute. repeat split. Qed.

Example relpath_ex :
  Headless.posix_relpath Headless.os "/home/user/build.py" "/home/user"
  = inl "build.py"
  /\ Headless.posix_relpath Headless.os "/tmp/x" "/home/user"
     = inl "../../tmp/x"
  /\ Headless.posix_relpath Headless.os "/home/user" "/home/user" = inl ".".
Proof. repeat split. Qed.

(** X7: when the directory exists and the process cannot enter it, cd
    raises the error of os.chdir past [execute]; the working directory of
    the session has already been set to the path, and nothing is recorded as
    the last command. *)
Theorem cd_keeps_new_directory_when_chdir_fails
        (P : Platform) (text : string) (args : list string) (s : Sys P)
        (e : exn) :
  Shlex.split (Py.strip text) = Shlex.Tokens ("cd" :: args) ->
  isdir P (world s) (ShellExecutor.cd_target P args s) = true ->
  fst (chdir P (world s) (ShellExecutor.cd_target P args s)) = Some e ->
  exists s',
    ShellExecutor.execute P text s = Raise e s'
    /\ cwd (shell s') = ShellExecutor.cd_target P args s
    /\ last_command (shell s') = last_command (shell s)
    /\ last_returncode (shell s') = last_returncode (shell s).
Proof.
  intros Hcd Hdir Hchdir.
  rewrite (execute_cd P text args s Hcd Hdir). cbv zeta.
  destruct (chdir P (world s) (ShellExecutor.cd_target P args s)) as [oe w].
  cbn [fst] in Hchdir. subst oe.
  eexists. split; [reflexivity|]. repeat split.
Qed.

Lemma cd_keeps_new_directory_when_chdir_fails_witness :
  Shlex.split (Py.strip "cd /root") = Shlex.Tokens ["cd"; "/root"]
  /\ isdir Desktop.platform (world (Desktop.session []))
       (ShellExecutor.cd_target Desktop.platform ["/root"]
                                (Desktop.session [])) = true
  /\ fst (chdir Desktop.platform (world (Desktop.session []))
            (ShellExecutor.cd_target Desktop.platform ["/root"]
                                     (Desktop.session [])))
     = Some (OSError "[Errno 13] Permission denied: '/root'")
  /\ exists s',
       ShellExecutor.execute Desktop.platform "cd /root" (Desktop.session [])
       = Raise (OSError "[Errno 13] Permission denied: '/root'") s'
       /\ cwd (shell s')
          = ShellExecutor.cd_target Desktop.platform ["/root"]
                                    (Desktop.session [])
       /\ last_command (shell s') = last_command (shell (Desktop.session []))
       /\ last_returncode (shell s')
          = last_returncode (shell (Desktop.session [])).
Proof.
  split; [reflexivity|]. split; [reflexivity|]. split; [reflexivity|].
  apply cd_keeps_new_directory_when_chdir_fails; reflexivity.
Defined.

(** *** export *)

Lemma dict_get_set_same (k v : string) (d : Env) :
  Py2.dict_get k (dict_set k v d) = Some v.
Proof.
  induction d as [|[k' v'] d IH]; cbn.
  - now rewrite String.eqb_refl.
  - destruct (String.eqb k' k) eqn:E; cbn.
    + now rewrite String.eqb_refl.
    + now rewrite E.
Qed.

Lemma dict_get_set_other (k k0 v : string) (d : Env) :
  k0 <> k -> Py2.dict_get k0 (dict_set k v d) = Py2.dict_get k0 d.
Proof.
  intros Hne. induction d as [|[k' v'] d IH]; cbn.
  - apply String.eqb_neq in Hne. rewrite String.eqb_sym. now rewrite Hne.
  - destruct (String.eqb k' k) eqn:E; cbn.
    + apply String.eqb_eq in E. subst k'.
      apply String.eqb_neq in Hne. rewrite String.eqb_sym in Hne.
      now rewrite Hne.
    + now rewrite IH.
Qed.

(** Setting a key keeps the number of entries when the key is there and
    adds one at the end when it is not. *)
Lemma dict_set_keys (k v : string) (d : Env) :
  map fst (dict_set k v d)
  = if Py.mem k (map fst d) then map fst d else (map fst d ++ [k])%list.
Proof.
  unfold Py.mem. induction d as [|[k' v'] d IH]; [reflexivity|].
  cbn [dict_set map fst existsb]. rewrite (String.eqb_sym k k').
  destruct (String.eqb k' k) eqn:E; cbn [orb map fst].
  - apply String.eqb_eq in E. now subst.
  - rewrite IH. now destruct (existsb (String.eqb k) (map fst d)).
Qed.

Lemma split_assignment_first_equals (key value cur : string) :
  Py.contains key "=" = false ->
  Py.split_once_from "=" (key ++ "=" ++ value) cur = [cur ++ key; value].
Proof.
  revert cur. induction key as [|c key IH]; intros cur Hk.
  - cbn [append Py.split_once_from]. rewrite append_empty_r.
    change (prefix "=" (String "=" value)) with (prefix EmptyString value).
    rewrite prefix_empty. cbn [String.length substring].
    rewrite <- Nat.add_1_r.
    pose proof (substring_skip EmptyString value 1) as E.
    cbn [String.length append] in E. now rewrite E.
  - rewrite contains_unfold in Hk. apply orb_false_elim in Hk.
    destruct Hk as [Hp Hk]. rewrite prefix_cons in Hp.
    rewrite prefix_empty, andb_true_r in Hp.
    cbn [append Py.split_once_from]. rewrite prefix_cons, Hp. cbn [andb].
    rewrite (IH _ Hk), append_assoc. reflexivity.
Qed.

Lemma contains_key_equals (key value : string) :
  Py.contains (key ++ "=" ++ value) "=" = true.
Proof.
  apply contains_append_r, contains_prefix. exact (prefix_append "=" value).
Qed.

(** X8: export KEY=VALUE, where the operating system accepts the variable,
    returns code 0 and binds KEY to VALUE in the environment of the session,
    splitting at the first [=]; the other variables keep their values. *)
Theorem export_binds_variable
        (P : Platform) (text key value : string) (s : Sys P) :
  Shlex.split (Py.strip text) = Shlex.Tokens ["export"; key ++ "=" ++ value] ->
  Py.contains key "=" = false ->
  fst (environ_set P (world s) key value) = None ->
  exists r s',
    ShellExecutor.execute P text s = Ok r s'
    /\ returncode r = 0%Z
    /\ env (shell s') = dict_set key value (env (shell s))
    /\ Py2.dict_get key (env (shell s')) = Some value
    /\ (forall k, k <> key ->
                  Py2.dict_get k (env (shell s'))
                  = Py2.dict_get k (env (shell s)))
    /\ spawned s' = spawned s.
Proof.
  intros Hsplit Hkey Hos.
  rewrite (execute_builtin P text "export" _ s Hsplit eq_refl).
  unfold bind at 1.
  change (ShellExecutor.call_builtin P "export" [key ++ "=" ++ value])
    with (ShellExecutor._builtin_export P [key ++ "=" ++ value]).
  unfold ShellExecutor._builtin_export. unfold bind at 1.
  cbn [ShellExecutor.export_each]. unfold bind at 1.
  rewrite contains_key_equals. unfold ShellExecutor.split_assignment.
  rewrite (split_assignment_first_equals key value EmptyString Hkey).
  cbn [append]. unfold bind at 1. unfold modify.
  change (world (with_shell _ (log_execute text s))) with (world s).
  destruct (environ_set P (world s) key value) as [oe w].
  cbn [fst] in Hos. subst oe.
  unfold bind, ret, ShellExecutor._record_result, modify.
  eexists. eexists. split; [reflexivity|].
  split; [reflexivity|]. split; [reflexivity|].
  cbn [shell with_shell with_world env set_last set_env log_execute].
  split; [apply dict_get_set_same|].
  split; [|reflexivity].
  intros k Hk. now apply dict_get_set_other.
Qed.

Lemma export_binds_variable_witness :
  Shlex.split (Py.strip "export OPTS=a=b")
  = Shlex.Tokens ["export"; "OPTS" ++ "=" ++ "a=b"]
  /\ Py.contains "OPTS" "=" = false
  /\ fst (environ_set Headless.platform (world (Headless.session []))
                      "OPTS" "a=b") = None
  /\ exists r s',
       ShellExecutor.execute Headless.platform "export OPTS=a=b"
                             (Headless.session []) = Ok r s'
       /\ returncode r = 0%Z
       /\ env (shell s')
          = dict_set "OPTS" "a=b" (env (shell (Headless.session [])))
       /\ Py2.dict_get "OPTS" (env (shell s')) = Some "a=b"
       /\ (forall k, k <> "OPTS" ->
                     Py2.dict_get k (env (shell s'))
                     = Py2.dict_get k (env (shell (Headless.session []))))
       /\ spawned s' = spawned (Headless.session []).
Proof.
  split; [reflexivity|]. split; [reflexivity|]. split; [reflexivity|].
  apply export_binds_variable; reflexivity.
Defined.

Lemma prefix_refl (s : string) : prefix s s = true.
Proof.
  pose proof (prefix_append s EmptyString) as H.
  now rewrite append_empty_r in H.
Qed.

Lemma listing_contains_line (kv : string * string) (d : Env) :
  In kv d ->
  Py.contains (Py.join newline (map export_line d) ++ newline)
              (export_line kv ++ newline) = true.
Proof.
  induction d as [|x d IH]; [contradiction|].
  intros [->|Hin].
  - apply contains_prefix. destruct d as [|y d].
    + apply prefix_refl.
    + change (Py.join newline (map export_line (kv :: y :: d)))
        with (export_line kv ++ newline
              ++ Py.join newline (map export_line (y :: d))).
      rewrite !append_assoc, <- (append_assoc (export_line kv) newline).
      apply prefix_append.
  - destruct d as [|y d]; [contradiction|].
    change (Py.join newline (map export_line (x :: y :: d)))
      with (export_line x ++ newline
            ++ Py.join newline (map export_line (y :: d))).
    rewrite !append_assoc. apply contains_append_r.
    apply (contains_append_r newline). now apply IH.
Qed.

(** X9: export without arguments returns code 0, lists the environment of
    the session, one line KEY=VALUE for each entry in insertion order, and
    changes nothing in it. *)
Theorem export_lists_environment (P : Platform) (text : string) (s : Sys P) :
  Shlex.split (Py.strip text) = Shlex.Tokens ["export"] ->
  exists r s',
    ShellExecutor.execute P text s = Ok r s'
    /\ returncode r = 0%Z
    /\ stdout r
       = Py.join newline (map export_line (env (shell s))) ++ newline
    /\ (forall kv, In kv (env (shell s)) ->
                   Py.contains (stdout r) (export_line kv ++ newline) = true)
    /\ env (shell s') = env (shell s)
    /\ world s' = world s.
Proof.
  intros Hsplit.
  rewrite (execute_builtin P text "export" [] s Hsplit eq_refl).
  eexists. eexists. split; [reflexivity|].
  split; [reflexivity|]. split; [reflexivity|].
  split; [|split; reflexivity].
  intros kv Hin. cbn [stdout]. now apply listing_contains_line.
Qed.

Lemma export_lists_environment_witness :
  Shlex.split (Py.strip "export") = Shlex.Tokens ["export"]
  /\ exists r s',
       ShellExecutor.execute Headless.platform "export" (Headless.session [])
       = Ok r s'
       /\ returncode r = 0%Z
       /\ stdout r
          = Py.join newline
              (map export_line (env (shell (Headless.session []))))
            ++ newline
       /\ (forall kv, In kv (env (shell (Headless.session []))) ->
                      Py.contains (stdout r) (export_line kv ++ newline)
                      = true)
       /\ env (shell s') = env (shell (Headless.session []))
       /\ world s' = world (Headless.session []).
Proof.
  split; [reflexivity|].
  apply export_lists_environment. reflexivity.
Defined.

(** *** mode *)

(** X10: mode NAME switches to the lowercased NAME and returns code 0 when
    it is shell, nl or ai in any case; otherwise it returns code 1 and the
    mode stays. *)
Theorem mode_switches_or_refuses
        (P : Platform) (text name : string) (args : list string) (s : Sys P) :
  Shlex.split (Py.strip text) = Shlex.Tokens ("mode" :: name :: args) ->
  exists r s',
    ShellExecutor.execute P text s = Ok r s'
    /\ (if Py.mem (Py.lower name) valid_modes
        then returncode r = 0%Z /\ mode (shell s') = Py.lower name
        else returncode r = 1%Z /\ mode (shell s') = mode (shell s))
    /\ spawned s' = spawned s.
Proof.
  intros Hsplit.
  rewrite (execute_builtin P text "mode" _ s Hsplit eq_refl).
  unfold bind at 1.
  change (ShellExecutor.call_builtin P "mode" (name :: args))
    with (ShellExecutor._builtin_mode P (name :: args)).
  unfold ShellExecutor._builtin_mode, valid_modes.
  destruct (Py.mem (Py.lower name) ["shell"; "nl"; "ai"]);
    eexists; eexists; (split; [reflexivity|]); repeat split.
Qed.

Lemma mode_switches_or_refuses_witness :
  Shlex.split (Py.strip "mode SHELL") = Shlex.Tokens ["mode"; "SHELL"]
  /\ exists r s',
       ShellExecutor.execute Headless.platform "mode SHELL"
                             (Headless.session []) = Ok r s'
       /\ (if Py.mem (Py.lower "SHELL") valid_modes
           then returncode r = 0%Z /\ mode (shell s') = Py.lower "SHELL"
           else returncode r = 1%Z
                /\ mode (shell s') = mode (shell (Headless.session [])))
       /\ spawned s' = spawned (Headless.session []).
Proof.
  split; [reflexivity|].
  apply (mode_switches_or_refuses Headless.platform "mode SHELL" "SHELL" []).
  reflexivity.
Defined.

(** What [execute] does to the fields of the state, however it ends: the
    built-ins touch the directory, the environment and the mode, the record
    of the last command is overwritten, and the rest stays. *)
Lemma export_each_fields (P : Platform) (args : list string) (s : Sys P) :
  let s' := final (ShellExecutor.export_each P args s) in
  orchestrator_fields_kept s s' /\ mode (shell s') = mode (shell s).
Proof.
  revert s. induction args as [|arg rest IH]; intros s; cbv zeta.
  - repeat split.
  - cbn [ShellExecutor.export_each]. unfold bind at 1.
    destruct (Py.contains arg "=").
    + destruct (ShellExecutor.split_assignment arg) as [key value].
      unfold bind, modify.
      set (s1 := with_shell _ s).
      destruct (environ_set P (world s1) key value) as [[e|] w]; cbn [final].
      * repeat split.
      * specialize (IH (with_world w s1)). cbv zeta in IH.
        destruct IH as ((A1 & A2 & A3 & A4 & A5) & A6).
        unfold orchestrator_fields_kept.
        rewrite A1, A2, A3, A4, A5, A6. repeat split.
    + unfold ret. apply IH.
Qed.

Lemma call_builtin_fields (P : Platform) (name : string) (args : list string)
      (s : Sys P) :
  let s' := final (ShellExecutor.call_builtin P name args s) in
  orchestrator_fields_kept s s'
  /\ (mode (shell s') = mode (shell s)
      \/ Py.mem (mode (shell s')) valid_modes = true).
Proof.
  cbv zeta. unfold ShellExecutor.call_builtin.
  destruct (String.eqb name "cd").
  { unfold ShellExecutor._builtin_cd.
    destruct (isdir P (world s) _); [|split; [repeat split | now left]].
    destruct (chdir P _ _) as [[e|] w]; cbn [final];
      (split; [repeat split | now left]). }
  destruct (String.eqb name "export").
  { unfold ShellExecutor._builtin_export. destruct args as [|a args'].
    - split; [repeat split | now left].
    - unfold bind.
      pose proof (export_each_fields P (a :: args') s) as K. cbv zeta in K.
      destruct (ShellExecutor.export_each P (a :: args') s);
        cbn [final ret] in *; destruct K as [K1 K2];
        (split; [exact K1 | now left]). }
  destruct (String.eqb name "pwd"); [split; [repeat split | now left]|].
  destruct (String.eqb name "exit").
  { unfold ShellExecutor._builtin_exit. destruct args as [|a args'].
    - split; [repeat split | now left].
    - destruct (ShellExecutor.isdigit a); [|split; [repeat split | now left]].
      destruct (ShellExecutor.int a);
        (split; [repeat split | now left]). }
  unfold ShellExecutor._builtin_mode. destruct args as [|a args'].
  - split; [repeat split | now left].
  - destruct (Py.mem (Py.lower a) ["shell"; "nl"; "ai"]) eqn:E.
    + split; [repeat split | right; exact E].
    + split; [repeat split | now left].
Qed.

Lemma execute_fields (P : Platform) (text : string) (s : Sys P) :
  let s' := final (ShellExecutor.execute P text s) in
  orchestrator_fields_kept s s'
  /\ (mode (shell s') = mode (shell s)
      \/ Py.mem (mode (shell s')) valid_modes = true).
Proof.
  cbv zeta. unfold ShellExecutor.execute. cbv zeta.
  unfold bind at 1. unfold modify.
  destruct (negb (Py.truthy (Py.strip text)) || Py.startswith (Py.strip text) "#");
    [split; [repeat split | now left]|].
  destruct (Py.mem (Py.lower (Py.strip text)) _);
    [split; [repeat split | now left]|].
  assert (Hext : forall c,
             let s' := final (ShellExecutor.run_external P c
                                                         (log_execute text s)) in
             orchestrator_fields_kept s s'
             /\ (mode (shell s') = mode (shell s)
                 \/ Py.mem (mode (shell s')) valid_modes = true)).
  { intros c. cbv zeta. unfold ShellExecutor.run_external.
    destruct (subprocess_run P _ _) as [outcome w].
    split; [repeat split | now left]. }
  destruct (Shlex.split (Py.strip text)) as [[|name args]|msg];
    [apply Hext| |split; [repeat split | now left]].
  destruct (Py.mem name ShellExecutor.builtins); [|apply Hext].
  unfold bind.
  pose proof (call_builtin_fields P name args (log_execute text s)) as K.
  cbv zeta in K.
  destruct (ShellExecutor.call_builtin P name args _) as [r s1|e s1];
    cbn [final] in *; exact K.
Qed.

(** X11: [execute] never leaves the mode outside shell, nl and ai: from a
    state with a valid mode, every command, however it ends, leaves a valid
    mode. *)
Theorem execute_keeps_mode_valid (P : Platform) (text : string) (s : Sys P) :
  Py.mem (mode (shell s)) valid_modes = true ->
  Py.mem (mode (shell (final (ShellExecutor.execute P text s)))) valid_modes
  = true.
Proof.
  intros Hvalid.
  destruct (execute_fields P text s) as (_ & [E|E]); [now rewrite E | exact E].
Qed.

Lemma execute_keeps_mode_valid_witness :
  Py.mem (mode (shell (Headless.session []))) valid_modes = true
  /\ Py.mem (mode (shell (final (ShellExecutor.execute Headless.platform
                                   "mode verbose" (Headless.session [])))))
            valid_modes = true.
Proof.
  split; [reflexivity|].
  apply execute_keeps_mode_valid. reflexivity.
Defined.

(** *** exit *)

Lemma execute_exit_args (P : Platform) (text : string) (args : list string)
      (s : Sys P) :
  Shlex.split (Py.strip text) = Shlex.Tokens ("exit" :: args) ->
  ShellExecutor.execute P text s
  = ShellExecutor._builtin_exit P args (log_execute text s)
  /\ exists e, ShellExecutor._builtin_exit P args (log_execute text s)
               = Raise e (log_execute text s).
Proof.
  intros Hsplit.
  rewrite (execute_builtin P text "exit" args s Hsplit eq_refl).
  unfold bind at 1.
  change (ShellExecutor.call_builtin P "exit" args)
    with (ShellExecutor._builtin_exit P args).
  assert (Hr : exists e, ShellExecutor._builtin_exit P args (log_execute text s)
                         = Raise e (log_execute text s)).
  { unfold ShellExecutor._builtin_exit. destruct args as [|a args'].
    - now eexists.
    - destruct (ShellExecutor.isdigit a); [|now eexists].
      destruct (ShellExecutor.int a); now eexists. }
  split; [|exact Hr]. destruct Hr as (e & ->). reflexivity.
Qed.

(** X12: exit never returns a result: it raises past [execute], with
    SystemExit 0 when it has no argument or an argument that is not a
    number; nothing is recorded and the process primitive is not called. *)
Theorem exit_never_returns
        (P : Platform) (text : string) (args : list string) (s : Sys P) :
  Shlex.split (Py.strip text) = Shlex.Tokens ("exit" :: args) ->
  exists e s',
    ShellExecutor.execute P text s = Raise e s'
    /\ shell s' = shell s
    /\ world s' = world s
    /\ spawned s' = spawned s
    /\ (match args with
        | [] => True
        | a :: _ => ShellExecutor.isdigit a = false
        end -> e = SystemExit 0).
Proof.
  intros Hsplit.
  destruct (execute_exit_args P text args s Hsplit) as (-> & e & He).
  exists e, (log_execute text s). split; [exact He|]. repeat split.
  intros Hargs. revert He. unfold ShellExecutor._builtin_exit, raise.
  destruct args as [|a args']; [congruence|]. rewrite Hargs. congruence.
Qed.

Lemma exit_never_returns_witness :
  Shlex.split (Py.strip "exit now") = Shlex.Tokens ["exit"; "now"]
  /\ exists e s',
       ShellExecutor.execute Headless.platform "exit now" (Headless.session [])
       = Raise e s'
       /\ shell s' = shell (Headless.session [])
       /\ world s' = world (Headless.session [])
       /\ spawned s' = spawned (Headless.session [])
       /\ (ShellExecutor.isdigit "now" = false -> e = SystemExit 0).
Proof.
  split; [reflexivity|].
  apply (exit_never_returns Headless.platform "exit now" ["now"]).
  reflexivity.
Defined.

Lemma int_from_uint (d : Decimal.uint) (a : nat) :
  ShellExecutor.int_from (NilEmpty.string_of_uint d) (Z.of_nat a)
  = Some (Z.of_nat (Nat.of_uint_acc d a)).
Proof.
  revert a.
  induction d as [|d IH|d IH|d IH|d IH|d IH|d IH|d IH|d IH|d IH|d IH];
    intros a; [reflexivity|..];
    cbn [NilEmpty.string_of_uint ShellExecutor.int_from Nat.of_uint_acc];
    rewrite Nat.tail_mul_spec;
    cbv [nat_of_ascii N_of_ascii N_of_digits N.to_nat Pos.to_nat Pos.iter_op
         Nat.add N.add N.mul Pos.add Pos.mul Pos.succ];
    cbn [Nat.leb andb Nat.sub];
    rewrite <- IH; f_equal; lia.
Qed.

Lemma isdigit_uint (d : Decimal.uint) :
  ShellExecutor.isdigit_all (NilEmpty.string_of_uint d) = true.
Proof.
  induction d as [|d IH|d IH|d IH|d IH|d IH|d IH|d IH|d IH|d IH|d IH];
    [reflexivity|..];
    cbn [NilEmpty.string_of_uint ShellExecutor.isdigit_all];
    rewrite IH; reflexivity.
Qed.

Lemma leading_digits_uint (d : Decimal.uint) :
  ShellExecutor.leading_digits (NilEmpty.string_of_uint d)
  = String.length (NilEmpty.string_of_uint d).
Proof.
  induction d as [|d IH|d IH|d IH|d IH|d IH|d IH|d IH|d IH|d IH|d IH];
    [reflexivity|..];
    cbn [NilEmpty.string_of_uint ShellExecutor.leading_digits String.length];
    rewrite <- IH; reflexivity.
Qed.

Lemma decimal_is_number (n : nat) :
  ShellExecutor.isdigit (decimal n) = true
  /\ ShellExecutor.int_from (decimal n) 0 = Some (Z.of_nat n)
  /\ ShellExecutor.leading_digits (decimal n) = String.length (decimal n).
Proof.
  unfold decimal, NilZero.string_of_uint, ShellExecutor.isdigit.
  pose proof (Unsigned.of_to n) as Hn. unfold Nat.of_uint in Hn.
  destruct (Nat.to_uint n) as [|d|d|d|d|d|d|d|d|d|d] eqn:E;
    [cbn in Hn; subst n; repeat split; reflexivity|..];
    (split; [rewrite isdigit_uint; reflexivity|]);
    (split; [|apply leading_digits_uint]);
    change 0%Z with (Z.of_nat 0); rewrite int_from_uint, Hn; reflexivity.
Qed.

(** X13: exit followed by the decimal writing of a number ends the session
    with that number as the exit code, as long as the writing has no more
    digits than [int] accepts; beyond that limit the ValueError of [int]
    leaves [execute] instead. *)
Theorem exit_with_code
        (P : Platform) (text : string) (n : nat) (rest : list string)
        (s : Sys P) :
  Shlex.split (Py.strip text) = Shlex.Tokens ("exit" :: decimal n :: rest) ->
  exists s',
    ShellExecutor.execute P text s
    = Raise (if (ShellExecutor.int_max_str_digits
                 <? String.length (decimal n))%nat
             then ValueError
                    ("Exceeds the limit (4300 digits) for integer string conversion: value has "
                     ++ decimal (String.length (decimal n))
                     ++ " digits; use sys.set_int_max_str_digits() to increase the limit")
             else SystemExit (Z.of_nat n)) s'.
Proof.
  intros Hsplit.
  destruct (execute_exit_args P text _ s Hsplit) as (-> & _).
  destruct (decimal_is_number n) as (Hd & Hi & Hl).
  unfold ShellExecutor._builtin_exit, ShellExecutor.int.
  rewrite Hd, Hi, Hl.
  destruct (ShellExecutor.int_max_str_digits <? String.length (decimal n))%nat;
    now eexists.
Qed.

Lemma exit_with_code_witness :
  Shlex.split (Py.strip "exit 130") = Shlex.Tokens ("exit" :: decimal 130 :: [])
  /\ exists s',
       ShellExecutor.execute Headless.platform "exit 130" (Headless.session [])
       = Raise (if (ShellExecutor.int_max_str_digits
                    <? String.length (decimal 130))%nat
                then ValueError
                       ("Exceeds the limit (4300 digits) for integer string conversion: value has "
                        ++ decimal (String.length (decimal 130))
                        ++ " digits; use sys.set_int_max_str_digits() to increase the limit")
                else SystemExit (Z.of_nat 130)) s'.
Proof.
  split; [reflexivity|].
  apply (exit_with_code Headless.platform "exit 130" 130 []). reflexivity.
Defined.

Example exit_130 :
  ShellExecutor.execute Headless.platform "exit 130" (Headless.session [])
  = Raise (SystemExit 130) (log_execute "exit 130" (Headless.session [])).
Proof. reflexivity. Qed.

Example exit_superscript_two_is_an_error :
  ShellExecutor.execute Headless.platform ("exit " ++ String (ascii_of_nat 178) EmptyString)
    (Headless.session [])
  = Raise (ValueError ("invalid literal for int() with base 10: '"
                       ++ String (ascii_of_nat 178) EmptyString ++ "'"))
          (log_execute ("exit " ++ String (ascii_of_nat 178) EmptyString)
                       (Headless.session [])).
Proof. reflexivity. Qed.

(** *** The record of the last command and the process primitive *)

(** X14: whenever [execute] returns a result for a text that none of the
    three no-op guards stops, the record of the last command in the state is
    that result: its command text, both streams and the return code. *)
Theorem execute_records_result
        (P : Platform) (text : string) (s s' : Sys P) (r : CommandResult) :
  noop text = false ->
  ShellExecutor.execute P text s = Ok r s' ->
  last_command (shell s') = command r
  /\ last_stdout (shell s') = stdout r
  /\ last_stderr (shell s') = stderr r
  /\ last_returncode (shell s') = returncode r.
Proof.
  unfold noop. intros Hnoop.
  apply orb_false_elim in Hnoop. destruct Hnoop as [Hfirst Hinterp].
  unfold ShellExecutor.execute. cbv zeta. unfold bind at 1. unfold modify.
  rewrite Hfirst, Hinterp.
  assert (Hext : forall c,
             ShellExecutor.run_external P c (log_execute text s) = Ok r s' ->
             last_command (shell s') = command r
             /\ last_stdout (shell s') = stdout r
             /\ last_stderr (shell s') = stderr r
             /\ last_returncode (shell s') = returncode r).
  { intros c. unfold ShellExecutor.run_external.
    destruct (subprocess_run P _ _) as [outcome w].
    unfold bind, ShellExecutor._record_result, modify, ret.
    intros E. injection E as <- <-. repeat split. }
  destruct (Shlex.split (Py.strip text)) as [[|name args]|msg];
    [apply Hext| |discriminate].
  destruct (Py.mem name ShellExecutor.builtins); [|apply Hext].
  unfold bind.
  destruct (ShellExecutor.call_builtin P name args _) as [r1 s1|e s1];
    [|discriminate].
  unfold ShellExecutor._record_result, modify, ret.
  intros E. injection E as <- <-. repeat split.
Qed.

Lemma execute_records_result_witness :
  noop "cd /nonexistent-path-xyz" = false
  /\ ShellExecutor.execute Headless.platform "cd /nonexistent-path-xyz"
                           (Headless.session [])
     = Ok (mkResult 1 EmptyString
             ("cd: /nonexistent-path-xyz: No such directory" ++ newline)
             "cd /nonexistent-path-xyz")
          (with_shell
             (set_last
                (mkResult 1 EmptyString
                   ("cd: /nonexistent-path-xyz: No such directory" ++ newline)
                   "cd /nonexistent-path-xyz"))
             (log_execute "cd /nonexistent-path-xyz" (Headless.session [])))
  /\ last_returncode
       (shell (with_shell
                 (set_last
                    (mkResult 1 EmptyString
                       ("cd: /nonexistent-path-xyz: No such directory"
                        ++ newline)
                       "cd /nonexistent-path-xyz"))
                 (log_execute "cd /nonexistent-path-xyz"
                              (Headless.session [])))) = 1%Z.
Proof.
  assert (Hn : noop "cd /nonexistent-path-xyz" = false) by reflexivity.
  assert (He : ShellExecutor.execute Headless.platform
                 "cd /nonexistent-path-xyz" (Headless.session [])
               = Ok (mkResult 1 EmptyString
                       ("cd: /nonexistent-path-xyz: No such directory"
                        ++ newline)
                       "cd /nonexistent-path-xyz")
                    (with_shell
                       (set_last
                          (mkResult 1 EmptyString
                             ("cd: /nonexistent-path-xyz: No such directory"
                              ++ newline)
                             "cd /nonexistent-path-xyz"))
                       (log_execute "cd /nonexistent-path-xyz"
                                    (Headless.session []))))
    by (vm_compute; reflexivity).
  split; [exact Hn|]. split; [exact He|].
  exact (proj2 (proj2 (proj2
           (execute_records_result Headless.platform _ _ _ _ Hn He)))).
Defined.

(** X15: for a command that reaches the process primitive, the result is
    the primitive's outcome: the return code and the streams of a completed
    run as they are, code 124 for a timeout, and for any other failure code 1
    with the error text after Execution error: in stderr.  The command text
    of the result is the stripped text. *)
Theorem external_outcome_becomes_result
        (P : Platform) (text : string) (s : Sys P) :
  external text = true ->
  exists s',
    ShellExecutor.execute P text s
    = Ok (match fst (subprocess_run P (world s) (spawn_of text s)) with
          | Completed rc out err => mkResult rc out err (Py.strip text)
          | TimeoutExpired =>
              mkResult 124 EmptyString "Command timed out after 5 minutes"
                       (Py.strip text)
          | RunFailed msg =>
              mkResult 1 EmptyString ("Execution error: " ++ msg)
                       (Py.strip text)
          end) s'
    /\ world s' = snd (subprocess_run P (world s) (spawn_of text s))
    /\ cwd (shell s') = cwd (shell s)
    /\ env (shell s') = env (shell s).
Proof.
  intros Hext. rewrite (execute_external P text s Hext).
  unfold ShellExecutor.run_external. cbv zeta.
  change (mkSpawn (Py.strip text) (cwd (shell (log_execute text s)))
                  (env (shell (log_execute text s))) 300)
    with (spawn_of text s).
  change (world (log_execute text s)) with (world s).
  destruct (subprocess_run P (world s) (spawn_of text s)) as [outcome w].
  destruct outcome; (eexists; split; [reflexivity|]; repeat split).
Qed.

Lemma external_outcome_becomes_result_witness :
  external "make" = true
  /\ exists s',
       ShellExecutor.execute Desktop.platform "make" (Desktop.session [])
       = Ok (match fst (subprocess_run Desktop.platform
                          (world (Desktop.session []))
                          (spawn_of "make" (Desktop.session []))) with
             | Completed rc out err => mkResult rc out err (Py.strip "make")
             | TimeoutExpired =>
                 mkResult 124 EmptyString "Command timed out after 5 minutes"
                          (Py.strip "make")
             | RunFailed msg =>
                 mkResult 1 EmptyString ("Execution error: " ++ msg)
                          (Py.strip "make")
             end) s'
       /\ world s'
          = snd (subprocess_run Desktop.platform (world (Desktop.session []))
                                (spawn_of "make" (Desktop.session [])))
       /\ cwd (shell s') = cwd (shell (Desktop.session []))
       /\ env (shell s') = env (shell (Desktop.session [])).
Proof.
  split; [reflexivity|].
  apply external_outcome_becomes_result. reflexivity.
Defined.

(** One call of [execute] calls the process primitive at most once:
    exactly once, with the stripped text, the directory and the environment
    of the session and a timeout of 300 seconds, when the text passes the
    guards and is no built-in, and not at all otherwise, however the call
    ends. *)
Lemma execute_calls_primitive_at_most_once
        (P : Platform) (text : string) (s : Sys P) :
  spawned (final (ShellExecutor.execute P text s))
  = (spawned s
     ++ if external text
        then [mkSpawn (Py.strip text) (cwd (shell s)) (env (shell s)) 300]
        else [])%list.
Proof. exact (proj2 (proj2 (proj2 (proj2 (execute_effect P text s))))). Qed.

(** ** More on the context extractor *)

Lemma not_space_add (r : string) (c : ascii) :
  every not_space r = true -> Py.isspace c = false ->
  every not_space (r ++ String c EmptyString) = true.
Proof.
  intros Hr Hc. induction r as [|a r IH]; cbn [append every].
  - unfold not_space. now rewrite Hc.
  - cbn in Hr. apply andb_prop in Hr. destruct Hr as [Ha Hr].
    now rewrite Ha, IH.
Qed.

Lemma findall_refs_from_good (s : string) :
  forall cur,
    match cur with
    | Some r =>
        every not_space r = true
        /\ (Py.truthy r = true
            \/ exists d s', s = String d s' /\ Py.isspace d = false)
    | None => True
    end ->
    Forall (fun ref => Py.truthy ref = true /\ every not_space ref = true)
           (InputBuffer.findall_refs_from s cur).
Proof.
  induction s as [|c s IH]; intros cur Hcur.
  - destruct cur as [r|]; cbn; [|constructor].
    destruct Hcur as (Hr & [Ht|(d & s' & E & _)]); [|discriminate].
    constructor; [now split | constructor].
  - cbn [InputBuffer.findall_refs_from]. destruct cur as [r|].
    + destruct Hcur as (Hr & Hopen).
      destruct (Py.isspace c) eqn:Hc.
      * destruct Hopen as [Ht|(d & s' & E & Hd)].
        -- constructor; [now split | now apply IH].
        -- injection E as <- <-. congruence.
      * apply IH. split; [now apply not_space_add|].
        left. apply truthy_nonempty. now destruct r.
    + destruct (Ascii.eqb c "@"); [|now apply IH].
      destruct s as [|d s']; [constructor|].
      destruct (Py.isspace d) eqn:Hd; [now apply IH|].
      apply IH. split; [reflexivity|]. right. now exists d, s'.
Qed.

(** X17: every reference that [process_input] finds after an [@] is a
    non-empty run of characters none of which is white space. *)
Theorem file_references_are_words (text : string) :
  Forall (fun ref => Py.truthy ref = true /\ every not_space ref = true)
         (InputBuffer.findall_refs text).
Proof. now apply findall_refs_from_good. Qed.

Lemma findall_refs_without_at (s : string) :
  Py.contains s "@" = false -> InputBuffer.findall_refs_from s None = [].
Proof.
  induction s as [|c s IH]; [reflexivity|].
  rewrite contains_unfold. intros H. apply orb_false_elim in H.
  destruct H as [Hp Hc]. rewrite prefix_cons, prefix_empty, andb_true_r in Hp.
  cbn [InputBuffer.findall_refs_from]. rewrite Ascii.eqb_sym, Hp.
  now apply IH.
Qed.

(** X18: a text without [@] and without a clipboard marker comes back
    stripped and otherwise as it is, with no file listed; the context holds
    the content of standard input when that is a pipe with something in it,
    and nothing else. *)
Theorem plain_text_passes_through (P : Platform) (text : string) (s : Sys P) :
  Py.contains text "@" = false ->
  Py.contains text "{clipboard}" = false ->
  Py.contains text "{clip}" = false ->
  exists s',
    InputBuffer.process_input P text s
    = Ok (InputBuffer.mkProcessed
            (Py.strip text)
            (if stdin_isatty P (world s) then []
             else match fst (stdin_read P (world s)) with
                  | Some content =>
                      if Py.truthy content
                      then ["# Stdin:" ++ newline ++ content] else []
                  | None => []
                  end)
            []) s'
    /\ shell s' = shell s.
Proof.
  intros Hat Hclipboard Hclip.
  unfold InputBuffer.process_input, InputBuffer.findall_refs.
  rewrite (findall_refs_without_at text Hat), Hclipboard, Hclip.
  unfold InputBuffer.clean. cbn [fold_left orb].
  rewrite (replace_absent text "{clipboard}" EmptyString Hclipboard).
  rewrite (replace_absent text "{clip}" EmptyString Hclip).
  unfold bind, gets, ret, InputBuffer.read_stdin, InputBuffer.read_refs.
  cbn [fold_left fst snd].
  destruct (stdin_isatty P (world s)); cbn [negb].
  - eexists. split; [reflexivity|]. reflexivity.
  - destruct (stdin_read P (world s)) as [[content|] w]; cbn [fst];
      rewrite ?app_nil_r; eexists; (split; [reflexivity|]); reflexivity.
Qed.

Lemma plain_text_passes_through_witness :
  Py.contains "  list the files " "@" = false
  /\ Py.contains "  list the files " "{clipboard}" = false
  /\ Py.contains "  list the files " "{clip}" = false
  /\ exists s',
       InputBuffer.process_input Desktop.platform "  list the files "
                                 (Desktop.session [])
       = Ok (InputBuffer.mkProcessed
               (Py.strip "  list the files ")
               (if stdin_isatty Desktop.platform (world (Desktop.session []))
                then []
                else match fst (stdin_read Desktop.platform
                                           (world (Desktop.session []))) with
                     | Some content =>
                         if Py.truthy content
                         then ["# Stdin:" ++ newline ++ content] else []
                     | None => []
                     end)
               []) s'
       /\ shell s' = shell (Desktop.session []).
Proof.
  split; [reflexivity|]. split; [reflexivity|]. split; [reflexivity|].
  apply plain_text_passes_through; reflexivity.
Defined.

Lemma read_file_truthy (P : Platform) (path : string) (s : Sys P) :
  Py.truthy (InputBuffer._read_file P path s) = true.
Proof.
  unfold InputBuffer._read_file.
  destruct (negb (isfile P (world s) _)); [reflexivity|].
  destruct (read_text P (world s) _); [|reflexivity].
  destruct (relpath P (world s) _ _); reflexivity.
Qed.

Lemma read_ref_plain (P : Platform) (ref : string) (s : Sys P) :
  Py.contains ref "*" = false ->
  InputBuffer.read_ref P ref s = ([InputBuffer._read_file P ref s], [ref]).
Proof.
  intros Hr. unfold InputBuffer.read_ref.
  now rewrite Hr, read_file_truthy.
Qed.

Lemma read_refs_plain (P : Platform) (refs : list string) (s : Sys P) :
  forallb (fun ref => negb (Py.contains ref "*")) refs = true ->
  InputBuffer.read_refs P refs s
  = (map (fun ref => InputBuffer._read_file P ref s) refs, refs).
Proof.
  unfold InputBuffer.read_refs.
  assert (G : forall acc,
             forallb (fun ref => negb (Py.contains ref "*")) refs = true ->
             fold_left (fun acc ref =>
                          let (c, f) := InputBuffer.read_ref P ref s in
                          ((fst acc ++ c)%list, (snd acc ++ f)%list))
                       refs acc
             = ((fst acc ++ map (fun ref => InputBuffer._read_file P ref s) refs)%list,
                (snd acc ++ refs)%list)).
  { induction refs as [|ref refs IH]; intros acc Hall.
    - cbn. rewrite !app_nil_r. now destruct acc.
    - cbn [forallb] in Hall. apply andb_prop in Hall.
      destruct Hall as [Hr Hall]. apply negb_true_iff in Hr.
      cbn [fold_left]. rewrite (read_ref_plain P ref s Hr), (IH _ Hall).
      cbn [fst snd map]. now rewrite <- !app_assoc. }
  intros Hall. now rewrite (G ([], []) Hall).
Qed.

(** X19: when no reference holds a [*], every reference is listed in
    files, in the order of the text, whether its file exists or not, and the
    context holds, after the blobs of standard input and before that of the
    clipboard, one blob for each reference in that order: what [_read_file]
    gives for it in the state that reading standard input left. *)
Theorem references_are_listed_found_or_not
        (P : Platform) (text : string) (s : Sys P) (r : InputBuffer.Processed)
        (s' : Sys P) :
  forallb (fun ref => negb (Py.contains ref "*")) (InputBuffer.findall_refs text)
  = true ->
  InputBuffer.process_input P text s = Ok r s' ->
  exists stdin_blobs s1,
    InputBuffer.read_stdin P s = Ok stdin_blobs s1
    /\ InputBuffer.files r = InputBuffer.findall_refs text
    /\ InputBuffer.context r
       = (stdin_blobs
          ++ map (fun ref => InputBuffer._read_file P ref s1)
                 (InputBuffer.findall_refs text)
          ++ clipboard_blobs P text s1)%list.
Proof.
  intros Hall Hp.
  destruct (read_stdin_returns P s) as (blobs & s1 & Hread & Hsh).
  exists blobs, s1. split; [exact Hread|].
  revert Hp. unfold InputBuffer.process_input. unfold bind at 1.
  rewrite Hread. unfold bind at 1. unfold gets.
  rewrite (read_refs_plain P _ s1 Hall). unfold bind, ret, clipboard_blobs.
  destruct (Py.contains text "{clipboard}" || Py.contains text "{clip}").
  - destruct (InputBuffer._get_clipboard P s1) as [clip s2|e s2];
      [|discriminate].
    intros E. injection E as <- <-. split; reflexivity.
  - intros E. injection E as <- <-. split; reflexivity.
Qed.

Lemma references_are_listed_found_or_not_witness :
  forallb (fun ref => negb (Py.contains ref "*"))
          (InputBuffer.findall_refs "compare @build.py with @missing.txt")
  = true
  /\ InputBuffer.process_input Headless.platform
       "compare @build.py with @missing.txt" (Headless.session [])
     = Ok (InputBuffer.mkProcessed
             "compare  with"
             ["# File: build.py" ++ newline ++ newline;
              "# Error: File not found: /home/user/missing.txt" ++ newline]
             ["build.py"; "missing.txt"])
          (Headless.session [])
  /\ exists stdin_blobs s1,
       InputBuffer.read_stdin Headless.platform (Headless.session [])
       = Ok stdin_blobs s1
       /\ InputBuffer.files
            (InputBuffer.mkProcessed
               "compare  with"
               ["# File: build.py" ++ newline ++ newline;
                "# Error: File not found: /home/user/missing.txt" ++ newline]
               ["build.py"; "missing.txt"])
          = InputBuffer.findall_refs "compare @build.py with @missing.txt"
       /\ InputBuffer.context
            (InputBuffer.mkProcessed
               "compare  with"
               ["# File: build.py" ++ newline ++ newline;
                "# Error: File not found: /home/user/missing.txt" ++ newline]
               ["build.py"; "missing.txt"])
          = (stdin_blobs
             ++ map (fun ref => InputBuffer._read_file Headless.platform ref s1)
                    (InputBuffer.findall_refs
                       "compare @build.py with @missing.txt")
             ++ clipboard_blobs Headless.platform
                  "compare @build.py with @missing.txt" s1)%list.
Proof.
  assert (Ha : forallb (fun ref => negb (Py.contains ref "*"))
                 (InputBuffer.findall_refs
                    "compare @build.py with @missing.txt") = true)
    by reflexivity.
  assert (Hp : InputBuffer.process_input Headless.platform
                 "compare @build.py with @missing.txt" (Headless.session [])
               = Ok (InputBuffer.mkProcessed
                       "compare  with"
                       ["# File: build.py" ++ newline ++ newline;
                        "# Error: File not found: /home/user/missing.txt"
                        ++ newline]
                       ["build.py"; "missing.txt"])
                    (Headless.session []))
    by (vm_compute; reflexivity).
  split; [exact Ha|]. split; [exact Hp|].
  exact (references_are_listed_found_or_not
           Headless.platform _ _ _ _ Ha Hp).
Defined.

(** X20: when pyperclip is not installed, [_get_clipboard] never raises
    and changes nothing, and it returns what the clipboard utility of the
    platform gives: the output of pbpaste on darwin, of xclip on linux, the
    clipboard data on win32, and the empty string when the utility fails or
    the platform is none of the three. *)
Theorem clipboard_fallback_never_raises (P : Platform) (s : Sys P) :
  pyperclip_paste P (world s) = NotInstalled ->
  exists data,
    InputBuffer._get_clipboard P s = Ok data s
    /\ (sys_platform P = "darwin" ->
        data = match check_output P (world s) ["pbpaste"] with
               | Some text => text
               | None => EmptyString
               end)
    /\ (sys_platform P = "linux" ->
        data = match check_output P (world s)
                       ["xclip"; "-selection"; "clipboard"; "-o"] with
               | Some text => text
               | None => EmptyString
               end)
    /\ (sys_platform P = "win32" ->
        data = match win32_clipboard P (world s) with
               | Some text => text
               | None => EmptyString
               end)
    /\ (Py.mem (sys_platform P) ["darwin"; "linux"; "win32"] = false ->
        data = EmptyString).
Proof.
  intros Hpaste. unfold InputBuffer._get_clipboard. rewrite Hpaste.
  destruct (String.eqb (sys_platform P) "darwin") eqn:Ed.
  { apply String.eqb_eq in Ed. rewrite Ed.
    destruct (check_output P (world s) ["pbpaste"]);
      eexists; (split; [reflexivity|]);
      repeat split; intros Hx; solve [reflexivity | discriminate Hx]. }
  destruct (String.eqb (sys_platform P) "linux") eqn:El.
  { apply String.eqb_eq in El. rewrite El.
    destruct (check_output P (world s) ["xclip"; _; _; _]);
      eexists; (split; [reflexivity|]);
      repeat split; intros Hx; solve [reflexivity | discriminate Hx]. }
  destruct (String.eqb (sys_platform P) "win32") eqn:Ew.
  { apply String.eqb_eq in Ew. rewrite Ew.
    destruct (win32_clipboard P (world s));
      eexists; (split; [reflexivity|]);
      repeat split; intros Hx; solve [reflexivity | discriminate Hx]. }
  exists EmptyString. split; [reflexivity|].
  apply String.eqb_neq in Ed, El, Ew.
  repeat split; intros Hx; solve [reflexivity | contradiction].
Qed.

Lemma clipboard_fallback_never_raises_witness :
  pyperclip_paste Desktop.platform (world (Desktop.session [])) = NotInstalled
  /\ exists data,
       InputBuffer._get_clipboard Desktop.platform (Desktop.session [])
       = Ok data (Desktop.session [])
       /\ (sys_platform Desktop.platform = "darwin" ->
           data = match check_output Desktop.platform
                          (world (Desktop.session [])) ["pbpaste"] with
                  | Some text => text
                  | None => EmptyString
                  end)
       /\ (sys_platform Desktop.platform = "linux" ->
           data = match check_output Desktop.platform
                          (world (Desktop.session []))
                          ["xclip"; "-selection"; "clipboard"; "-o"] with
                  | Some text => text
                  | None => EmptyString
                  end)
       /\ (sys_platform Desktop.platform = "win32" ->
           data = match win32_clipboard Desktop.platform
                          (world (Desktop.session [])) with
                  | Some text => text
                  | None => EmptyString
                  end)
       /\ (Py.mem (sys_platform Desktop.platform) ["darwin"; "linux"; "win32"]
           = false -> data = EmptyString).
Proof.
  split; [reflexivity|].
  apply clipboard_fallback_never_raises. reflexivity.
Defined.

Example clipboard_fallback_reads_xclip :
  InputBuffer._get_clipboard Desktop.platform (Desktop.session [])
  = Ok "copied text" (Desktop.session []).
Proof. reflexivity. Qed.

(** ** More on the translator *)

(** X21: what [_clean_output] returns has no white space around it:
    stripping it again changes nothing. *)
Theorem clean_output_is_stripped (text : string) :
  Py.strip (NLTranslator._clean_output text) = NLTranslator._clean_output text.
Proof. unfold NLTranslator._clean_output. cbv zeta. apply strip_idem. Qed.

Lemma last_items_length {A : Type} (n : nat) (l : list A) :
  List.length (Py2.last_items n l) = Nat.min n (List.length l).
Proof. unfold Py2.last_items. rewrite length_skipn. lia. Qed.

Lemma last_items_nested {A : Type} (n m : nat) (l : list A) :
  n <= m -> Py2.last_items n (Py2.last_items m l) = Py2.last_items n l.
Proof.
  intros Hnm. unfold Py2.last_items. rewrite length_skipn, skipn_skipn.
  f_equal. lia.
Qed.

Lemma last_items_nil {A : Type} (n : nat) (l : list A) :
  0 < n -> Py2.last_items n l = [] -> l = [].
Proof.
  intros Hn H. apply (f_equal (@List.length A)) in H.
  rewrite last_items_length in H. cbn in H.
  destruct l; [reflexivity|]. cbn in H. lia.
Qed.

(** X22: of the history, the prompt of a translation shows the last three
    inputs, in order, and no more: after the fixed text and the line of the
    current directory it holds, when the history is not empty, the header
    Recent commands and then the last three entries of the history (all of
    them when there are fewer), one on a line. *)
Theorem prompt_shows_last_three_inputs
        (P : Platform) (H : Translation.Host P)
        (nl_request : string) (file_context : list string) (s : Sys P) :
  let c := Loop.nl_context P H file_context s in
  let shown := Py2.last_items 3 (history (shell s)) in
  Translation.build_prompt nl_request (Some c)
  = Translation.TRANSLATION_PROMPT
    ++ (if Py.truthy (cwd (shell s))
        then newline ++ newline ++ "Current directory: " ++ cwd (shell s)
        else EmptyString)
    ++ (match history (shell s) with
        | [] => EmptyString
        | _ => newline ++ newline ++ "Recent commands:" ++ newline
               ++ Py.join newline shown
        end)
    ++ Translation.environment_block c
    ++ Translation.previous_block c
    ++ Translation.files_block c
    ++ newline ++ newline ++ "User request: " ++ nl_request
  /\ (exists earlier, history (shell s) = (earlier ++ shown)%list)
  /\ List.length shown = Nat.min 3 (List.length (history (shell s))).
Proof.
  cbv zeta. split; [|split].
  - unfold Translation.build_prompt, Translation.context_block.
    rewrite !append_assoc. f_equal.
    unfold Loop.nl_context at 1 2 3.
    cbn [Translation.recent_commands Translation.ctx_cwd].
    f_equal. f_equal.
    destruct (Py2.last_items 5 (history (shell s))) as [|a l] eqn:E5.
    + apply last_items_nil in E5; [|lia]. now rewrite E5.
    + rewrite <- E5, (last_items_nested 3 5) by lia.
      destruct (history (shell s)) as [|b l'] eqn:Eh; [discriminate E5|].
      reflexivity.
  - exists (firstn (List.length (history (shell s)) - 3) (history (shell s))).
    unfold Py2.last_items. symmetry. apply firstn_skipn.
  - apply last_items_length.
Qed.

Lemma substring_all (s : string) (m : nat) :
  String.length s <= m -> substring 0 m s = s.
Proof.
  intros Hm. replace m with (String.length s + (m - String.length s)) by lia.
  exact (substring_skip EmptyString s _).
Qed.

Lemma substring_is_suffix (n m : nat) (s : string) :
  n <= String.length s -> String.length s <= n + m ->
  exists pre, String.length pre = n /\ s = pre ++ substring n m s.
Proof.
  revert s. induction n as [|n IH]; intros s Hn Hm.
  - exists EmptyString. split; [reflexivity|]. cbn [append].
    now rewrite substring_all.
  - destruct s as [|c s]; [cbn in Hn; lia|]. cbn in Hn, Hm.
    destruct (IH s) as (pre & Hl & E); [lia | lia |].
    exists (String c pre). cbn [String.length append substring].
    split; [now rewrite Hl | now rewrite <- E].
Qed.

(** X23: the output of the previous command enters the translation context
    cut to its last 2000 characters: what the context holds is the end of
    the recorded stdout (and stderr) that is 2000 characters long, or the
    whole of it when it is shorter. *)
Theorem context_output_is_bounded
        (P : Platform) (H : Translation.Host P)
        (file_context : list string) (s : Sys P) :
  let c := Loop.nl_context P H file_context s in
  (exists pre, last_stdout (shell s) = pre ++ Translation.ctx_last_stdout c)
  /\ String.length (Translation.ctx_last_stdout c)
     = Nat.min 2000 (String.length (last_stdout (shell s)))
  /\ (exists pre, last_stderr (shell s) = pre ++ Translation.ctx_last_stderr c)
  /\ String.length (Translation.ctx_last_stderr c)
     = Nat.min 2000 (String.length (last_stderr (shell s))).
Proof.
  cbv zeta. unfold Loop.nl_context.
  cbn [Translation.ctx_last_stdout Translation.ctx_last_stderr].
  assert (G : forall t,
             (exists pre, t = pre ++ Py2.last_chars 2000 t)
             /\ String.length (Py2.last_chars 2000 t)
                = Nat.min 2000 (String.length t)).
  { intros t. unfold Py2.last_chars.
    destruct (substring_is_suffix (String.length t - 2000) 2000 t)
      as (pre & Hl & E); [lia | lia |].
    split; [now exists pre|].
    apply (f_equal String.length) in E. rewrite length_append, Hl in E. lia. }
  destruct (G (last_stdout (shell s))) as (A1 & A2).
  destruct (G (last_stderr (shell s))) as (B1 & B2).
  repeat split; assumption.
Qed.

(** ** More on the pending-command handlers *)

(** X24: the lines that a translation puts on the queue are non-empty, have
    no white space around them and are no comments. *)
Theorem actionable_lines_are_commands (translated : string) :
  Forall (fun c => Py.truthy c = true
                   /\ Py.strip c = c
                   /\ Py.startswith c "#" = false)
         (actionable translated).
Proof.
  unfold actionable. apply Forall_forall. intros c Hin.
  apply in_map_iff in Hin. destruct Hin as (line & <- & Hin).
  apply filter_In in Hin. destruct Hin as (_ & Hf).
  apply andb_prop in Hf. destruct Hf as [Ht Hc].
  apply negb_true_iff in Hc. split; [exact Ht|].
  split; [apply strip_idem | exact Hc].
Qed.

Section MoreHandlers.

Variable P : Platform.

(** One turn of the loop of [_execute_translated_commands]. *)
Lemma triage_cons (c : string) (q : list string) (s : Sys P) :
  triage P (c :: q) s
  = if _should_autorun P c s then
      match run_one P c s with
      | Ok _ s' => triage P q s'
      | Raise e s' => Raise e s'
      end
    else if negb (Py.truthy (prompt_prefill (shell s))) then
      Ok tt (show (Notice "Press Enter to run or edit the prepared command.")
               (show (AgentCommand true c)
                  (with_shell (set_prompt_prefill c) s)))
    else Ok tt s.
Proof.
  cbn [triage]. unfold bind, gets, modify, _print_agent_command, ret.
  destruct (_should_autorun P c s); [reflexivity|].
  destruct (negb (Py.truthy (prompt_prefill (shell s)))); reflexivity.
Qed.

(** The loop of [_execute_translated_commands] neither loses nor repeats a
    command: what it has executed, followed by what is left on the queue, is
    the queue it started from, and it has executed only commands that the
    autorun predicate accepted. *)
Lemma triage_exact (q : list string) (s : Sys P) :
  pending_commands (shell s) = q ->
  exists done s_end,
    autoran done s s_end
    /\ match triage P q s with
       | Ok _ s' =>
           q = (done ++ pending_commands (shell s'))%list
           /\ executed s' = (executed s ++ done)%list
           /\ match pending_commands (shell s') with
              | [] => True
              | c :: _ => _should_autorun P c s_end = false
              end
       | Raise e s' =>
           exists c rest,
             q = (done ++ c :: rest)%list
             /\ _should_autorun P c s_end = true
             /\ ShellExecutor.execute P c (show (AgentCommand false c) s_end)
                = Raise e s'
             /\ executed s' = (executed s ++ done ++ [c])%list
             /\ pending_commands (shell s') = c :: rest
       end.
Proof.
  revert s. induction q as [|c q IH]; intros s Hq.
  - exists [], s. split; [reflexivity|]. cbn. rewrite app_nil_r, Hq.
    repeat split.
  - rewrite triage_cons.
    destruct (_should_autorun P c s) eqn:Hauto.
    + pose proof (run_one_effect P c q s Hq) as (Hcase & _ & He & _).
      destruct (ShellExecutor.execute P c (show (AgentCommand false c) s))
        as [r s1|e s1] eqn:Hexec;
        destruct (run_one P c s) as [[] s'|e' s'] eqn:Hone;
        try contradiction; cbn [final] in *.
      * destruct Hcase as (Hq' & _).
        destruct (IH s' Hq') as (done & s_end & IHr & IHm).
        exists (c :: done), s_end.
        split; [split; [exact Hauto|]; exists s'; split;
                [exact Hone | exact IHr]|].
        destruct (triage P q s') as [[] s''|e'' s''].
        -- destruct IHm as (IHq & IHe & IHf).
           split; [cbn [app]; f_equal; exact IHq|].
           split; [|exact IHf].
           rewrite IHe, He, <- app_assoc. reflexivity.
        -- destruct IHm as (c' & rest & IHq & IHa & IHx & IHe & IHp).
           exists c', rest.
           split; [cbn [app]; f_equal; exact IHq|].
           split; [exact IHa|]. split; [exact IHx|]. split; [|exact IHp].
           rewrite IHe, He, <- app_assoc. reflexivity.
      * destruct Hcase as (_ & Hq').
        exists [], s. split; [reflexivity|].
        exists c, q.
        split; [reflexivity|]. split; [exact Hauto|].
        split; [exact (run_one_raise P c q s s' e' Hq Hone)|].
        split; [exact He | exact Hq'].
    + exists [], s. split; [reflexivity|].
      destruct (negb (Py.truthy (prompt_prefill (shell s))));
        cbn [app show with_shell shell executed pending_commands
             set_prompt_prefill];
        rewrite app_nil_r, Hq; repeat split; exact Hauto.
Qed.

End MoreHandlers.

(** X25: [_execute_translated_commands] neither loses nor repeats a
    command and never executes one that the autorun predicate refuses.  The
    commands it dequeues were run in order from the front, each accepted by
    the predicate in the state in which its turn came and each execution
    returning; they, followed by what is left on the queue, are the queue it
    started from.  It stops at the first command that the predicate refuses
    in the state then reached, without executing it, or at the first
    accepted command whose execution raises, which stays queued. *)
Theorem triage_conserves_queue (P : Platform) (s : Sys P) :
  exists done s_end,
    autoran done s s_end
    /\ match _execute_translated_commands P s with
       | Ok _ s' =>
           pending_commands (shell s)
           = (done ++ pending_commands (shell s'))%list
           /\ executed s' = (executed s ++ done)%list
           /\ match pending_commands (shell s') with
              | [] => True
              | c :: _ => _should_autorun P c s_end = false
              end
       | Raise e s' =>
           exists c rest,
             pending_commands (shell s) = (done ++ c :: rest)%list
             /\ _should_autorun P c s_end = true
             /\ ShellExecutor.execute P c (show (AgentCommand false c) s_end)
                = Raise e s'
             /\ executed s' = (executed s ++ done ++ [c])%list
             /\ pending_commands (shell s') = c :: rest
       end.
Proof.
  unfold _execute_translated_commands. unfold bind, gets.
  exact (triage_exact P (pending_commands (shell s)) s eq_refl).
Qed.

(** ** The loop *)

Section LoopLemmas.

Variable P : Platform.
Variable H : Translation.Host P.

Lemma display_translation_returns (translated : string) (s : Sys P) :
  exists s',
    Loop._display_translation P translated s = Ok tt s'
    /\ shell s' = shell s /\ world s' = world s
    /\ executed s' = executed s /\ spawned s' = spawned s.
Proof.
  unfold Loop._display_translation, modify.
  eexists. split; [reflexivity|].
  generalize (Py.split_on translated newline). intros lines. revert s.
  induction lines as [|line lines IH]; intros s; [repeat split|].
  cbn [fold_left].
  destruct (Py.truthy (Py.strip line) && Py.startswith (Py.strip line) "#").
  - destruct (IH (show (Notice (line ++ newline)) s)) as (A & B & C & D).
    repeat split; assumption.
  - apply IH.
Qed.

(** [process_input] touches neither the shell state nor the logs, and what
    it raises is an Exception. *)
Lemma process_input_frame (text : string) (s : Sys P) :
  shell (final (InputBuffer.process_input P text s)) = shell s
  /\ executed (final (InputBuffer.process_input P text s)) = executed s
  /\ match InputBuffer.process_input P text s with
     | Ok _ _ => True
     | Raise e _ => Py2.is_exception e = true
     end.
Proof.
  unfold InputBuffer.process_input, bind, gets, ret.
  destruct (read_stdin_returns P s) as (blobs & s1 & Hread & Hsh).
  assert (He : executed s1 = executed s).
  { revert Hread. unfold InputBuffer.read_stdin.
    destruct (negb (stdin_isatty P (world s)));
      [destruct (stdin_read P (world s)) as [[c|] w]|];
      intros E; injection E as _ <-; reflexivity. }
  rewrite Hread.
  destruct (Py.contains text "{clipboard}" || Py.contains text "{clip}");
    [|cbv beta iota; cbn [final]; repeat split; assumption].
  unfold InputBuffer._get_clipboard.
  destruct (pyperclip_paste P (world s1)).
  - destruct (if String.eqb (sys_platform P) "darwin" then _ else _);
      cbv beta iota; cbn [final]; repeat split; assumption.
  - cbv beta iota. cbn [final]. repeat split; assumption.
  - cbv beta iota. cbn [final]. repeat split; assumption.
Qed.

Lemma run_one_history (c : string) (s : Sys P) :
  history (shell (final (run_one P c s))) = history (shell s).
Proof.
  unfold run_one, bind, _print_agent_command, modify, remove_pending.
  pose proof (execute_fields P c (show (AgentCommand false c) s))
    as ((Hh & _) & _).
  destruct (ShellExecutor.execute P c (show (AgentCommand false c) s))
    as [r s1|e s1]; cbn [final] in *; [|exact Hh].
  destruct (print_result_returns P r s1) as (s2 & Hprint & Hsh & _).
  rewrite Hprint.
  cbn [shell with_shell pending_commands set_last_exit_code].
  destruct (remove_first c (pending_commands (shell s2)));
    cbn [final shell with_shell history set_pending_commands
         set_last_exit_code]; now rewrite Hsh.
Qed.

Lemma run_all_frame (q : list string) (s : Sys P) :
  pending_commands (shell s) = q ->
  history (shell (final (run_all P q s))) = history (shell s)
  /\ prompt_prefill (shell (final (run_all P q s))) = prompt_prefill (shell s).
Proof.
  revert s. induction q as [|c q IH]; intros s Hq; [now split|].
  cbn [run_all]. unfold bind.
  pose proof (run_one_effect P c q s Hq) as (Hcase & Hp & _ & _).
  pose proof (run_one_history c s) as Hh.
  destruct (ShellExecutor.execute P c (show (AgentCommand false c) s))
    as [r s1|e s1];
    destruct (run_one P c s) as [[] s'|e' s']; try contradiction;
    cbn [final] in *.
  - destruct Hcase as (Hq' & _). destruct (IH s' Hq') as (A & B).
    split; congruence.
  - now split.
Qed.

Lemma triage_history (q : list string) (s : Sys P) :
  pending_commands (shell s) = q ->
  history (shell (final (triage P q s))) = history (shell s).
Proof.
  revert s. induction q as [|c q IH]; intros s Hq; [reflexivity|].
  rewrite triage_cons.
  destruct (_should_autorun P c s).
  - pose proof (run_one_effect P c q s Hq) as (Hcase & _ & _ & _).
    pose proof (run_one_history c s) as Hh.
    destruct (ShellExecutor.execute P c (show (AgentCommand false c) s))
      as [r s1|e s1];
      destruct (run_one P c s) as [[] s'|e' s']; try contradiction;
      cbn [final] in *; [|exact Hh].
    destruct Hcase as (Hq' & _). rewrite (IH s' Hq'). exact Hh.
  - destruct (negb (Py.truthy (prompt_prefill (shell s)))); reflexivity.
Qed.

(** The loop of [_execute_translated_commands], entered with nothing
    staged, ends with the staging invariant, and raises only what an
    execution raised. *)
Lemma triage_staged (q : list string) (s : Sys P) :
  pending_commands (shell s) = q ->
  prompt_prefill (shell s) = EmptyString ->
  staged_front (final (triage P q s))
  /\ match triage P q s with
     | Ok _ _ => True
     | Raise e _ => exists c sc sc', ShellExecutor.execute P c sc = Raise e sc'
     end.
Proof.
  intros Hq Hp. pose proof (triage_outcome P q s Hq Hp) as Ho.
  unfold staged_front.
  destruct (triage P q s) as [[] s'|e s']; cbn [final].
  - split; [|exact I].
    destruct Ho as [(_ & Hp')|(c & rest & Hq' & Hp')]; [now left|].
    right. exists rest. now rewrite Hp'.
  - destruct Ho as (Hp' & c & rest & _ & Hraise).
    split; [now left|]. now exists c.
Qed.

Lemma run_all_raise_origin (q : list string) (s : Sys P) :
  pending_commands (shell s) = q ->
  match run_all P q s with
  | Ok _ _ => True
  | Raise e _ => exists c sc sc', ShellExecutor.execute P c sc = Raise e sc'
  end.
Proof.
  intros Hq. pose proof (run_all_effect P q s Hq) as Ho.
  destruct (run_all P q s) as [[] s'|e s']; [exact I|].
  destruct Ho as (done & c & rest & _ & _ & _ & Hraise). now exists c.
Qed.

(** [_handle_shortcut], entered with nothing staged, leaves nothing
    staged and the history as it is, and raises only what an execution
    raised. *)
Lemma handle_shortcut_frame (request : string) (s : Sys P) :
  prompt_prefill (shell s) = EmptyString ->
  prompt_prefill (shell (final (_handle_shortcut P request s))) = EmptyString
  /\ history (shell (final (_handle_shortcut P request s))) = history (shell s)
  /\ match _handle_shortcut P request s with
     | Ok _ _ => True
     | Raise e _ => exists c sc sc', ShellExecutor.execute P c sc = Raise e sc'
     end.
Proof.
  intros Hp. unfold _handle_shortcut. cbv zeta.
  destruct (Py.mem (Py.lower (Py.strip request)) rerun_phrases);
    [|now repeat split].
  unfold _run_pending_commands, bind, gets, modify.
  destruct (pending_commands (shell s)) as [|c q] eqn:Hq;
    [now repeat split|].
  set (s0 := with_shell (set_prompt_prefill EmptyString) s).
  assert (Hq0 : pending_commands (shell s0) = c :: q) by exact Hq.
  pose proof (run_all_frame (c :: q) s0 Hq0) as (Hh & Hpre).
  pose proof (run_all_raise_origin (c :: q) s0 Hq0) as Hr.
  destruct (run_all P (c :: q) s0) as [[] s'|e s']; cbn [final ret] in *;
    repeat split; assumption.
Qed.

End LoopLemmas.

Section LoopHandlers.

Variable P : Platform.
Variable H : Translation.Host P.

(** [_handle_nl_translation], by the answer of the model. *)
Lemma handle_nl_translation_cases
      (nl_request : string) (file_context : list string) (s : Sys P) :
  Loop._handle_nl_translation P H nl_request file_context s
  = match Translation.call_llm_api H (world s)
            (Translation.build_prompt nl_request
               (Some (Loop.nl_context P H file_context s)))
            Translation.system_prompt with
    | (Translation.LlmFailed msg, w) =>
        Ok tt (show (ShowStderr ("Translation error: " ++ msg ++ newline))
                    (with_world w s))
    | (Translation.Responded content, w) =>
        let translated := translation_of content in
        match triage P (actionable translated)
                (with_shell (set_pending_commands (actionable translated))
                   (final (Loop._display_translation P translated
                                                     (with_world w s)))) with
        | Ok _ s' => Ok tt s'
        | Raise e s' =>
            if Py2.is_exception e
            then Ok tt (show (ShowStderr ("Translation error: "
                                          ++ Py2.str_exn e ++ newline)) s')
            else Raise e s'
        end
    end.
Proof.
  unfold Loop._handle_nl_translation, Loop.try_except, bind, gets.
  unfold Translation.translate, translation_of.
  destruct (Translation.call_llm_api H (world s) _ _) as [[content|msg] w].
  - cbv zeta. unfold Loop._display_translation at 1, modify at 1 2.
    unfold _execute_translated_commands, bind, gets.
    cbn [shell with_shell pending_commands set_pending_commands].
    unfold Loop._display_translation, modify. cbn [final].
    destruct (triage P _ _) as [[] s'|e s']; reflexivity.
  - cbn [Py2.is_exception Py2.str_exn]. reflexivity.
Qed.

(** The translation handler leaves at most the front of the queue staged,
    keeps the history, and lets only an exception of [execute] escape. *)
Lemma handle_nl_translation_frame
      (nl_request : string) (file_context : list string) (s : Sys P) :
  prompt_prefill (shell s) = EmptyString ->
  staged_front
    (final (Loop._handle_nl_translation P H nl_request file_context s))
  /\ history (shell (final (Loop._handle_nl_translation P H nl_request
                                                         file_context s)))
     = history (shell s)
  /\ match Loop._handle_nl_translation P H nl_request file_context s with
     | Ok _ _ => True
     | Raise e _ => Py2.is_exception e = false /\ raised_by_execute P e
     end.
Proof.
  intros Hp. rewrite handle_nl_translation_cases.
  destruct (Translation.call_llm_api H (world s) _ _) as [[content|msg] w].
  - cbv zeta.
    destruct (display_translation_returns P (translation_of content)
                                          (with_world w s))
      as (sd & Hd & Hsh & _).
    rewrite Hd. cbn [final].
    set (q := actionable (translation_of content)).
    set (s2 := with_shell (set_pending_commands q) sd).
    assert (Hq : pending_commands (shell s2) = q) by reflexivity.
    assert (Hp2 : prompt_prefill (shell s2) = EmptyString).
    { change (prompt_prefill (shell sd) = EmptyString). now rewrite Hsh. }
    assert (Hh2 : history (shell s2) = history (shell s)).
    { change (history (shell sd) = history (shell s)). now rewrite Hsh. }
    pose proof (triage_staged P q s2 Hq Hp2) as (Hst & Hr).
    pose proof (triage_history P q s2 Hq) as Hh.
    destruct (triage P q s2) as [[] s'|e s']; cbn [final] in *.
    + repeat split; [exact Hst | exact (eq_trans Hh Hh2)].
    + destruct (Py2.is_exception e) eqn:He; cbn [final].
      * repeat split; [exact Hst | exact (eq_trans Hh Hh2)].
      * split; [exact Hst|]. split; [exact (eq_trans Hh Hh2)|].
        split; [exact He | exact Hr].
  - cbn [final]. repeat split. left. exact Hp.
Qed.

(** The SHELL_COMMAND branch likewise. *)
Lemma handle_shell_command_frame (command : string) (s : Sys P) :
  prompt_prefill (shell s) = EmptyString ->
  staged_front (final (Loop.handle_shell_command P command s))
  /\ history (shell (final (Loop.handle_shell_command P command s)))
     = history (shell s)
  /\ match Loop.handle_shell_command P command s with
     | Ok _ _ => True
     | Raise e _ => raised_by_execute P e
     end.
Proof.
  intros Hp. unfold Loop.handle_shell_command, bind.
  pose proof (execute_effect P command s) as (_ & Hpre & _).
  pose proof (execute_fields P command s) as ((Hh & _) & _).
  cbv zeta in Hpre, Hh.
  destruct (ShellExecutor.execute P command s) as [r s1|e s1] eqn:He;
    cbn [final] in *.
  2:{ repeat split; [left; congruence | exact Hh |].
      exists command, s, s1. exact He. }
  destruct (print_result_returns P r s1) as (s2 & Hpr & Hsh & _).
  rewrite Hpr. unfold modify, gets. cbv beta iota.
  set (s3 := with_shell (set_last_exit_code (returncode r)) s2).
  assert (Hp3 : prompt_prefill (shell s3) = EmptyString).
  { change (prompt_prefill (shell s2) = EmptyString). rewrite Hsh. congruence. }
  assert (Hh3 : history (shell s3) = history (shell s)).
  { change (history (shell s2) = history (shell s)). rewrite Hsh. exact Hh. }
  destruct (pending_commands (shell s3)) as [|front rest] eqn:Hq.
  { cbn [ret final]. repeat split; [left; exact Hp3 | exact Hh3]. }
  destruct (String.eqb command front).
  2:{ cbn [ret final]. repeat split; [left; exact Hp3 | exact Hh3]. }
  cbv beta iota.
  set (s4 := with_shell (set_pending_commands rest) s3).
  assert (Hq4 : pending_commands (shell s4) = rest) by reflexivity.
  assert (Hp4 : prompt_prefill (shell s4) = EmptyString) by exact Hp3.
  assert (Hh4 : history (shell s4) = history (shell s)) by exact Hh3.
  destruct rest as [|c rest].
  { cbn [ret final]. repeat split; [left; exact Hp4 | exact Hh4]. }
  unfold _execute_translated_commands, bind, gets. rewrite Hq4.
  pose proof (triage_staged P (c :: rest) s4 Hq4 Hp4) as (Hst & Hr).
  pose proof (triage_history P (c :: rest) s4 Hq4) as Hht.
  destruct (triage P (c :: rest) s4) as [[] s'|e s']; cbn [final] in *;
    repeat split; solve [exact Hst | congruence | exact Hr].
Qed.

(** What [_handle_shortcut] answers. *)
Lemma handle_shortcut_value (request : string) (s s' : Sys P) (b : bool) :
  _handle_shortcut P request s = Ok b s' ->
  b = Py.mem (Py.lower (Py.strip request)) rerun_phrases.
Proof.
  unfold _handle_shortcut. cbv zeta.
  destruct (Py.mem (Py.lower (Py.strip request)) rerun_phrases).
  - unfold bind, ret.
    destruct (_run_pending_commands P s) as [[] s1|e s1]; congruence.
  - unfold ret. congruence.
Qed.

(** The command that [process_input] hands on depends on the text alone. *)
Lemma process_input_command (text : string) (s s' : Sys P)
      (r : InputBuffer.Processed) :
  InputBuffer.process_input P text s = Ok r s' ->
  InputBuffer.command r = processed text.
Proof.
  unfold InputBuffer.process_input, bind, gets, ret.
  destruct (InputBuffer.read_stdin P s) as [blobs s1|e s1]; [|discriminate].
  destruct (Py.contains text "{clipboard}" || Py.contains text "{clip}").
  - destruct (InputBuffer._get_clipboard P s1) as [clip s2|e s2];
      [|discriminate].
    intros E. injection E as <- _. reflexivity.
  - intros E. injection E as <- _. reflexivity.
Qed.

(** One pass through the body of the loop. *)
Lemma body_frame (user_input : string) (s : Sys P) :
  staged_front (final (Loop.body P H user_input s))
  /\ match Loop.body P H user_input s with
     | Ok _ s' =>
         history (shell s')
         = (history (shell s)
            ++ if recorded (os_name_nt P) user_input then [user_input]
               else [])%list
     | Raise e s' =>
         history (shell s') = history (shell s)
         /\ (Py2.is_exception e = true \/ raised_by_execute P e)
     end.
Proof.
  unfold Loop.body, bind, modify. cbv beta iota.
  set (s0 := with_shell (set_prompt_prefill EmptyString) s).
  assert (Hp0 : prompt_prefill (shell s0) = EmptyString) by reflexivity.
  assert (Hh0 : history (shell s0) = history (shell s)) by reflexivity.
  unfold recorded.
  destruct (Py.truthy (Py.strip user_input)); cbn [negb andb].
  2:{ cbn [ret final]. split; [left; exact Hp0|].
      rewrite app_nil_r. exact Hh0. }
  pose proof (process_input_frame P user_input s0) as (Hsh & _ & Hraise).
  destruct (InputBuffer.process_input P user_input s0) as [r s1|e s1] eqn:Hpi;
    cbn [final] in Hsh; cbv beta iota.
  2:{ cbn [final]. split; [left; now rewrite Hsh|].
      split; [now rewrite Hsh | left; exact Hraise]. }
  cbv zeta. rewrite (process_input_command user_input s0 s1 r Hpi).
  assert (Hp1 : prompt_prefill (shell s1) = EmptyString) by now rewrite Hsh.
  assert (Hh1 : history (shell s1) = history (shell s)) by now rewrite Hsh.
  destruct (InputParser.classify (os_name_nt P) (processed user_input)).
  - (* SHELL_COMMAND *)
    pose proof (handle_shell_command_frame (processed user_input) s1 Hp1)
      as (Hst & Hh & Hr).
    destruct (Loop.handle_shell_command P (processed user_input) s1)
      as [[] s2|e s2]; cbn [final] in *; cbv beta iota.
    + cbn [final]. split; [exact Hst|].
      change (history (shell s2) ++ [user_input]
              = history (shell s) ++ [user_input])%list.
      now rewrite Hh, Hh1.
    + split; [exact Hst|]. split; [now rewrite Hh | right; exact Hr].
  - (* NATURAL_LANGUAGE *)
    pose proof (handle_shortcut_frame P (processed user_input) s1 Hp1)
      as (Hp2 & Hh2 & Hr2).
    destruct (_handle_shortcut P (processed user_input) s1)
      as [handled s2|e s2] eqn:Hs; cbn [final] in *; cbv beta iota.
    2:{ split; [left; exact Hp2|].
        split; [now rewrite Hh2 | right; exact Hr2]. }
    rewrite <- (handle_shortcut_value _ _ _ _ Hs).
    destruct handled; cbn [negb]; cbv beta iota.
    { cbn [ret final]. split; [left; exact Hp2|].
      rewrite app_nil_r. now rewrite Hh2. }
    pose proof (handle_nl_translation_frame (processed user_input)
                  (InputBuffer.context r) s2 Hp2) as (Hst & Hh & Hr).
    destruct (Loop._handle_nl_translation P H (processed user_input)
                (InputBuffer.context r) s2) as [[] s3|e s3];
      cbn [final] in *; cbv beta iota.
    + cbn [final]. split; [exact Hst|].
      change (history (shell s3) ++ [user_input]
              = history (shell s) ++ [user_input])%list.
      now rewrite Hh, Hh2, Hh1.
    + split; [exact Hst|].
      split; [now rewrite Hh, Hh2 | right; exact (proj2 Hr)].
  - (* AI_REQUEST *)
    unfold Loop._handle_ai_mode, modify. cbv beta iota. cbn [final].
    split; [left; exact Hp1|].
    change (history (shell s1) ++ [user_input]
            = history (shell s) ++ [user_input])%list.
    now rewrite Hh1.
  - (* COMMENT *)
    cbn [ret final]. split; [left; exact Hp1|].
    rewrite app_nil_r. exact Hh1.
  - (* EMPTY *)
    cbn [ret final]. split; [left; exact Hp1|].
    rewrite app_nil_r. exact Hh1.
Qed.

(** One turn of the loop keeps the invariant of the staged command. *)
Lemma iteration_staged (p : Loop.PromptOutcome) (s : Sys P) :
  staged_front s -> staged_front (snd (Loop.iteration P H p s)).
Proof.
  intros Hs. destruct p as [user_input|]; [|exact Hs].
  unfold Loop.iteration.
  pose proof (body_frame user_input s) as (Hst & _).
  destruct (Loop.body P H user_input s) as [[] s'|e s']; cbn [final] in Hst.
  - exact Hst.
  - destruct (Py2.is_exception e); exact Hst.
Qed.

End LoopHandlers.

Section ExitOrigin.

Variable P : Platform.
Variable H : Translation.Host P.

(** An exception of [run_one] that is no [Exception] left [execute]. *)
Lemma run_one_exit (c : string) (s s' : Sys P) (e : exn) :
  run_one P c s = Raise e s' ->
  Py2.is_exception e = false ->
  raised_in_execute P e s'.
Proof.
  unfold run_one, bind, _print_agent_command, modify, remove_pending.
  destruct (ShellExecutor.execute P c (show (AgentCommand false c) s))
    as [r s1|e1 s1] eqn:He.
  - destruct (print_result_returns P r s1) as (s2 & Hprint & _).
    rewrite Hprint. cbv beta iota.
    destruct (remove_first c _); [discriminate|].
    intros E. injection E as <- <-. discriminate.
  - intros E _. injection E as <- <-.
    exists c, (show (AgentCommand false c) s). exact He.
Qed.

Lemma run_all_exit (q : list string) (s s' : Sys P) (e : exn) :
  run_all P q s = Raise e s' ->
  Py2.is_exception e = false ->
  raised_in_execute P e s'.
Proof.
  revert s. induction q as [|c q IH]; intros s; [discriminate|].
  cbn [run_all]. unfold bind.
  destruct (run_one P c s) as [[] s1|e1 s1] eqn:H1.
  - apply IH.
  - intros E. injection E as <- <-. exact (run_one_exit c s s1 e1 H1).
Qed.

Lemma triage_exit (q : list string) (s s' : Sys P) (e : exn) :
  triage P q s = Raise e s' ->
  Py2.is_exception e = false ->
  raised_in_execute P e s'.
Proof.
  revert s. induction q as [|c q IH]; intros s; [discriminate|].
  rewrite triage_cons.
  destruct (_should_autorun P c s).
  - destruct (run_one P c s) as [[] s1|e1 s1] eqn:H1.
    + apply IH.
    + intros E. injection E as <- <-. exact (run_one_exit c s s1 e1 H1).
  - destruct (negb (Py.truthy (prompt_prefill (shell s)))); discriminate.
Qed.

Lemma handle_shortcut_exit (request : string) (s s' : Sys P) (e : exn) :
  _handle_shortcut P request s = Raise e s' ->
  Py2.is_exception e = false ->
  raised_in_execute P e s'.
Proof.
  unfold _handle_shortcut. cbv zeta.
  destruct (Py.mem (Py.lower (Py.strip request)) rerun_phrases);
    [|discriminate].
  unfold _run_pending_commands, bind, gets, modify.
  destruct (pending_commands (shell s)) as [|c q]; [discriminate|].
  cbv beta iota.
  destruct (run_all P (c :: q) _) as [[] s1|e1 s1] eqn:H1; [discriminate|].
  intros E. injection E as <- <-. exact (run_all_exit _ _ _ _ H1).
Qed.

Lemma handle_nl_translation_exit
      (nl_request : string) (file_context : list string) (s s' : Sys P)
      (e : exn) :
  Loop._handle_nl_translation P H nl_request file_context s = Raise e s' ->
  raised_in_execute P e s'.
Proof.
  rewrite handle_nl_translation_cases.
  destruct (Translation.call_llm_api H (world s) _ _) as [[content|msg] w];
    [|discriminate].
  cbv zeta.
  destruct (triage P _ _) as [[] s1|e1 s1] eqn:H1; [discriminate|].
  destruct (Py2.is_exception e1) eqn:He; [discriminate|].
  intros E. injection E as <- <-. exact (triage_exit _ _ _ _ H1 He).
Qed.

Lemma handle_shell_command_exit (command : string) (s s' : Sys P) (e : exn) :
  Loop.handle_shell_command P command s = Raise e s' ->
  Py2.is_exception e = false ->
  raised_in_execute P e s'.
Proof.
  unfold Loop.handle_shell_command, bind.
  destruct (ShellExecutor.execute P command s) as [r s1|e1 s1] eqn:He.
  2:{ intros E _. injection E as <- <-. exists command, s. exact He. }
  destruct (print_result_returns P r s1) as (s2 & Hpr & _).
  rewrite Hpr. unfold modify, gets. cbv beta iota.
  destruct (pending_commands _) as [|front rest]; [discriminate|].
  destruct (String.eqb command front); [|discriminate].
  cbv beta iota.
  destruct rest as [|c rest]; [discriminate|].
  unfold _execute_translated_commands, bind, gets.
  exact (triage_exit _ _ _ _).
Qed.

Lemma body_exit (user_input : string) (s s' : Sys P) (e : exn) :
  Loop.body P H user_input s = Raise e s' ->
  Py2.is_exception e = false ->
  raised_in_execute P e s'.
Proof.
  unfold Loop.body, bind, modify. cbv beta iota.
  set (s0 := with_shell (set_prompt_prefill EmptyString) s).
  destruct (negb (Py.truthy (Py.strip user_input))); [discriminate|].
  pose proof (process_input_frame P user_input s0) as (_ & _ & Hraise).
  destruct (InputBuffer.process_input P user_input s0) as [r s1|e1 s1].
  2:{ intros E. injection E as <- <-. congruence. }
  cbv zeta beta iota.
  destruct (InputParser.classify (os_name_nt P) (InputBuffer.command r));
    try discriminate.
  - destruct (Loop.handle_shell_command P _ s1) as [[] s2|e2 s2] eqn:H2;
      [discriminate|].
    intros E. injection E as <- <-.
    exact (handle_shell_command_exit _ _ _ _ H2).
  - destruct (_handle_shortcut P _ s1) as [handled s2|e2 s2] eqn:H2.
    2:{ intros E. injection E as <- <-.
        exact (handle_shortcut_exit _ _ _ _ H2). }
    destruct handled; [discriminate|].
    destruct (Loop._handle_nl_translation P H _ _ s2) as [[] s3|e3 s3] eqn:H3;
      [discriminate|].
    intros E. injection E as <- <-. intros _.
    exact (handle_nl_translation_exit _ _ _ _ _ H3).
Qed.

End ExitOrigin.

(** X26: What the translation handler does with the answer of the model.
    When the call of the model fails, the handler returns, the shell state
    and the log of executions are as before and only the error line is
    shown.  When the model answers, the queue is replaced by the actionable
    lines of the translation and gone through: what is left of it afterwards
    is an end of those lines, and the lines dropped from its front were run
    in order, each accepted by the autorun predicate in the state in which
    its turn came and each execution returning. *)
Theorem translation_outcome
        (P : Platform) (H : Translation.Host P)
        (nl_request : string) (file_context : list string) (s : Sys P) :
  let o := Loop._handle_nl_translation P H nl_request file_context s in
  match Translation.call_llm_api H (world s)
          (Translation.build_prompt nl_request
             (Some (Loop.nl_context P H file_context s)))
          Translation.system_prompt with
  | (Translation.LlmFailed msg, _) =>
      o = Ok tt (final o)
      /\ shell (final o) = shell s
      /\ executed (final o) = executed s
      /\ display (final o)
         = (display s
            ++ [ShowStderr ("Translation error: " ++ msg ++ newline)])%list
  | (Translation.Responded content, w) =>
      let translated := translation_of content in
      let queued :=
        with_shell (set_pending_commands (actionable translated))
          (final (Loop._display_translation P translated (with_world w s))) in
      exists done s_end,
        autoran done queued s_end
        /\ actionable translated
           = (done ++ pending_commands (shell (final o)))%list
  end.
Proof.
  cbv zeta. rewrite handle_nl_translation_cases.
  destruct (Translation.call_llm_api H (world s) _ _) as [[content|msg] w].
  - cbv zeta.
    set (q := actionable (translation_of content)).
    set (s2 := with_shell (set_pending_commands q) _).
    destruct (triage_exact P q s2 eq_refl) as (done & s_end & Hr & Hm).
    exists done, s_end. split; [exact Hr|].
    destruct (triage P q s2) as [[] s'|e s'].
    + exact (proj1 Hm).
    + destruct Hm as (c & rest & Hq & _ & _ & _ & Hq').
      destruct (Py2.is_exception e); cbn [final];
        [change (q = done ++ pending_commands (shell s'))%list|];
        now rewrite Hq'.
  - cbn [final]. repeat split.
Qed.

(** X27: Entering a command while a queue is pending.  When the command is
    the front of the queue and its execution returns, the front is removed
    and the rest is gone through: what is left afterwards is an end of the
    rest, and the lines dropped from it were run in order, each accepted by
    the autorun predicate in the state in which its turn came and each
    execution returning.  When the command differs from the front, or its
    execution raises, the queue is as it was. *)
Theorem accepted_command_advances_queue
        (P : Platform) (command front : string) (rest : list string)
        (s : Sys P) :
  pending_commands (shell s) = front :: rest ->
  let o := Loop.handle_shell_command P command s in
  match ShellExecutor.execute P command s with
  | Ok r s1 =>
      if String.eqb command front then
        let popped :=
          with_shell (set_pending_commands rest)
            (with_shell (set_last_exit_code (returncode r))
               (final (_print_result P r s1))) in
        exists done s_end,
          autoran done popped s_end
          /\ rest = (done ++ pending_commands (shell (final o)))%list
      else pending_commands (shell (final o)) = front :: rest
  | Raise e _ =>
      o = Raise e (final o)
      /\ pending_commands (shell (final o)) = front :: rest
  end.
Proof.
  intros Hq. cbv zeta. unfold Loop.handle_shell_command, bind.
  pose proof (execute_effect P command s) as (Hpend & _).
  cbv zeta in Hpend.
  destruct (ShellExecutor.execute P command s) as [r s1|e s1];
    cbn [final] in *.
  2:{ split; [reflexivity | congruence]. }
  destruct (print_result_returns P r s1) as (s2 & Hpr & Hsh & _).
  rewrite Hpr. unfold modify, gets. cbv beta iota. cbn [final].
  set (s3 := with_shell (set_last_exit_code (returncode r)) s2).
  assert (Hq3 : pending_commands (shell s3) = front :: rest).
  { change (pending_commands (shell s2) = front :: rest).
    rewrite Hsh. congruence. }
  rewrite Hq3.
  destruct (String.eqb command front); [|exact Hq3].
  cbv beta iota.
  set (s4 := with_shell (set_pending_commands rest) s3).
  destruct rest as [|c rest].
  { exists [], s4. split; reflexivity. }
  unfold _execute_translated_commands, bind, gets.
  change (pending_commands (shell s4)) with (c :: rest).
  destruct (triage_exact P (c :: rest) s4 eq_refl)
    as (done & s_end & Hr & Hm).
  exists done, s_end. split; [exact Hr|].
  destruct (triage P (c :: rest) s4) as [[] s'|e s']; cbn [final].
  - exact (proj1 Hm).
  - destruct Hm as (c' & rest' & Hqb & _ & _ & _ & Hq'). now rewrite Hq'.
Qed.

Lemma accepted_command_advances_queue_witness :
  pending_commands (shell (Headless.session ["ls -la"; "rm -rf /tmp/x"]))
  = ["ls -la"; "rm -rf /tmp/x"]
  /\ let o := Loop.handle_shell_command Headless.platform "ls -la"
                (Headless.session ["ls -la"; "rm -rf /tmp/x"]) in
     match ShellExecutor.execute Headless.platform "ls -la"
             (Headless.session ["ls -la"; "rm -rf /tmp/x"]) with
     | Ok r s1 =>
         if String.eqb "ls -la" "ls -la" then
           let popped :=
             with_shell (set_pending_commands ["rm -rf /tmp/x"])
               (with_shell (set_last_exit_code (returncode r))
                  (final (_print_result Headless.platform r s1))) in
           exists done s_end,
             autoran done popped s_end
             /\ ["rm -rf /tmp/x"]
                = (done ++ pending_commands (shell (final o)))%list
         else pending_commands (shell (final o))
              = ["ls -la"; "rm -rf /tmp/x"]
     | Raise e _ =>
         o = Raise e (final o)
         /\ pending_commands (shell (final o)) = ["ls -la"; "rm -rf /tmp/x"]
     end.
Proof.
  split; [reflexivity|].
  apply (accepted_command_advances_queue Headless.platform "ls -la" "ls -la"
           ["rm -rf /tmp/x"]).
  reflexivity.
Defined.

(** X28: Through any sequence of prompts the loop keeps this invariant: the
    text prepared for the next prompt is empty or is the front of the queue
    of pending commands. *)
Theorem loop_keeps_staged_front
        (P : Platform) (H : Translation.Host P)
        (prompts : list Loop.PromptOutcome) (s : Sys P) :
  staged_front s ->
  staged_front (snd (Loop.run P H prompts s)).
Proof.
  revert s. induction prompts as [|p prompts IH]; intros s Hs; [exact Hs|].
  cbn [Loop.run].
  pose proof (iteration_staged P H p s Hs) as Hit.
  destruct (Loop.iteration P H p s) as [[|] s1]; cbn [snd] in *.
  - now apply IH.
  - exact Hit.
Qed.

Lemma loop_keeps_staged_front_witness :
  staged_front (Headless.session [])
  /\ staged_front
       (snd (Loop.run Headless.platform HeadlessHost.host
               [Loop.Submitted "clean up"; Loop.Interrupted;
                Loop.Submitted "rm -rf /tmp/x"; Loop.Submitted "exit"]
               (Headless.session []))).
Proof.
  split; [left; reflexivity|].
  apply (loop_keeps_staged_front Headless.platform HeadlessHost.host).
  left. reflexivity.
Defined.

(** X29: The loop ends only on SystemExit raised by an execution: when [run]
    breaks, its final state is the state that a call of [execute] left when
    it raised SystemExit, with the farewell shown, and the command of that
    call is the last one executed. *)
Theorem loop_ends_only_on_exit
        (P : Platform) (H : Translation.Host P)
        (prompts : list Loop.PromptOutcome) (s s' : Sys P) :
  Loop.run P H prompts s = (Loop.Break, s') ->
  exists c sc sb code,
    ShellExecutor.execute P c sc = Raise (SystemExit code) sb
    /\ s' = show (Notice Loop.farewell) sb
    /\ executed s' = (executed sc ++ [c])%list.
Proof.
  revert s. induction prompts as [|p prompts IH]; intros s; [discriminate|].
  cbn [Loop.run].
  destruct (Loop.iteration P H p s) as [[|] s1] eqn:Hit; [apply IH|].
  intros E. injection E as <-.
  destruct p as [user_input|]; [|discriminate].
  unfold Loop.iteration in Hit.
  destruct (Loop.body P H user_input s) as [[] sb|e sb] eqn:Hb;
    [discriminate|].
  destruct (Py2.is_exception e) eqn:He; [discriminate|].
  injection Hit as <-.
  destruct (body_exit P H user_input s sb e Hb He) as (c & sc & Hex).
  destruct e as [code| | |]; try discriminate He.
  exists c, sc, sb, code. split; [exact Hex|]. split; [reflexivity|].
  pose proof (execute_effect P c sc) as (_ & _ & _ & Hexec & _).
  cbv zeta in Hexec. rewrite Hex in Hexec. exact Hexec.
Qed.

Lemma loop_ends_only_on_exit_witness :
  Loop.run Headless.platform HeadlessHost.host
    [Loop.Interrupted; Loop.Submitted "run it";
     Loop.Submitted "pwd"]
    (Headless.session ["exit 3"])
  = (Loop.Break,
     snd (Loop.run Headless.platform HeadlessHost.host
            [Loop.Interrupted; Loop.Submitted "run it";
             Loop.Submitted "pwd"]
            (Headless.session ["exit 3"])))
  /\ exists c sc sb code,
       ShellExecutor.execute Headless.platform c sc
       = Raise (SystemExit code) sb
       /\ snd (Loop.run Headless.platform HeadlessHost.host
                 [Loop.Interrupted; Loop.Submitted "run it";
                  Loop.Submitted "pwd"]
                 (Headless.session ["exit 3"]))
          = show (Notice Loop.farewell) sb
       /\ executed
            (snd (Loop.run Headless.platform HeadlessHost.host
                    [Loop.Interrupted; Loop.Submitted "run it";
                     Loop.Submitted "pwd"]
                    (Headless.session ["exit 3"])))
          = (executed sc ++ [c])%list.
Proof.
  split; [vm_compute; reflexivity|].
  apply (loop_ends_only_on_exit Headless.platform HeadlessHost.host
           [Loop.Interrupted; Loop.Submitted "run it";
            Loop.Submitted "pwd"]
           (Headless.session ["exit 3"])).
  vm_compute. reflexivity.
Defined.

(** X30: Which lines one turn of the loop adds to the history.  The line
    as it was typed is appended exactly when the body handles it without an
    exception and it is neither blank, nor empty or a comment once
    processed, nor a rerun phrase; an interrupted prompt and a turn that
    ends in an exception add nothing. *)
Theorem history_records_handled_lines
        (P : Platform) (H : Translation.Host P)
        (p : Loop.PromptOutcome) (s : Sys P) :
  history (shell (snd (Loop.iteration P H p s)))
  = (history (shell s)
     ++ match p with
        | Loop.Submitted user_input =>
            match Loop.body P H user_input s with
            | Ok _ _ =>
                if recorded (os_name_nt P) user_input then [user_input]
                else []
            | Raise _ _ => []
            end
        | Loop.Interrupted => []
        end)%list.
Proof.
  destruct p as [user_input|]; [|symmetry; apply app_nil_r].
  unfold Loop.iteration.
  pose proof (body_frame P H user_input s) as (_ & Hb).
  destruct (Loop.body P H user_input s) as [[] s'|e s']; [exact Hb|].
  destruct Hb as (Hh & _). rewrite app_nil_r.
  destruct (Py2.is_exception e); exact Hh.
Qed.
